(** * Realtime delivery, deduplication and reconciliation of the web client

    A shallow embedding of the client-side handlers of the repository
    (React components under [frontend/src]) together with the properties
    that the specification states about them.

    - [Js]               : the string and truthiness primitives the handlers use
    - [Browser]          : records shared by the components (storage, payloads)
    - [Layout]           : [components/Layout/Layout.tsx]
    - [WebSocketContext] : [contexts/WebSocketContext.tsx]
    - [Dashboard]        : [components/Dashboard/Dashboard.tsx]
    - [Chat]             : [components/Chat/Chat.tsx]
    - [Router]           : the two listeners of the push connection, together
    - [Display]          : labels of relative times
    - [LayoutView]       : the rest of the notification menu of [Layout.tsx]
    - [DashboardView]    : the rest of the page of [Dashboard.tsx]
    - [AuthContext]      : [contexts/AuthContext.tsx], login and logout
    - [ChatSession]      : sending and clearing in [Chat.tsx]
    - [NotificationUtils]: [utils/notificationUtils.ts]

    The vocabulary of the properties and the sample states follow the
    embedding, and the properties follow the vocabulary.

    React state is passed explicitly: a handler takes the component state
    and returns the next one.  A functional updater
    [setX(prev => ...)] reads the state it is applied to; a value read from
    the enclosing render is passed as an argument of its own.  Wall-clock
    reads ([Date.now()], [new Date()]) and [Math.random()] are arguments.
    Time stamps are integral milliseconds. *)

From Stdlib Require Import ZArith Lia List Bool String Ascii Sorted.
From stdpp Require Import base decidable option list strings gmap pretty.

Local Open Scope Z_scope.
Local Open Scope string_scope.

(** ** JavaScript primitives *)
Module Js.

(** [\d] of a regular expression without the unicode flag: ASCII 0-9. *)
Definition is_digit (c : ascii) : bool :=
  ((48 <=? N_of_ascii c)%N && (N_of_ascii c <=? 57)%N)%bool.

(** [s.startsWith(p)]. *)
Fixpoint startsWith (p s : string) : bool :=
  match p, s with
  | EmptyString, _ => true
  | String a p', String b s' => if Ascii.eqb a b then startsWith p' s' else false
  | String _ _, EmptyString => false
  end.

(** [s.includes(needle)]. *)
Fixpoint includes (needle s : string) : bool :=
  (startsWith needle s ||
   match s with
   | EmptyString => false
   | String _ s' => includes needle s'
   end)%bool.

(** [s.split(sep)] for a one-character separator. *)
Fixpoint split (sep : ascii) (s : string) : list string :=
  match s with
  | EmptyString => [EmptyString]
  | String c s' =>
      if Ascii.eqb c sep then EmptyString :: split sep s'
      else match split sep s' with
           | h :: t => String c h :: t
           | [] => [String c EmptyString]
           end
  end.

(** Rendering of an array element in a call or a template literal:
    an index out of range reads [undefined]. *)
Definition to_text (o : option string) : string :=
  match o with
  | Some s => s
  | None => "undefined"
  end.

(** Truthiness of a string-or-undefined value. *)
Definition truthy (o : option string) : bool :=
  match o with
  | Some s => negb (String.eqb s EmptyString)
  | None => false
  end.

(** [a || b] where [a] is a string or undefined. *)
Definition or_else (a : option string) (b : string) : string :=
  match a with
  | Some s => if String.eqb s EmptyString then b else s
  | None => b
  end.

Fixpoint drop (n : nat) (s : string) : string :=
  match n, s with
  | O, _ => s
  | S k, String _ s' => drop k s'
  | S _, EmptyString => EmptyString
  end.

(** Number of leading characters of [s] matched by [\d*]. *)
Fixpoint count_digits (s : string) : nat :=
  match s with
  | String c s' => if is_digit c then S (count_digits s') else O
  | EmptyString => O
  end.

(** Length of the match of [/PR #\d+/] anchored at the start of [s]. *)
Definition match_pr (s : string) : option nat :=
  if startsWith "PR #" s then
    match count_digits (drop 4 s) with
    | O => None
    | S d => Some (4 + S d)%nat
    end
  else None.

(** [s.replace(/PR #\d+/g, 'Pull Request')]: scan from the left; where the
    pattern matches, emit the replacement and resume after the match;
    elsewhere copy one character.  [skip] counts the characters of the
    current match still to be consumed. *)
Fixpoint replace_pr_from (skip : nat) (s : string) : string :=
  match s with
  | EmptyString => EmptyString
  | String c s' =>
      match skip with
      | S k => replace_pr_from k s'
      | O =>
          match match_pr s with
          | Some n => "Pull Request" ++ replace_pr_from (Nat.pred n) s'
          | None => String c (replace_pr_from O s')
          end
      end
  end.

Definition replace_pr (s : string) : string := replace_pr_from O s.

(** [Math.abs(a - b)] on integral millisecond time stamps. *)
Definition abs_diff (a b : Z) : Z := Z.abs (a - b).

End Js.

(** ** Records shared by the components *)
Module Browser.

(** A field value of a request summary as it travels in JSON. *)
Inductive JVal : Type :=
| JNull
| JBool (b : bool)
| JNum (n : Z)
| JStr (s : string)
| JObj (fields : list (string * string)).

Global Instance JVal_eq_dec : EqDecision JVal.
Proof. solve_decision. Defined.

(** [interface Request] of the dashboard.  [request_identifier] is the
    natural key; the remaining fields ([id], [status], [resources], ...)
    are kept by name, so that an object spread is a left-biased union. *)
Record Request : Type := mkRequest {
  request_identifier : string;
  fields : gmap string JVal
}.

Global Instance Request_eq_dec : EqDecision Request.
Proof. solve_decision. Defined.

Inductive Severity : Type := success | error | info | warning.

Global Instance Severity_eq_dec : EqDecision Severity.
Proof. solve_decision. Defined.

(** [interface StoredNotification]; [timestamp] is [getTime()] in ms. *)
Record StoredNotification : Type := mkStored {
  id : string;
  title : string;
  message : string;
  type : Severity;
  timestamp : Z;
  read : bool;
  deployment_details : option string
}.

Global Instance StoredNotification_eq_dec : EqDecision StoredNotification.
Proof. solve_decision. Defined.

(** The keys of [localStorage] the handlers read or write; [None] is an
    absent key. *)
Record LocalStorage : Type := mkLocal {
  layout_notifications : option (list StoredNotification);
  fetched_notification_ids : option (list string);
  dashboard_requests : option (list Request);
  token : option string;
  login_time : option string
}.

Definition set_layout_notifications (v : option (list StoredNotification))
    (ls : LocalStorage) : LocalStorage :=
  mkLocal v (fetched_notification_ids ls) (dashboard_requests ls) (token ls) (login_time ls).

Definition set_fetched_notification_ids (v : option (list string))
    (ls : LocalStorage) : LocalStorage :=
  mkLocal (layout_notifications ls) v (dashboard_requests ls) (token ls) (login_time ls).

Definition set_dashboard_requests (v : option (list Request))
    (ls : LocalStorage) : LocalStorage :=
  mkLocal (layout_notifications ls) (fetched_notification_ids ls) v (token ls) (login_time ls).

(** [data.popup] of a [popup_notification]. *)
Record Popup : Type := mkPopup {
  popup_id : option string;
  popup_title : string;
  popup_message : string;
  popup_type : option Severity
}.

(** The parsed payload of a push message, [JSON.parse(event.data)].
    [data_timestamp] holds the value as a template literal renders it; an
    absent or falsy time stamp is [None].  [popup] and [request] are the
    objects that one kind of message carries. *)
Record WsData : Type := mkWsData {
  data_type : string;
  message_id : option string;
  data_timestamp : option string;
  popup : option Popup;
  data_title : string;
  data_message : string;
  notification_type : option string;
  data_data : option string;
  request : option Request;
  buttons : option string;
  show_text_input : option bool;
  greeting : bool;
  approved : bool
}.

End Browser.

(** ** [components/Layout/Layout.tsx] *)
Module Layout.
Import Browser.

(** One element of [response.data.notifications].  [created_at] is
    [new Date(n.created_at + 'Z').getTime()], [None] for an invalid date. *)
Record DbNotification : Type := mkDb {
  db_id : string;
  db_title : string;
  db_message : string;
  db_status : string;
  created_at : option Z;
  is_read : bool;
  db_deployment_details : option string
}.

Inductive ApiCall : Type :=
| GetNotifications
| MarkAsRead (dbId : string)
| MarkAllAsRead
| ClearAll.

(** Calls that leave the component, in the order they are made. *)
Inductive Effect : Type :=
| ShowSnackbar (msg : string) (severity : Severity)
| PlaySound
| WsSend (popupId : option string) (messageId : string) (sentAt : Z)
| DispatchRequestUpdate (detail : Request).

(** The [useState] cells of the component, the storage of the origin, and
    the effects issued so far (latest first). *)
Record State : Type := mkState {
  storedNotifications : list StoredNotification;
  notificationCount : nat;
  snackbarOpen : bool;
  snackbarMessage : string;
  snackbarSeverity : Severity;
  soundEnabled : bool;
  realTimeUpdates : bool;
  notificationAnchor : bool;
  ws : bool;
  localStorage : LocalStorage;
  trace : list Effect
}.

Definition setStoredNotifications (l : list StoredNotification) (st : State) : State :=
  mkState l (notificationCount st) (snackbarOpen st) (snackbarMessage st)
    (snackbarSeverity st) (soundEnabled st) (realTimeUpdates st)
    (notificationAnchor st) (ws st) (localStorage st) (trace st).

Definition setNotificationCount (n : nat) (st : State) : State :=
  mkState (storedNotifications st) n (snackbarOpen st) (snackbarMessage st)
    (snackbarSeverity st) (soundEnabled st) (realTimeUpdates st)
    (notificationAnchor st) (ws st) (localStorage st) (trace st).

Definition setNotificationAnchor (b : bool) (st : State) : State :=
  mkState (storedNotifications st) (notificationCount st) (snackbarOpen st)
    (snackbarMessage st) (snackbarSeverity st) (soundEnabled st)
    (realTimeUpdates st) b (ws st) (localStorage st) (trace st).

Definition setLocalStorage (f : LocalStorage -> LocalStorage) (st : State) : State :=
  mkState (storedNotifications st) (notificationCount st) (snackbarOpen st)
    (snackbarMessage st) (snackbarSeverity st) (soundEnabled st)
    (realTimeUpdates st) (notificationAnchor st) (ws st)
    (f (localStorage st)) (trace st).

Definition emit (e : Effect) (st : State) : State :=
  mkState (storedNotifications st) (notificationCount st) (snackbarOpen st)
    (snackbarMessage st) (snackbarSeverity st) (soundEnabled st)
    (realTimeUpdates st) (notificationAnchor st) (ws st) (localStorage st)
    (e :: trace st).

(** [setSnackbarMessage(m); setSnackbarSeverity(s); setSnackbarOpen(true)]. *)
Definition showSnackbar (m : string) (s : Severity) (st : State) : State :=
  emit (ShowSnackbar m s)
    (mkState (storedNotifications st) (notificationCount st) true m s
       (soundEnabled st) (realTimeUpdates st) (notificationAnchor st) (ws st)
       (localStorage st) (trace st)).

Definition playNotificationSound (st : State) : State :=
  if soundEnabled st then emit PlaySound st else st.

Definition unread (l : list StoredNotification) : nat :=
  length (filter (fun n => read n = false) l).

Definition updateNotificationCount (l : list StoredNotification) (st : State) : State :=
  setNotificationCount (unread l) st.

(** [data.message_id || `${data.type}_${data.timestamp || Date.now()}`]. *)
Definition messageId (now : Z) (d : WsData) : string :=
  Js.or_else (message_id d)
    (data_type d ++ "_" ++ Js.or_else (data_timestamp d) (pretty now)).

Definition bellNotification (now : Z) (d : WsData) : StoredNotification :=
  mkStored ("bell_" ++ messageId now d)
    (data_title d)
    (Js.replace_pr (data_message d))
    (match notification_type d with
     | Some t => if String.eqb t "success" then success
                 else if String.eqb t "error" then error else info
     | None => info
     end)
    now
    false
    (Some (default "{}" (data_data d))).

(** The three tests inside [prev.some(n => ...)] of the push path. *)
Definition sameContent (n b : StoredNotification) : bool :=
  (String.eqb (title n) (title b) && String.eqb (message n) (message b))%bool.

Definition recentTime (window : Z) (n b : StoredNotification) : bool :=
  (Js.abs_diff (timestamp n) (timestamp b) <? window)%Z.

Definition sameId (mid : string) (n : StoredNotification) : bool :=
  (negb (String.eqb mid EmptyString) &&
   Js.includes (Js.to_text (nth_error (Js.split "_" mid) 1)) (id n))%bool.

Definition isDuplicate (mid : string) (b : StoredNotification)
    (prev : list StoredNotification) : bool :=
  existsb (fun n => (sameContent n b && recentTime 10000 n b) || sameId mid n)%bool prev.

(** The updater passed to [setStoredNotifications] on the push path. *)
Definition mergeBell (mid : string) (b : StoredNotification) (st : State) : State :=
  let prev := storedNotifications st in
  if isDuplicate mid b prev then st
  else
    let updated := take 15 (b :: prev) in
    setStoredNotifications updated
      (setLocalStorage (set_layout_notifications (Some updated))
         (setNotificationCount (unread updated) st)).

(** [handleWebSocketMessage].  A payload that lacks the object its branch
    dereferences raises a TypeError before any state is touched.  The
    listener and the poller read [soundEnabled] as the render that
    installed them had it; it is read from the state here, which is the
    same value as long as [toggleSound] has not run since. *)
Definition handleWebSocketMessage (now : Z) (d : WsData) (st : State) : State :=
  let mid := messageId now d in
  if String.eqb (data_type d) "popup_notification" then
    match popup d with
    | None => st
    | Some p =>
        let st1 := showSnackbar (popup_message p) (default info (popup_type p)) st in
        let st2 := if soundEnabled st1 then playNotificationSound st1 else st1 in
        if ws st2 then emit (WsSend (popup_id p) mid now) st2 else st2
    end
  else if String.eqb (data_type d) "notification" then
    mergeBell mid (bellNotification now d) st
  else if String.eqb (data_type d) "request_update" then
    match request d with
    | None => st
    | Some r => emit (DispatchRequestUpdate r) st
    end
  else st.

(** [loadStoredNotifications]; the stored text always parses here, since
    only the handlers below write it. *)
Definition loadStoredNotifications (st : State) : State :=
  match layout_notifications (localStorage st) with
  | Some parsed => updateNotificationCount parsed (setStoredNotifications parsed st)
  | None => st
  end.

(** The filter that selects [newNotifications]. *)
Definition isNew (now : Z) (fetchedIds : list string) (n : DbNotification) : bool :=
  (match created_at n with
   | Some t => (now - 2 * 60 * 60 * 1000 <? t)%Z
   | None => false
   end
   && negb (is_read n)
   && negb (bool_decide (db_id n ∈ fetchedIds)))%bool.

(** The element that [newNotifications.map] builds.  A row with an
    invalid date never gets here: [isNew] rejects it. *)
Definition convert (n : DbNotification) : StoredNotification :=
  mkStored ("db_" ++ db_id n)
    (db_title n)
    (db_message n)
    (if String.eqb (db_status n) "deployed" then success
     else if String.eqb (db_status n) "failed" then error else info)
    (default 0 (created_at n))
    false
    (db_deployment_details n).

(** [convertedNotifications.filter(newNotif => !stored.some(...))]. *)
Definition uniqueNew (stored converted : list StoredNotification)
    : list StoredNotification :=
  filter (fun newNotif =>
            existsb (fun existingNotif =>
                       sameContent existingNotif newNotif
                       && recentTime 30000 existingNotif newNotif)%bool stored
            = false)
         converted.

(** The updater passed to [setStoredNotifications] on the poll path. *)
Definition mergeOffline (converted : list StoredNotification) (st : State) : State :=
  let prev := storedNotifications st in
  match uniqueNew prev converted with
  | [] => st
  | u =>
      let updated := take 20 (u ++ prev)%list in
      setStoredNotifications updated
        (setLocalStorage (set_layout_notifications (Some updated))
           (updateNotificationCount updated st))
  end.

(** [fetchOfflineNotifications].  [captured] is the [storedNotifications]
    of the render whose closure runs; [response] is [None] when the
    request fails, which the surrounding [try] swallows. *)
Definition fetchOfflineNotifications (captured : list StoredNotification)
    (now : Z) (response : option (list DbNotification)) (st : State) : State :=
  match response with
  | None => st
  | Some dbNotifications =>
      let fetchedIds := default [] (fetched_notification_ids (localStorage st)) in
      let newNotifications := filter (fun n => isNew now fetchedIds n = true) dbNotifications in
      match newNotifications with
      | [] => st
      | _ :: _ =>
          let converted := map convert newNotifications in
          let st1 :=
            match uniqueNew captured converted with
            | newestNotification :: _ =>
                let s := showSnackbar (message newestNotification)
                           (type newestNotification) st in
                if soundEnabled s then playNotificationSound s else s
            | [] => st
            end in
          let st2 := mergeOffline converted st1 in
          setLocalStorage
            (set_fetched_notification_ids
               (Some (fetchedIds ++ map db_id newNotifications)%list))
            st2
      end
  end.

(** An [async] function up to and after its single [await]: [Await s c k]
    has reached state [s], issued [c], and continues with [k] once the call
    settles. *)
Inductive Settled : Type := Fulfilled | Rejected.

Inductive Async : Type :=
| Done (s : State)
| Await (s : State) (call : ApiCall) (k : Settled -> State -> State).

Definition suspended (a : Async) : State :=
  match a with Done s => s | Await s _ _ => s end.


(** The state once the awaited call has settled with [r], no other handler
    having run in between. *)
Definition settle (r : Settled) (a : Async) : State :=
  match a with Done s => s | Await s _ k => k r s end.

Definition markNotificationAsRead (i : string) (st : State) : Async :=
  let updatedNotifications :=
    map (fun n => if String.eqb (id n) i
                  then mkStored (id n) (title n) (message n) (type n)
                         (timestamp n) true (deployment_details n)
                  else n)
        (storedNotifications st) in
  let st1 :=
    setLocalStorage (set_layout_notifications (Some updatedNotifications))
      (updateNotificationCount updatedNotifications
         (setStoredNotifications updatedNotifications st)) in
  if Js.startsWith "db_" i
  then Await st1 (MarkAsRead (Js.drop 3 i)) (fun _ s => s)
  else Done st1.

Definition markAllNotificationsAsRead (st : State) : Async :=
  let updatedNotifications :=
    map (fun n => mkStored (id n) (title n) (message n) (type n)
                    (timestamp n) true (deployment_details n))
        (storedNotifications st) in
  let st1 :=
    setNotificationCount 0
      (setStoredNotifications updatedNotifications
         (setLocalStorage (set_layout_notifications (Some updatedNotifications)) st)) in
  Await st1 MarkAllAsRead (fun _ s => setNotificationAnchor false s).

Definition clearAllNotifications (st : State) : Async :=
  Await st ClearAll
    (fun _ s =>
       setNotificationAnchor false
         (setNotificationCount 0
            (setStoredNotifications []
               (setLocalStorage
                  (fun ls => set_fetched_notification_ids None
                               (set_layout_notifications None ls)) s)))).

(** The effect that starts the poller: what runs at once, the period of
    the interval, and the events a listener is registered for. *)
Definition pollDelay : Z := 30000.

Inductive Event : Type :=
| Mount
| IntervalTick
| WindowEvent (name : string) (key : option string)
| DocumentEvent (name : string)
| WsMessage (d : WsData).

Inductive Action : Type :=
| LoadStoredNotifications
| FetchOfflineNotifications
| PlayNotificationSound
| HandleWebSocketMessage (d : WsData).

(** What the effect of lines 107-235 runs for an event; [visible] is
    [document.visibilityState === 'visible']. *)
Definition react (visible : bool) (ev : Event) (st : State) : list Action :=
  match ev with
  | Mount => [LoadStoredNotifications; FetchOfflineNotifications]
  | IntervalTick =>
      if (realTimeUpdates st && visible)%bool then [FetchOfflineNotifications] else []
  | WindowEvent name key =>
      if String.eqb name "storage" then
        if bool_decide (key = Some "layout_notifications")
        then [LoadStoredNotifications; PlayNotificationSound] else []
      else []
  | DocumentEvent _ => []
  | WsMessage d => if ws st then [HandleWebSocketMessage d] else []
  end.

(** Number of poller runs an event starts. *)
Definition is_fetch (a : Action) : bool :=
  match a with
  | FetchOfflineNotifications => true
  | _ => false
  end.

Definition polls (l : list Action) : nat :=
  length (filter (fun a => is_fetch a = true) l).

End Layout.

(** ** [contexts/WebSocketContext.tsx] *)
Module WebSocketContext.
Import Browser.

Inductive Callback : Type := ConnectWebSocket.

Global Instance Callback_eq_dec : EqDecision Callback.
Proof. solve_decision. Defined.

(** A call of [setTimeout(callback, delay)]. *)
Record Timer : Type := mkTimer {
  handle : nat;
  delay : Z;
  callback : Callback
}.

Global Instance Timer_eq_dec : EqDecision Timer.
Proof. solve_decision. Defined.

(** The provider: its two state cells, its two refs, the [user] of the
    render that created the socket, the storage, and the timers set. *)
Record State : Type := mkState {
  ws : bool;
  connected : bool;
  wsRef : bool;
  reconnectTimeoutRef : option nat;
  user : option string;
  localStorage : LocalStorage;
  timers : list Timer
}.

(** [user && localStorage.getItem('token')]. *)
Definition authenticated (st : State) : bool :=
  (bool_decide (is_Some (user st)) && Js.truthy (token (localStorage st)))%bool.

(** The chain of [event.code !== ...] tests. *)
Definition unexpected (code : Z) : bool :=
  (negb (code =? 1000) && negb (code =? 1001) && negb (code =? 1005)
   && negb (code =? 1012))%bool%Z.

(** [websocket.onclose]. *)
Definition onclose (code : Z) (st : State) : State :=
  let st1 := mkState false false false (reconnectTimeoutRef st) (user st)
               (localStorage st) (timers st) in
  if (unexpected code && authenticated st1)%bool then
    let h := length (timers st1) in
    mkState (ws st1) (connected st1) (wsRef st1) (Some h) (user st1)
      (localStorage st1) (mkTimer h 1000 ConnectWebSocket :: timers st1)
  else st1.

End WebSocketContext.

(** ** [components/Dashboard/Dashboard.tsx] *)
Module Dashboard.
Import Browser.

Record State : Type := mkState {
  requests : list Request;
  processedUpdates : list string;
  lastUpdateTime : Z;
  localStorage : LocalStorage
}.

(** A field inside a template literal.  [JNum] holds an integer that the
    literal prints with all its digits (one below 10^21 in magnitude). *)
Definition render (v : option JVal) : string :=
  match v with
  | None => "undefined"
  | Some JNull => "null"
  | Some (JBool b) => if b then "true" else "false"
  | Some (JNum n) => pretty n
  | Some (JStr s) => s
  | Some (JObj _) => "[object Object]"
  end.

(** [`${request_identifier}_${status}_${Date.now()}`]. *)
Definition updateId (now : Z) (u : Request) : string :=
  request_identifier u ++ "_" ++ render (fields u !! "status") ++ "_" ++ pretty now.

(** [ids.slice(-n)]. *)
Definition slice_last {A} (n : nat) (l : list A) : list A :=
  drop (length l - n) l.

(** [processedUpdates.add(id)] followed by the clean-up of old ids; the
    set iterates in insertion order. *)
Definition remember (i : string) (seen : list string) : list string :=
  let seen1 := if bool_decide (i ∈ seen) then seen else (seen ++ [i])%list in
  if (50 <? length seen1)%nat then slice_last 25 seen1 else seen1.

(** [{ ...req, ...updatedRequest }]. *)
Definition spread (req u : Request) : Request :=
  mkRequest (request_identifier u) (fields u ∪ fields req).

(** The updater passed to [setRequests]: the new list, which is also what
    the updater writes under [dashboard_requests]. *)
Definition applyDelta (u : Request) (prevRequests : list Request) : list Request :=
  let updated :=
    map (fun req =>
           if String.eqb (request_identifier req) (request_identifier u)
           then spread req u else req)
        prevRequests in
  let exist :=
    existsb (fun req => String.eqb (request_identifier req) (request_identifier u))
            prevRequests in
  if exist then updated else u :: updated.

(** [handleRequestUpdate]. *)
Definition handleRequestUpdate (now : Z) (u : Request) (st : State) : State :=
  let i := updateId now u in
  if bool_decide (i ∈ processedUpdates st) then st
  else
    let next := applyDelta u (requests st) in
    mkState next (remember i (processedUpdates st)) now
      (set_dashboard_requests (Some next) (localStorage st)).

End Dashboard.

(** ** [components/Chat/Chat.tsx] *)
Module Chat.
Import Browser.

Inductive Sender : Type := from_user | from_bot | from_system.

Global Instance Sender_eq_dec : EqDecision Sender.
Proof. solve_decision. Defined.

(** [interface Message]. *)
Record Message : Type := mkMessage {
  msg_id : string;
  msg_type : Sender;
  content : string;
  msg_timestamp : Z;
  msg_buttons : option string
}.

Global Instance Message_eq_dec : EqDecision Message.
Proof. solve_decision. Defined.

Record User : Type := mkUser {
  user_id : string;
  user_name : option string
}.

(** [sessionStorage]: one map per family of keys, indexed by the text
    that follows the prefix ([chat_session_], [chat_messages_],
    [chat_key_], [greeting_shown_]). *)
Record SessionStorage : Type := mkSession {
  chat_session : gmap string string;
  chat_messages : gmap string (list Message);
  chat_key : gmap string string;
  greeting_shown : gmap string string
}.

Inductive Callback : Type := AddWelcomeMessage | RefreshUser.

(** The state cells and refs of the component, the identity, the two
    storages, the timers set, and the console.  [console] holds the line
    that [addWelcomeMessage] writes when it shows the message, latest
    first; the other log lines are left out. *)
Record State : Type := mkState {
  messages : list Message;
  processing : bool;
  showTextInput : bool;
  greetingShown : bool;
  conversationKey : string;
  processedMessages : list string;
  user : option User;
  localStorage : LocalStorage;
  sessionStorage : SessionStorage;
  timers : list (Z * Callback);
  console : list string
}.

(** [user?.id] inside a template literal. *)
Definition uid (st : State) : string := Js.to_text (user_id <$> user st).

(** [if (user?.id)]. *)
Definition has_uid (st : State) : bool := Js.truthy (user_id <$> user st).

Definition initializeNewConversation (now : Z) (st : State) : State :=
  let ss := sessionStorage st in
  mkState [] (processing st) (showTextInput st) false
    ("chat_" ++ uid st ++ "_" ++ pretty now)
    (processedMessages st) (user st) (localStorage st)
    (if has_uid st
     then mkSession (chat_session ss) (delete (uid st) (chat_messages ss))
            (delete (uid st) (chat_key ss)) (greeting_shown ss)
     else ss)
    (timers st) (console st).

Definition welcome_log : string := "Chat: Welcome message added".

Definition welcomeMessage (now : Z) (st : State) : Message :=
  mkMessage "welcome" from_bot
    ("Hi " ++ Js.or_else (user st ≫= user_name) "there"
     ++ "! 👋 Welcome to the Infrastructure Assistant! I'm here to help you create and manage AWS resources. What would you like to deploy today?")
    now None.

(** [addWelcomeMessage], the callback of the 500 ms timer. *)
Definition addWelcomeMessage (now : Z) (st : State) : State :=
  let ss := sessionStorage st in
  if Js.truthy (greeting_shown ss !! uid st) then st
  else
    mkState [welcomeMessage now st] (processing st) (showTextInput st) true
      (conversationKey st) (processedMessages st) (user st) (localStorage st)
      (mkSession (chat_session ss) (chat_messages ss) (chat_key ss)
         (<[uid st := "true"]> (greeting_shown ss)))
      (timers st) (welcome_log :: console st).

(** The effect on [user?.id]: restore the conversation of this login, or
    start a new one and set the timer of the welcome message. *)
Definition resume (now : Z) (st : State) : State :=
  if has_uid st then
    let ss := sessionStorage st in
    let currentLoginTime := login_time (localStorage st) in
    let lastChatSession := chat_session ss !! uid st in
    let restored :=
      if bool_decide (lastChatSession = currentLoginTime) then
        match chat_key ss !! uid st, chat_messages ss !! uid st with
        | Some existingKey, Some (m :: parsed) =>
            if Js.truthy (Some existingKey) then Some (existingKey, m :: parsed)
            else None
        | _, _ => None
        end
      else None in
    match restored with
    | Some (existingKey, parsed) =>
        mkState parsed (processing st) (showTextInput st) true existingKey
          (processedMessages st) (user st) (localStorage st) ss
          (timers st) (console st)
    | None =>
        let st1 := initializeNewConversation now st in
        let ss1 := sessionStorage st1 in
        let ss2 :=
          match currentLoginTime with
          | Some t =>
              if Js.truthy (Some t)
              then mkSession (<[uid st := t]> (chat_session ss1))
                     (chat_messages ss1) (chat_key ss1) (greeting_shown ss1)
              else ss1
          | None => ss1
          end in
        mkState (messages st1) (processing st1) (showTextInput st1)
          (greetingShown st1) (conversationKey st1) (processedMessages st1)
          (user st1) (localStorage st1) ss2
          ((500, AddWelcomeMessage) :: timers st1) (console st1)
    end
  else st.

(** [addMessage]; [rnd] is [Math.random().toString(36).substr(2, 9)]. *)
Definition addMessage (now : Z) (rnd : string) (t : Sender) (c : string)
    (b : option string) (st : State) : State :=
  let newMessage := mkMessage (pretty now ++ "_" ++ rnd) t c now b in
  let updated := (messages st ++ [newMessage])%list in
  let ss := sessionStorage st in
  mkState updated (processing st) (showTextInput st) (greetingShown st)
    (conversationKey st) (processedMessages st) (user st) (localStorage st)
    (if has_uid st
     then mkSession (chat_session ss) (<[uid st := updated]> (chat_messages ss))
            (<[uid st := conversationKey st]> (chat_key ss)) (greeting_shown ss)
     else ss)
    (timers st) (console st).

Definition addBotMessage (now : Z) (rnd c : string) (b : option string)
    (st : State) : State :=
  addMessage now rnd from_bot c b st.

(** [addToLayoutNotifications] for a popup object without an [id]. *)
Definition addToLayoutNotifications (now : Z) (t m : string) (s : Severity)
    (st : State) : State :=
  let ls := localStorage st in
  let notifications := default [] (layout_notifications ls) in
  let newNotification := mkStored (pretty now) t m s now false None in
  let isDuplicate :=
    existsb (fun n => Layout.sameContent n newNotification
                      && Layout.recentTime 5000 n newNotification)%bool
            notifications in
  if isDuplicate then st
  else
    mkState (messages st) (processing st) (showTextInput st) (greetingShown st)
      (conversationKey st) (processedMessages st) (user st)
      (set_layout_notifications (Some (take 50 (newNotification :: notifications))) ls)
      (sessionStorage st) (timers st) (console st).

(** The message id of the chat listener; it differs from the one of the
    layout listener by a random suffix when the server sent no id. *)
Definition messageId (now : Z) (rnd : string) (d : WsData) : string :=
  Js.or_else (message_id d)
    (data_type d ++ "_" ++ Js.or_else (data_timestamp d) (pretty now) ++ "_" ++ rnd).

(** [processedMessages.current.add(id)] and the clean-up that keeps the
    last 25 ids once there are more than 50. *)
Definition track (i : string) (seen : list string) : list string :=
  let seen1 := if bool_decide (i ∈ seen) then seen else (seen ++ [i])%list in
  if (50 <? length seen1)%nat then Dashboard.slice_last 25 seen1 else seen1.

Definition setProcessedMessages (l : list string) (st : State) : State :=
  mkState (messages st) (processing st) (showTextInput st) (greetingShown st)
    (conversationKey st) l (user st) (localStorage st) (sessionStorage st)
    (timers st) (console st).

Definition setGreetingShown (b : bool) (st : State) : State :=
  mkState (messages st) (processing st) (showTextInput st) b
    (conversationKey st) (processedMessages st) (user st) (localStorage st)
    (sessionStorage st) (timers st) (console st).

(** The chain of [data.type === ...] branches of [handleMessage]. *)
Definition dispatch (now : Z) (rnd : string) (d : WsData) (st : State) : State :=
  if String.eqb (data_type d) "connection_ready" then setGreetingShown true st
  else if String.eqb (data_type d) "chat_response" then
    let st1 := addBotMessage now rnd (data_message d) (buttons d) st in
    let st2 :=
      mkState (messages st1) false
        (negb (bool_decide (show_text_input d = Some false)))
        (greetingShown st1) (conversationKey st1) (processedMessages st1)
        (user st1) (localStorage st1) (sessionStorage st1) (timers st1)
        (console st1) in
    if greeting d then setGreetingShown true st2 else st2
  else if String.eqb (data_type d) "popup_notification" then st
  else if String.eqb (data_type d) "approval_notification" then
    let isApproved := approved d in
    let st1 :=
      addToLayoutNotifications now
        (if isApproved then "Environment Access Approved!"
         else "Environment Access Denied")
        (data_message d) (if isApproved then success else error) st in
    let st2 :=
      addBotMessage now rnd
        ((if isApproved then "✅" else "❌") ++ " " ++ data_message d) None st1 in
    if isApproved then
      mkState (messages st2) (processing st2) (showTextInput st2)
        (greetingShown st2) (conversationKey st2) (processedMessages st2)
        (user st2) (localStorage st2) (sessionStorage st2)
        ((1000, RefreshUser) :: timers st2) (console st2)
    else st2
  else st.

(** [handleMessage]; [rnd] and [rnd'] are the two random suffixes. *)
Definition handleMessage (now : Z) (rnd rnd' : string) (d : WsData)
    (st : State) : State :=
  let i := messageId now rnd d in
  if bool_decide (i ∈ processedMessages st) then st
  else dispatch now rnd' d (setProcessedMessages (track i (processedMessages st)) st).

(** Steps of one tab for one identity that neither clear the chat nor log
    out. *)
Inductive Op : Type :=
| Resume (now : Z)
| WelcomeTimer (now : Z)
| Incoming (now : Z) (rnd rnd' : string) (d : WsData)
| Login (t : string).

Definition step (o : Op) (st : State) : State :=
  match o with
  | Resume now => resume now st
  | WelcomeTimer now => addWelcomeMessage now st
  | Incoming now rnd rnd' d => handleMessage now rnd rnd' d st
  | Login t =>
      let ls := localStorage st in
      mkState (messages st) (processing st) (showTextInput st) (greetingShown st)
        (conversationKey st) (processedMessages st) (user st)
        (mkLocal (layout_notifications ls) (fetched_notification_ids ls)
           (dashboard_requests ls) (token ls) (Some t))
        (sessionStorage st) (timers st) (console st)
  end.

Definition run (ops : list Op) (st : State) : State :=
  fold_left (fun s o => step o s) ops st.

(** Number of times the welcome message was put on screen. *)
Definition greetings (st : State) : nat :=
  length (filter (fun l => l = welcome_log) (console st)).

End Chat.

(** ** The two listeners of the push connection *)
Module Router.
Import Browser.

(** Both components listen to the same socket and share [localStorage]. *)
Record Page : Type := mkPage {
  chat : Chat.State;
  layout : Layout.State
}.

Definition chat_with_storage (ls : LocalStorage) (c : Chat.State) : Chat.State :=
  Chat.mkState (Chat.messages c) (Chat.processing c) (Chat.showTextInput c)
    (Chat.greetingShown c) (Chat.conversationKey c) (Chat.processedMessages c)
    (Chat.user c) ls (Chat.sessionStorage c) (Chat.timers c) (Chat.console c).

(** One message event: the chat listener, then the layout listener, each
    reading the storage the other left. *)
Definition route (now : Z) (rnd rnd' : string) (d : WsData) (p : Page) : Page :=
  let c := Chat.handleMessage now rnd rnd' d
             (chat_with_storage (Layout.localStorage (layout p)) (chat p)) in
  let l := Layout.handleWebSocketMessage now d
             (Layout.setLocalStorage (fun _ => Chat.localStorage c) (layout p)) in
  mkPage (chat_with_storage (Layout.localStorage l) c) l.

End Router.

(** ** Relative times on screen *)
Module Display.

(** What a time formatter returns: a text, or the locale's rendering of a
    date, which is left to the browser. *)
Inductive TimeLabel : Type :=
| Text (s : string)
| LocaleDate (t : Z).

Global Instance TimeLabel_eq_dec : EqDecision TimeLabel.
Proof. solve_decision. Defined.

End Display.

(** ** [components/Layout/Layout.tsx], the rest of the component *)
Module LayoutView.
Import Browser Display.

(** [formatTimeAgo]; [timestamp] is [date.getTime()], [None] for an
    invalid date.  [Math.floor] of a quotient is [Z.div]. *)
Definition formatTimeAgo (now : Z) (timestamp : option Z) : TimeLabel :=
  match timestamp with
  | None => Text "Just now"
  | Some t =>
      let diffMs := (now - t)%Z in
      let diffSeconds := (diffMs / 1000)%Z in
      let diffMins := (diffSeconds / 60)%Z in
      let diffHours := (diffMins / 60)%Z in
      let diffDays := (diffHours / 24)%Z in
      if (diffSeconds <? 60)%Z then Text "Just now"
      else if (diffMins <? 60)%Z then Text (pretty diffMins ++ "m ago")
      else if (diffHours <? 24)%Z then Text (pretty diffHours ++ "h ago")
      else if (diffDays <? 7)%Z then Text (pretty diffDays ++ "d ago")
      else LocaleDate t
  end.

(** [toggleNotificationExpansion] on the set of expanded ids. *)
Definition toggleNotificationExpansion (i : string) (expandedNotifications : gset string)
    : gset string :=
  if decide (i ∈ expandedNotifications)
  then expandedNotifications ∖ {[ i ]}
  else expandedNotifications ∪ {[ i ]}.

(** The two preference keys of [localStorage]. *)
Record Preferences : Type := mkPreferences {
  notification_sound_enabled : option string;
  real_time_updates_enabled : option string
}.

(** [b.toString()]. *)
Definition bool_text (b : bool) : string := if b then "true" else "false".

Definition setSoundEnabled (b : bool) (st : Layout.State) : Layout.State :=
  Layout.mkState (Layout.storedNotifications st) (Layout.notificationCount st)
    (Layout.snackbarOpen st) (Layout.snackbarMessage st)
    (Layout.snackbarSeverity st) b (Layout.realTimeUpdates st)
    (Layout.notificationAnchor st) (Layout.ws st) (Layout.localStorage st)
    (Layout.trace st).

Definition setRealTimeUpdates (b : bool) (st : Layout.State) : Layout.State :=
  Layout.mkState (Layout.storedNotifications st) (Layout.notificationCount st)
    (Layout.snackbarOpen st) (Layout.snackbarMessage st)
    (Layout.snackbarSeverity st) (Layout.soundEnabled st) b
    (Layout.notificationAnchor st) (Layout.ws st) (Layout.localStorage st)
    (Layout.trace st).

(** [toggleSound] and [toggleRealTimeUpdates]. *)
Definition toggleSound (p : Layout.State * Preferences) : Layout.State * Preferences :=
  let (st, prefs) := p in
  (setSoundEnabled (negb (Layout.soundEnabled st)) st,
   mkPreferences (Some (bool_text (negb (Layout.soundEnabled st))))
     (real_time_updates_enabled prefs)).

Definition toggleRealTimeUpdates (p : Layout.State * Preferences)
    : Layout.State * Preferences :=
  let (st, prefs) := p in
  (setRealTimeUpdates (negb (Layout.realTimeUpdates st)) st,
   mkPreferences (notification_sound_enabled prefs)
     (Some (bool_text (negb (Layout.realTimeUpdates st))))).

(** The effect of lines 459-469, which reads the two keys on mount. *)
Definition loadPreferences (prefs : Preferences) (st : Layout.State) : Layout.State :=
  let st1 :=
    match notification_sound_enabled prefs with
    | Some soundPref => setSoundEnabled (String.eqb soundPref "true") st
    | None => st
    end in
  match real_time_updates_enabled prefs with
  | Some updatesPref => setRealTimeUpdates (String.eqb updatesPref "true") st1
  | None => st1
  end.

(** [handleNotificationClose]. *)
Definition handleNotificationClose (st : Layout.State) : Layout.State :=
  Layout.setNotificationAnchor false st.

(** What the user and the timers can make the component do, one step at a
    time.  An [async] handler is split at its [await]: its first half is a
    step, and so is what it does once the call has settled. *)
Inductive Op : Type :=
| Push (now : Z) (d : WsData)
| Poll (captured : list StoredNotification) (now : Z)
       (response : option (list Layout.DbNotification))
| Load
| MarkRead (i : string)
| MarkAllRead
| CloseMenu
| ClearSettled (r : Layout.Settled).

Definition step (o : Op) (st : Layout.State) : Layout.State :=
  match o with
  | Push now d => Layout.handleWebSocketMessage now d st
  | Poll captured now response =>
      Layout.fetchOfflineNotifications captured now response st
  | Load => Layout.loadStoredNotifications st
  | MarkRead i => Layout.suspended (Layout.markNotificationAsRead i st)
  | MarkAllRead => Layout.suspended (Layout.markAllNotificationsAsRead st)
  | CloseMenu => handleNotificationClose st
  | ClearSettled r => Layout.settle r (Layout.clearAllNotifications st)
  end.

Definition run (ops : list Op) (st : Layout.State) : Layout.State :=
  fold_left (fun s o => step o s) ops st.

End LayoutView.

(** ** [components/Dashboard/Dashboard.tsx], the rest of the component *)
Module DashboardView.
Import Browser Display.

(** [getStatusColor]. *)
Definition getStatusColor (status : string) : string :=
  if (String.eqb status "Success" || String.eqb status "deployed")%bool then "success"
  else if (String.eqb status "Pending Approval" || String.eqb status "pending")%bool
  then "warning"
  else if (String.eqb status "PR Pending" || String.eqb status "pr_created")%bool
  then "info"
  else if (String.eqb status "Failed" || String.eqb status "failed")%bool then "error"
  else "default".

Inductive Icon : Type := CheckCircle | HourglassEmpty | PendingActions | ErrorIcon.

(** [getStatusIcon]; [None] is [null]. *)
Definition getStatusIcon (status : string) : option Icon :=
  if (String.eqb status "Success" || String.eqb status "deployed")%bool
  then Some CheckCircle
  else if (String.eqb status "PR Pending" || String.eqb status "pr_created")%bool
  then Some HourglassEmpty
  else if (String.eqb status "Pending Approval" || String.eqb status "pending")%bool
  then Some PendingActions
  else if (String.eqb status "Failed" || String.eqb status "failed")%bool
  then Some ErrorIcon
  else None.

(** [formatRelativeTime]; [created] is [created.getTime()], [None] for an
    invalid date. *)
Definition formatRelativeTime (now : Z) (created : option Z) : TimeLabel :=
  match created with
  | None => Text "Just now"
  | Some t =>
      let diffMs := (now - t)%Z in
      let seconds := (Z.abs diffMs / 1000)%Z in
      let mins := (seconds / 60)%Z in
      let hours := (mins / 60)%Z in
      let days := (hours / 24)%Z in
      if (diffMs <? 0)%Z then Text "Just now"
      else if (seconds <? 60)%Z then Text "Just now"
      else if (mins <? 60)%Z then Text (pretty mins ++ "m ago")
      else if (hours <? 24)%Z then Text (pretty hours ++ "h ago")
      else if (days <? 7)%Z then Text (pretty days ++ "d ago")
      else LocaleDate t
  end.

(** The component around the request list: the list and its guard, the
    flags of the page, and the key [dashboard_last_fetch]. *)
Record View : Type := mkView {
  core : Dashboard.State;
  loading : bool;
  error : string;
  clearDialogOpen : bool;
  clearing : bool;
  clearSuccess : bool;
  dashboard_last_fetch : option string
}.

Definition setRequests (l : list Request) (v : View) : View :=
  mkView (Dashboard.mkState l (Dashboard.processedUpdates (core v))
            (Dashboard.lastUpdateTime (core v)) (Dashboard.localStorage (core v)))
    (loading v) (error v) (clearDialogOpen v) (clearing v) (clearSuccess v)
    (dashboard_last_fetch v).

Definition setLoading (b : bool) (v : View) : View :=
  mkView (core v) b (error v) (clearDialogOpen v) (clearing v) (clearSuccess v)
    (dashboard_last_fetch v).

(** [loadFromCache] of the mount effect: whether a cached list was shown,
    and the component after it. *)
Definition loadFromCache (v : View) : bool * View :=
  match dashboard_requests (Dashboard.localStorage (core v)) with
  | Some parsedRequests => (true, setLoading false (setRequests parsedRequests v))
  | None => (false, v)
  end.

(** The response interceptor of [services/api], through which every
    rejection passes before it reaches the caller: a response with status
    401 removes [token] (and sends the browser to [/login], which unloads
    the page once the handlers have run).  [status] is
    [error.response?.status], [None] when there was no response. *)
Definition intercept (status : option Z) (ls : LocalStorage) : LocalStorage :=
  if bool_decide (status = Some 401%Z)
  then mkLocal (layout_notifications ls) (fetched_notification_ids ls)
         (dashboard_requests ls) None (login_time ls)
  else ls.

(** The outcome of [infrastructureAPI.getRequests()]: the array that the
    handler extracts from the response, or the message and the status of
    the error. *)
Inductive Response : Type :=
| Ok (safeRequests : list Request)
| Failed (message : string) (status : option Z).

(** The outcome of [infrastructureAPI.clearUserRequests()]. *)
Inductive Cleared : Type :=
| ClearDone
| ClearFailed (status : option Z).

(** [fetchRequests], from the call to the end of its [finally]. *)
Definition fetchRequests (now : Z) (r : Response) (v : View) : View :=
  let c := core v in
  match r with
  | Ok safeRequests =>
      mkView
        (Dashboard.mkState safeRequests (Dashboard.processedUpdates c) now
           (set_dashboard_requests (Some safeRequests) (Dashboard.localStorage c)))
        false EmptyString (clearDialogOpen v) (clearing v) (clearSuccess v)
        (Some (pretty now))
  | Failed message status =>
      let ls := intercept status (Dashboard.localStorage c) in
      mkView
        (Dashboard.mkState
           (default [] (dashboard_requests ls))
           (Dashboard.processedUpdates c) (Dashboard.lastUpdateTime c) ls)
        false ("Failed to fetch requests: " ++ message) (clearDialogOpen v)
        (clearing v) (clearSuccess v) (dashboard_last_fetch v)
  end.

(** [clearHistory], once [clearUserRequests] has settled. *)
Definition clearHistory (r : Cleared) (v : View) : View :=
  let c := core v in
  match r with
  | ClearDone =>
      mkView
        (Dashboard.mkState [] (Dashboard.processedUpdates c)
           (Dashboard.lastUpdateTime c)
           (set_dashboard_requests None (Dashboard.localStorage c)))
        (loading v) (error v) false false true None
  | ClearFailed status =>
      mkView
        (Dashboard.mkState (Dashboard.requests c) (Dashboard.processedUpdates c)
           (Dashboard.lastUpdateTime c)
           (intercept status (Dashboard.localStorage c)))
        (loading v) "Failed to clear requests" (clearDialogOpen v) false
        (clearSuccess v) (dashboard_last_fetch v)
  end.

(** The minute timer: [setLastUpdateTime(new Date())] and
    [setRequests(prev => [...prev])]. *)
Definition minuteTick (now : Z) (v : View) : View :=
  let c := core v in
  mkView
    (Dashboard.mkState (Dashboard.requests c) (Dashboard.processedUpdates c) now
       (Dashboard.localStorage c))
    (loading v) (error v) (clearDialogOpen v) (clearing v) (clearSuccess v)
    (dashboard_last_fetch v).

(** The [requestUpdate] listener. *)
Definition handleRequestUpdate (now : Z) (u : Request) (v : View) : View :=
  mkView (Dashboard.handleRequestUpdate now u (core v))
    (loading v) (error v) (clearDialogOpen v) (clearing v) (clearSuccess v)
    (dashboard_last_fetch v).

Inductive Op : Type :=
| LoadFromCache
| FetchRequests (now : Z) (r : Response)
| ClearHistory (r : Cleared)
| MinuteTick (now : Z)
| RequestUpdate (now : Z) (u : Request).

Definition step (o : Op) (v : View) : View :=
  match o with
  | LoadFromCache => snd (loadFromCache v)
  | FetchRequests now r => fetchRequests now r v
  | ClearHistory r => clearHistory r v
  | MinuteTick now => minuteTick now v
  | RequestUpdate now u => handleRequestUpdate now u v
  end.

Definition run (ops : list Op) (v : View) : View :=
  fold_left (fun s o => step o s) ops v.

End DashboardView.

(** ** [contexts/AuthContext.tsx]: what login and logout do to the storages *)
Module AuthContext.
Import Browser.

(** [logout] on the keys of [localStorage] kept here: the token and the
    login time go, the notifications and the dashboard cache stay. *)
Definition logout_localStorage (ls : LocalStorage) : LocalStorage :=
  mkLocal (layout_notifications ls) (fetched_notification_ids ls)
    (dashboard_requests ls) None None.

(** [sessionStorage.clear()]. *)
Definition cleared_sessionStorage : Chat.SessionStorage :=
  Chat.mkSession ∅ ∅ ∅ ∅.

(** [logout] as the chat sees it: storages cleaned, [setUser(null)]. *)
Definition logout (st : Chat.State) : Chat.State :=
  Chat.mkState (Chat.messages st) (Chat.processing st) (Chat.showTextInput st)
    (Chat.greetingShown st) (Chat.conversationKey st) (Chat.processedMessages st)
    None (logout_localStorage (Chat.localStorage st)) cleared_sessionStorage
    (Chat.timers st) (Chat.console st).

(** [verifyOTP] with a non-empty [access_token], followed by the profile
    that [fetchProfile] stores with [setUser]. *)
Definition verifyOTP (access_token : string) (now : Z) (profile : Chat.User)
    (st : Chat.State) : Chat.State :=
  let ls := Chat.localStorage st in
  Chat.mkState (Chat.messages st) (Chat.processing st) (Chat.showTextInput st)
    (Chat.greetingShown st) (Chat.conversationKey st) (Chat.processedMessages st)
    (Some profile)
    (mkLocal (layout_notifications ls) (fetched_notification_ids ls)
       (dashboard_requests ls) (Some access_token) (Some (pretty now)))
    (Chat.sessionStorage st) (Chat.timers st) (Chat.console st).

End AuthContext.

(** ** [components/Chat/Chat.tsx], sending and clearing *)
Module ChatSession.
Import Browser.

(** A message of the client on the socket; [sentAt] stands for the ISO
    text of [new Date()]. *)
Inductive Outbound : Type :=
| ChatMessage (message conversation_key : string) (sentAt : Z)
| ClearConversation (conversation_key : string) (sentAt : Z).

(** The chat with the connection it sends on: [connected] and [wsRef] of
    the provider, the messages sent (latest first), the input field, and
    the timers that [clearChat] has set. *)
Record Session : Type := mkSession {
  chat : Chat.State;
  connected : bool;
  wsRef : bool;
  inputValue : string;
  outbox : list Outbound;
  clearedTimers : nat
}.

(** [sendMessage] of the provider: dropped unless a socket is there and
    the connection is open. *)
Definition wsSendMessage (m : Outbound) (s : Session) : Session :=
  if (wsRef s && connected s)%bool
  then mkSession (chat s) (connected s) (wsRef s) (inputValue s) (m :: outbox s)
         (clearedTimers s)
  else s.

Definition setProcessing (b : bool) (st : Chat.State) : Chat.State :=
  Chat.mkState (Chat.messages st) b (Chat.showTextInput st) (Chat.greetingShown st)
    (Chat.conversationKey st) (Chat.processedMessages st) (Chat.user st)
    (Chat.localStorage st) (Chat.sessionStorage st) (Chat.timers st)
    (Chat.console st).

Section WithTrim.

(** [String.prototype.trim]. *)
Variable trim : string -> string.

(** [sendMessage(message?)] of the chat. *)
Definition sendMessage (now : Z) (rnd : string) (message : option string)
    (s : Session) : Session :=
  let messageToSend := Js.or_else message (trim (inputValue s)) in
  if (String.eqb messageToSend EmptyString || negb (connected s))%bool then s
  else
    let st1 := Chat.addMessage now rnd Chat.from_user messageToSend None (chat s) in
    let st2 := setProcessing true st1 in
    let s1 := wsSendMessage
                (ChatMessage messageToSend (Chat.conversationKey (chat s)) now)
                (mkSession st2 (connected s) (wsRef s) (inputValue s) (outbox s)
                   (clearedTimers s)) in
    let st3 := chat s1 in
    let ss := Chat.sessionStorage st3 in
    let st4 :=
      if Chat.has_uid st3 then
        Chat.mkState (Chat.messages st3) (Chat.processing st3)
          (Chat.showTextInput st3) (Chat.greetingShown st3)
          (Chat.conversationKey st3) (Chat.processedMessages st3) (Chat.user st3)
          (Chat.localStorage st3)
          (Chat.mkSession (Chat.chat_session ss) (Chat.chat_messages ss)
             (<[Chat.uid st3 := Chat.conversationKey st3]> (Chat.chat_key ss))
             (Chat.greeting_shown ss))
          (Chat.timers st3) (Chat.console st3)
      else st3 in
    mkSession st4 (connected s1) (wsRef s1) EmptyString (outbox s1) (clearedTimers s1).

End WithTrim.

(** [clearChat]. *)
Definition clearChat (now : Z) (s : Session) : Session :=
  let st := chat s in
  if Chat.processing st then s
  else
    let key := "chat_" ++ Chat.uid st ++ "_" ++ pretty now in
    let ss := Chat.sessionStorage st in
    let st1 :=
      Chat.mkState [] (Chat.processing st) true false key [] (Chat.user st)
        (Chat.localStorage st)
        (if Chat.has_uid st
         then Chat.mkSession (Chat.chat_session ss)
                (delete (Chat.uid st) (Chat.chat_messages ss))
                (delete (Chat.uid st) (Chat.chat_key ss))
                (delete (Chat.uid st) (Chat.greeting_shown ss))
         else ss)
        (Chat.timers st) (Chat.console st) in
    let s1 := mkSession st1 (connected s) (wsRef s) (inputValue s) (outbox s)
                (clearedTimers s) in
    let s2 := if connected s1 then wsSendMessage (ClearConversation key now) s1 else s1 in
    mkSession (chat s2) (connected s2) (wsRef s2) (inputValue s2) (outbox s2)
      (S (clearedTimers s2)).

Definition clearedMessage (now : Z) : Chat.Message :=
  Chat.mkMessage ("welcome_" ++ pretty now) Chat.from_bot
    "Chat cleared! I'm ready to help you create new infrastructure. What would you like to build?"
    now None.

(** The callback of the 500 ms timer of [clearChat]. *)
Definition clearedTimer (now : Z) (s : Session) : Session :=
  let st := chat s in
  mkSession
    (Chat.mkState [clearedMessage now] (Chat.processing st) (Chat.showTextInput st)
       (Chat.greetingShown st) (Chat.conversationKey st) (Chat.processedMessages st)
       (Chat.user st) (Chat.localStorage st) (Chat.sessionStorage st)
       (Chat.timers st) (Chat.console st))
    (connected s) (wsRef s) (inputValue s) (outbox s) (Nat.pred (clearedTimers s)).

(** A handler of the chat proper, run inside the session. *)
Definition lift (f : Chat.State -> Chat.State) (s : Session) : Session :=
  mkSession (f (chat s)) (connected s) (wsRef s) (inputValue s) (outbox s)
    (clearedTimers s).

End ChatSession.

(** ** [utils/notificationUtils.ts] *)
Module NotificationUtils.

(** [isDuplicateNotification] over the module-level map
    [recentNotifications]: the answer and the map after the call. *)
Definition isDuplicateNotification (title message : string) (now : Z)
    (recentNotifications : gmap string Z) : bool * gmap string Z :=
  let key := title ++ "_" ++ message in
  let fresh :=
    let m1 := <[key := now]> recentNotifications in
    if (100 <? size m1)%nat
    then filter (fun kt => ¬ (kt.2 < now - 30000)%Z) m1
    else m1 in
  match recentNotifications !! key with
  | Some lastSeen =>
      if (negb (lastSeen =? 0)%Z && (now - lastSeen <? 5000)%Z)%bool
      then (true, recentNotifications)
      else (false, fresh)
  | None => (false, fresh)
  end.

End NotificationUtils.

(** * Vocabulary of the properties, and sample states *)

Import Browser.

(** ** Connection *)
Section ReconnectTerms.
Import WebSocketContext.

(** An open connection of a logged-in user. *)
Definition closing_state : State :=
  mkState true true true None (Some "u1")
    (mkLocal None None None (Some "jwt") (Some "1700000000000")) [].

End ReconnectTerms.

(** ** Request cache *)
Section RequestTerms.
Import Dashboard.

(** [req.request_identifier === updatedRequest.request_identifier]. *)
Definition same_key (u req : Request) : bool :=
  String.eqb (request_identifier req) (request_identifier u).

Definition pending_delta : Request :=
  mkRequest "req-1" {[ "status" := JStr "pending" ]}.

Definition deployed_delta : Request :=
  mkRequest "req-1"
    {[ "status" := JStr "deployed"; "resources" := JObj [("instance_id", "i-1")] ]}.

Definition empty_dashboard : State :=
  mkState [] [] 0 (mkLocal None None None None None).

End RequestTerms.

(** ** Message text *)
Section TextTerms.

Fixpoint all_digits (s : string) : bool :=
  match s with
  | EmptyString => true
  | String c s' => (Js.is_digit c && all_digits s')%bool
  end.

Definition starts_with_digit (s : string) : bool :=
  match s with
  | EmptyString => false
  | String c _ => Js.is_digit c
  end.

(** Some position of [s] starts a match of [/PR #\d+/]. *)
Fixpoint has_match (s : string) : bool :=
  match s with
  | EmptyString => false
  | String _ s' => (bool_decide (is_Some (Js.match_pr s)) || has_match s')%bool
  end.

End TextTerms.

(** ** Notification store and poller *)
Section LayoutTerms.
Import Layout.

(** Two notifications with the same title and message whose creation
    times differ by less than [window] milliseconds. *)
Definition equivalent (window : Z) (e n : StoredNotification) : Prop :=
  title e = title n ∧ message e = message n
  ∧ (Z.abs (timestamp e - timestamp n) < window)%Z.

(** [{ ...n, read: true }]. *)
Definition mark (n : StoredNotification) : StoredNotification :=
  mkStored (id n) (title n) (message n) (type n) (timestamp n) true
    (deployment_details n).

(** The [newNotifications] of a poller run that received [ns]. *)
Definition newNotifications (now : Z) (st : State) (ns : list DbNotification)
    : list DbNotification :=
  filter (fun n => isNew now (default [] (fetched_notification_ids (localStorage st))) n = true) ns.

(** The popup step of a poller run, lines 283-302. *)
Definition popupOffline (captured converted : list StoredNotification)
    (st : State) : State :=
  match uniqueNew captured converted with
  | newestNotification :: _ =>
      let s := showSnackbar (message newestNotification) (type newestNotification) st in
      if soundEnabled s then playNotificationSound s else s
  | [] => st
  end.

(** The calls of the three snackbar setters among the effects. *)
Definition snackbars (t : list Effect) : list Effect :=
  filter (fun e => match e with ShowSnackbar _ _ => true | _ => false end = true) t.

(** The [popup_delivered] messages among the effects. *)
Definition acks (t : list Effect) : list Effect :=
  filter (fun e => match e with WsSend _ _ _ => true | _ => false end = true) t.

(** A list of notifications that starts with the most recent one. *)
Definition newest_first (l : list StoredNotification) : Prop :=
  StronglySorted (fun a b => (timestamp b ≤ timestamp a)%Z) l.

(** The two operations that merge into the store. *)
Inductive MergeOp : Type :=
| Push (now : Z) (d : WsData)
| Poll (captured : list StoredNotification) (now : Z)
       (response : option (list DbNotification)).

Definition merge_step (o : MergeOp) (st : State) : State :=
  match o with
  | Push now d => handleWebSocketMessage now d st
  | Poll captured now response => fetchOfflineNotifications captured now response st
  end.

(** An unread stored notification, a [notification] message with a server
    id, and an unread row of the server. *)
Definition sample (i t m : string) (at_ : Z) : StoredNotification :=
  mkStored i t m info at_ false None.

Definition bell (mid t m : string) : WsData :=
  mkWsData "notification" (Some mid) None None t m None None None None None
    false false.

Definition db (i t m : string) (at_ : Z) : DbNotification :=
  mkDb i t m "deployed" (Some at_) false None.

(** A store with one poll-imported item, and one with one pushed item. *)
Definition busy_layout : State :=
  mkState [sample "db_7" "Deploy" "instance ready" 1000] 1 false EmptyString info
    true true true true
    (mkLocal (Some [sample "db_7" "Deploy" "instance ready" 1000])
       (Some ["7"]) None (Some "jwt") None)
    [].

(** The tab of [busy_layout] after another tab has run
    [clearAllNotifications]: the storage of the origin is cleared, the
    [storage] event reloads nothing, and the memory of this tab keeps its
    item. *)
Definition cleared_elsewhere : State :=
  loadStoredNotifications
    (setLocalStorage
       (fun _ => localStorage (settle Fulfilled (clearAllNotifications busy_layout)))
       busy_layout).

Definition one_bell_layout : State :=
  mkState [sample "bell_m1" "Deploy" "Merged Pull Request" 1000] 1 false EmptyString info
    true true false true
    (mkLocal (Some [sample "bell_m1" "Deploy" "Merged Pull Request" 1000])
       (Some []) None (Some "jwt") None)
    [].

(** Stored notifications created one millisecond apart, the newest first,
    and a store of [n] of them. *)
Definition numbered (k : nat) : StoredNotification :=
  sample ("bell_notification_" ++ pretty k) ("Build " ++ pretty k) "finished"
    (10000000 - Z.of_nat k).

Definition layout_of (n : nat) : State :=
  mkState (map numbered (seq 0 n)) n false EmptyString info true true false true
    (mkLocal (Some (map numbered (seq 0 n))) (Some []) None (Some "jwt") None) [].

Definition full_layout : State := layout_of 20.

(** A store with one pushed item, and a response of three rows whose
    second row repeats that item 10 s later. *)
Definition scenario_layout : State :=
  mkState [sample "bell_notification_9000000" "Deploy" "instance ready" 9000000]
    1 false EmptyString info false true false true
    (mkLocal (Some [sample "bell_notification_9000000" "Deploy" "instance ready" 9000000])
       (Some ["3"]) None (Some "jwt") None)
    [].

Definition scenario_fetch : list DbNotification :=
  [db "12" "Backup" "completed" 9020000;
   db "11" "Deploy" "instance ready" 9010000;
   db "10" "Build" "started" 9005000].

Definition fresh_layout : State :=
  mkState [] 0 false EmptyString info true true false true
    (mkLocal None None None (Some "jwt") (Some "1700000000000")) [].

End LayoutTerms.

(** ** Conversation *)
Section ChatTerms.
Import Chat.

(** The tab-scoped flag [greeting_shown_<id>] of the identity is set. *)
Definition flag (st : State) : bool :=
  Js.truthy (greeting_shown (sessionStorage st) !! uid st).

(** What the steps other than the timer callback leave alone. *)
Definition same_greeting_state (st st' : State) : Prop :=
  user st' = user st
  ∧ greeting_shown (sessionStorage st') = greeting_shown (sessionStorage st)
  ∧ console st' = console st.

(** What no branch of [dispatch] touches: the identity, the set of seen
    ids, the greeting flags of the tab and the console. *)
Definition frame (st st' : State) : Prop :=
  user st' = user st
  ∧ processedMessages st' = processedMessages st
  ∧ greeting_shown (sessionStorage st') = greeting_shown (sessionStorage st)
  ∧ console st' = console st.

(** A popup with a server id. *)
Definition alert : WsData :=
  mkWsData "popup_notification" (Some "popup-1") None
    (Some (mkPopup (Some "p1") "Quota" "Quota exceeded" (Some warning)))
    EmptyString EmptyString None None None None None false false.

(** The chat of a user who has just logged in. *)
Definition fresh_chat : State :=
  mkState [] false true false EmptyString [] (Some (mkUser "u1" (Some "Ada")))
    (mkLocal None None None (Some "jwt") (Some "1700000000000"))
    (mkSession ∅ ∅ ∅ ∅) [] [].

(** Two resumes of the same login, each followed by its timer, then a
    resume after a new login. *)
Definition reloads : list Op :=
  [Resume 1000; WelcomeTimer 1500; Resume 60000; WelcomeTimer 60500;
   Login "1700000900000"; Resume 900000; WelcomeTimer 900500].

End ChatTerms.

(** ** The dashboard page *)
Section DashboardTerms.
Import DashboardView.

(** The list on the page is the list under [dashboard_requests]; without
    the key the page is empty. *)
Definition in_step (v : View) : Prop :=
  match dashboard_requests (Dashboard.localStorage (core v)) with
  | Some cached => Dashboard.requests (core v) = cached
  | None => Dashboard.requests (core v) = []
  end.

(** A set of seen ids, in insertion order, within its bound. *)
Definition bounded_ids (seen : list string) : Prop :=
  NoDup seen ∧ (length seen ≤ 50)%nat.

Definition fresh_view : View :=
  mkView empty_dashboard true EmptyString false false false None.

Definition dashboard_day : list Op :=
  [ LoadFromCache;
    FetchRequests 1000 (Ok [pending_delta]);
    RequestUpdate 2000 deployed_delta;
    MinuteTick 60000;
    FetchRequests 61000 (Failed "Network Error" None);
    ClearHistory (ClearFailed (Some 500%Z)) ].

End DashboardTerms.

(** ** The notification menu *)
Section MenuTerms.
Import Layout LayoutView.

(** The badge shows the number of unread items of the list. *)
Definition badge_ok (st : State) : Prop :=
  notificationCount st = unread (storedNotifications st).

(** The list in memory is the list under [layout_notifications]; without
    the key the list is empty. *)
Definition in_sync (st : State) : Prop :=
  match layout_notifications (localStorage st) with
  | Some parsed => storedNotifications st = parsed
  | None => storedNotifications st = []
  end.

(** [markNotificationAsRead] on one element. *)
Definition mark_one (i : string) (n : StoredNotification) : StoredNotification :=
  if String.eqb (id n) i then mark n else n.

(** A push, a poll, two acknowledgments, a reload and a clear. *)
Definition menu_session : list Op :=
  [ Push 9030000 (bell "m2" "Build" "PR #12 merged");
    Poll [] 9040000 (Some scenario_fetch);
    MarkRead "db_12";
    Load;
    MarkAllRead;
    CloseMenu;
    Push 9050000 (bell "m3" "Build" "started");
    ClearSettled Rejected ].

Definition no_preferences : Preferences := mkPreferences None None.

End MenuTerms.

(** ** The conversation across reloads, clears and logins *)
Section ConversationTerms.
Import Chat.

(** The chat component mounted anew over the same storages: every state
    cell and ref at its initial value, no timer pending. *)
Definition remount (st : State) : State :=
  mkState [] false true false EmptyString [] (user st) (localStorage st)
    (sessionStorage st) [] (console st).

(** What happens to the chat of one tab: a step of the conversation, a
    new mount of the component, [clearChat] and its timer, a logout, and a
    login with a one-time password. *)
Inductive TabOp : Type :=
| Conversation (o : Op)
| Mount
| ClearChat (now : Z)
| ClearedTimer (now : Z)
| Logout
| VerifyOTP (access_token : string) (now : Z) (profile : User).

Definition tab_step (o : TabOp) (s : ChatSession.Session) : ChatSession.Session :=
  match o with
  | Conversation o => ChatSession.lift (step o) s
  | Mount => ChatSession.lift remount s
  | ClearChat now => ChatSession.clearChat now s
  | ClearedTimer now => ChatSession.clearedTimer now s
  | Logout => ChatSession.lift AuthContext.logout s
  | VerifyOTP access_token now profile =>
      ChatSession.lift (AuthContext.verifyOTP access_token now profile) s
  end.

Definition tab_run (ops : list TabOp) (s : ChatSession.Session)
    : ChatSession.Session :=
  fold_left (fun s o => tab_step o s) ops s.

(** The steps that remove the greeting flag or change the identity. *)
Definition is_reset (o : TabOp) : bool :=
  match o with
  | ClearChat _ | Logout | VerifyOTP _ _ _ => true
  | _ => false
  end.

Definition resets (ops : list TabOp) : nat :=
  length (filter (fun o => is_reset o = true) ops).

(** The welcome message that the flag of the tab still lets through. *)
Definition owed (st : State) : nat := if flag st then 0%nat else 1%nat.

(** The chat of [fresh_chat] on an open connection. *)
Definition fresh_session : ChatSession.Session :=
  ChatSession.mkSession fresh_chat true true EmptyString [] 0.

(** The user is greeted, clears the chat, leaves the page and comes back,
    all within one login. *)
Definition clear_and_return : list TabOp :=
  [ Conversation (Resume 1000); Conversation (WelcomeTimer 1500);
    ClearChat 2000; ClearedTimer 2500;
    Mount; Conversation (Resume 60000); Conversation (WelcomeTimer 60500) ].

(** The user is known and the login time is stored. *)
Definition logged_in (st : State) : Prop :=
  has_uid st = true ∧ Js.truthy (login_time (localStorage st)) = true.

(** An open chat of [fresh_chat] after its first resume and welcome. *)
Definition open_session : ChatSession.Session :=
  ChatSession.mkSession (addWelcomeMessage 1500 (resume 1000 fresh_chat))
    true true "create an ec2 instance" [] 0.

(** The chat of [fresh_chat] while it waits for an answer. *)
Definition waiting_chat : State :=
  ChatSession.setProcessing true fresh_chat.

(** The same chat while it waits for an answer. *)
Definition waiting_session : ChatSession.Session :=
  ChatSession.lift (ChatSession.setProcessing true) open_session.

(** The same chat while the connection is down. *)
Definition offline_session : ChatSession.Session :=
  ChatSession.mkSession (ChatSession.chat open_session) false false
    "create an ec2 instance" [] 0.

(** An answer of the assistant. *)
Definition answer : WsData :=
  mkWsData "chat_response" (Some "c1") None None EmptyString "Which region?"
    None None None None None false false.

(** The provider once [logout] has cleaned [localStorage]; the handlers of
    the socket still hold the [user] of their render. *)
Definition after_logout (st : WebSocketContext.State) : WebSocketContext.State :=
  WebSocketContext.mkState (WebSocketContext.ws st) (WebSocketContext.connected st)
    (WebSocketContext.wsRef st) (WebSocketContext.reconnectTimeoutRef st)
    (WebSocketContext.user st)
    (AuthContext.logout_localStorage (WebSocketContext.localStorage st))
    (WebSocketContext.timers st).

End ConversationTerms.

(** ** The notification list as the chat writes it *)
Section SharedStoreTerms.
Import Layout.

(** [list.some(n => n.title === b.title && n.message === b.message &&
    |n.timestamp - b.timestamp| < window)]. *)
Definition repeated (window : Z) (b : StoredNotification)
    (l : list StoredNotification) : bool :=
  existsb (fun n => sameContent n b && recentTime window n b)%bool l.

(** The notification that the chat stores for an [approval_notification]. *)
Definition approval_note (now : Z) (d : WsData) : StoredNotification :=
  mkStored (pretty now)
    (if approved d then "Environment Access Approved!" else "Environment Access Denied")
    (data_message d) (if approved d then success else error) now false None.

Definition approval : WsData :=
  mkWsData "approval_notification" (Some "a1") None None EmptyString
    "Access to prod granted" None None None None None false true.

(** The chat and the layout of one tab, over one [localStorage]. *)
Definition one_tab : Router.Page :=
  Router.mkPage (Router.chat_with_storage (localStorage scenario_layout) fresh_chat)
    scenario_layout.

End SharedStoreTerms.

(** * Properties *)

(** A closed, decidable statement about sample states is settled by
    evaluating its decision procedure. *)
Ltac decide_by_computation :=
  first [ apply (bool_decide_eq_true_1 _) | apply (bool_decide_eq_false_1 _) ];
  vm_compute; reflexivity.

(** ** ConnectionManager: close-code classification *)
Section Reconnect.
Import WebSocketContext.

Lemma unexpected_spec (code : Z) :
  unexpected code = false ↔ code ∈ [1000; 1001; 1005; 1012].
Proof.
  unfold unexpected. rewrite !elem_of_cons, elem_of_nil.
  destruct (Z.eqb_spec code 1000), (Z.eqb_spec code 1001),
    (Z.eqb_spec code 1005), (Z.eqb_spec code 1012); simpl;
    intuition (try lia; try discriminate).
Qed.

Lemma authenticated_spec (st : State) :
  authenticated st = true ↔
  is_Some (user st) ∧ Js.truthy (token (localStorage st)) = true.
Proof.
  unfold authenticated. rewrite andb_true_iff, bool_decide_eq_true. reflexivity.
Qed.

(** C3: a close with code 1000, 1001, 1005 or 1012 sets no timer; a close
    with any other code, while a user is present and a token is stored,
    sets exactly one timer, of 1000 ms, that calls [connectWebSocket]. *)
Theorem onclose_reconnect (code : Z) (st : State) :
  (code ∈ [1000; 1001; 1005; 1012] → timers (onclose code st) = timers st) ∧
  (code ∉ [1000; 1001; 1005; 1012] →
   is_Some (user st) → Js.truthy (token (localStorage st)) = true →
   ∃ h, timers (onclose code st) = mkTimer h 1000 ConnectWebSocket :: timers st
        ∧ reconnectTimeoutRef (onclose code st) = Some h).
Proof.
  split.
  - intros Hin. apply unexpected_spec in Hin. unfold onclose. simpl.
    rewrite Hin. reflexivity.
  - intros Hnot Hu Ht.
    assert (Hx : unexpected code = true).
    { destruct (unexpected code) eqn:E; [reflexivity|].
      apply unexpected_spec in E. contradiction. }
    assert (Ha : authenticated st = true) by (apply authenticated_spec; auto).
    unfold onclose. simpl.
    replace (authenticated _) with true.
    rewrite Hx. simpl. eexists. split; reflexivity.
Qed.

Lemma onclose_reconnect_witness :
  timers (onclose 1000 closing_state) = [] ∧
  ∃ h, timers (onclose 1006 closing_state) = [mkTimer h 1000 ConnectWebSocket]
       ∧ reconnectTimeoutRef (onclose 1006 closing_state) = Some h.
Proof.
  split.
  - apply (proj1 (onclose_reconnect 1000 closing_state)). set_solver.
  - apply (proj2 (onclose_reconnect 1006 closing_state)).
    + rewrite !elem_of_cons, elem_of_nil. lia.
    + simpl. eauto.
    + reflexivity.
Defined.

(** Without a user or without a token no code sets a timer. *)
Lemma onclose_unauthenticated (code : Z) (st : State) :
  authenticated st = false → timers (onclose code st) = timers st.
Proof.
  intros Ha. unfold onclose. simpl.
  replace (authenticated _) with false. rewrite andb_false_r. reflexivity.
Qed.

End Reconnect.

(** ** RequestSyncCache: replay of a delta *)
Section RequestDelta.
Import Dashboard.

Lemma spread_spread (req u : Request) : spread (spread req u) u = spread req u.
Proof.
  unfold spread. simpl. f_equal.
  rewrite (assoc_L (∪)). rewrite (idemp_L (∪)). reflexivity.
Qed.

Lemma spread_self (u : Request) : spread u u = u.
Proof.
  destruct u as [i f]. unfold spread. simpl. f_equal. apply (idemp_L (∪)).
Qed.

Lemma applyDelta_unfold (u : Request) (l : list Request) :
  applyDelta u l =
  if existsb (same_key u) l
  then map (fun req => if same_key u req then spread req u else req) l
  else u :: l.
Proof.
  unfold applyDelta, same_key.
  destruct (existsb _ l) eqn:E; [reflexivity|].
  f_equal. rewrite <- (map_id l) at 2. apply map_ext_in.
  intros req Hin.
  destruct (String.eqb _ _) eqn:E'; [|reflexivity].
  assert (existsb (fun r => String.eqb (request_identifier r) (request_identifier u)) l = true).
  { apply existsb_exists. eauto. }
  congruence.
Qed.

(** A second application of the same delta to the list finds the entry
    and merges the fields it already has. *)
Lemma applyDelta_idempotent (u : Request) (l : list Request) :
  applyDelta u (applyDelta u l) = applyDelta u l.
Proof.
  rewrite (applyDelta_unfold u l).
  destruct (existsb (same_key u) l) eqn:E.
  - rewrite applyDelta_unfold.
    assert (E' : existsb (same_key u)
                   (map (fun req => if same_key u req then spread req u else req) l) = true).
    { apply existsb_exists in E as (r & Hin & Hr).
      apply existsb_exists. exists (spread r u). split.
      - apply in_map_iff. exists r. rewrite Hr. auto.
      - unfold same_key, spread. simpl. apply String.eqb_refl. }
    rewrite E'. rewrite map_map. apply map_ext. intros req.
    destruct (same_key u req) eqn:Hk.
    + replace (same_key u (spread req u)) with true
        by (unfold same_key, spread; simpl; symmetry; apply String.eqb_refl).
      apply spread_spread.
    + rewrite Hk. reflexivity.
  - rewrite applyDelta_unfold. simpl.
    replace (same_key u u) with true
      by (unfold same_key; symmetry; apply String.eqb_refl).
    simpl. rewrite spread_self. f_equal.
    rewrite <- (map_id l) at 2. apply map_ext_in. intros req Hin.
    destruct (same_key u req) eqn:Hk; [|reflexivity].
    assert (existsb (same_key u) l = true) by (apply existsb_exists; eauto).
    congruence.
Qed.

Lemma handleRequestUpdate_fresh (now : Z) (u : Request) (st : State) :
  updateId now u ∉ processedUpdates st →
  handleRequestUpdate now u st =
  mkState (applyDelta u (requests st))
    (remember (updateId now u) (processedUpdates st)) now
    (set_dashboard_requests (Some (applyDelta u (requests st))) (localStorage st)).
Proof.
  intros Hfresh. unfold handleRequestUpdate.
  rewrite bool_decide_eq_false_2 by assumption. reflexivity.
Qed.

(** A delivery whose update id is in the set changes nothing. *)
Lemma handleRequestUpdate_blocked (now : Z) (u : Request) (st : State) :
  updateId now u ∈ processedUpdates st → handleRequestUpdate now u st = st.
Proof.
  intros Hin. unfold handleRequestUpdate.
  rewrite bool_decide_eq_true_2 by assumption. reflexivity.
Qed.

(** A delivery that follows an applied delivery of the same delta leaves
    the list and its persisted copy alone. *)
Lemma handleRequestUpdate_again (now now' : Z) (u : Request) (st : State) :
  updateId now u ∉ processedUpdates st →
  requests (handleRequestUpdate now' u (handleRequestUpdate now u st))
  = requests (handleRequestUpdate now u st)
  ∧ dashboard_requests
      (localStorage (handleRequestUpdate now' u (handleRequestUpdate now u st)))
    = dashboard_requests (localStorage (handleRequestUpdate now u st)).
Proof.
  intros Hfresh.
  rewrite (handleRequestUpdate_fresh now u st Hfresh).
  unfold handleRequestUpdate.
  destruct (bool_decide (updateId now' u ∈ _)); simpl.
  - split; reflexivity.
  - rewrite applyDelta_idempotent. split; reflexivity.
Qed.

(** C5: two deliveries of the same delta leave the request list and its
    copy in [localStorage] as one delivery leaves them.  Once a delta has
    been applied, the second delivery (at any later or equal time) finds
    the entry by its identifier, merges the fields it already has, and
    changes nothing. *)
Theorem handleRequestUpdate_replay (now now' : Z) (u : Request) (st : State) :
  let s1 := handleRequestUpdate now u st in
  let s2 := handleRequestUpdate now' u s1 in
  (∃ t, (t = now ∨ t = now')
        ∧ requests s2 = requests (handleRequestUpdate t u st)
        ∧ dashboard_requests (localStorage s2)
          = dashboard_requests (localStorage (handleRequestUpdate t u st)))
  ∧ (updateId now u ∉ processedUpdates st →
     requests s1 = applyDelta u (requests st)
     ∧ requests s2 = requests s1
     ∧ dashboard_requests (localStorage s2) = dashboard_requests (localStorage s1)).
Proof.
  cbv zeta. split.
  - destruct (decide (updateId now u ∈ processedUpdates st)) as [Hin|Hfresh].
    + exists now'. rewrite (handleRequestUpdate_blocked now u st Hin). auto.
    + exists now. split; [auto|]. apply handleRequestUpdate_again. exact Hfresh.
  - intros Hfresh. split.
    + rewrite (handleRequestUpdate_fresh now u st Hfresh). reflexivity.
    + apply handleRequestUpdate_again. exact Hfresh.
Qed.

Lemma handleRequestUpdate_replay_witness :
  let s1 := handleRequestUpdate 1000 pending_delta empty_dashboard in
  let s2 := handleRequestUpdate 2000 pending_delta s1 in
  requests s1 = applyDelta pending_delta [] ∧
  requests s2 = requests s1 ∧
  dashboard_requests (localStorage s2) = dashboard_requests (localStorage s1).
Proof.
  apply (proj2 (handleRequestUpdate_replay 1000 2000 pending_delta empty_dashboard)).
  simpl. apply not_elem_of_nil.
Defined.

(** A [pending] delta and then a [deployed] delta with resources for the
    same request leave one entry, with the later status and the resources. *)
Example request_scenario :
  requests (handleRequestUpdate 2000 deployed_delta
              (handleRequestUpdate 1000 pending_delta empty_dashboard))
  = [deployed_delta].
Proof. vm_compute. reflexivity. Qed.

End RequestDelta.

(** ** NotificationStore: acknowledgments *)
Section Acknowledge.
Import Layout.

Lemma unread_all_read (l : list StoredNotification) : unread (map mark l) = 0%nat.
Proof.
  unfold unread. induction l as [|n l IH]; [reflexivity|].
  simpl. rewrite filter_cons. simpl.
  destruct (decide (true = false)); [discriminate|]. exact IH.
Qed.



End Acknowledge.

(** ** ReconciliationPoller: when it runs *)
Section PollerSchedule.
Import Layout.

(** C8, as the code has it.  The interval has a period of 30000 ms; a tick
    starts one run when real-time updates are on and the tab is visible,
    and none otherwise; the effect starts one run when it is (re)installed;
    no event of the document, a change of visibility included, and no
    event of the window starts a run. *)
Theorem poller_schedule (visible : bool) (st : State) :
  pollDelay = 30000
  ∧ polls (react visible IntervalTick st)
    = (if (realTimeUpdates st && visible)%bool then 1 else 0)%nat
  ∧ polls (react visible Mount st) = 1%nat
  ∧ (∀ name, react visible (DocumentEvent name) st = [])
  ∧ (∀ name key, polls (react visible (WindowEvent name key) st) = 0%nat)
  ∧ (∀ d, polls (react visible (WsMessage d) st) = 0%nat).
Proof.
  repeat split.
  - simpl. destruct (realTimeUpdates st && visible)%bool; reflexivity.
  - intros name key. simpl. destruct (String.eqb name "storage"); [|reflexivity].
    destruct (bool_decide _); reflexivity.
  - intros d. simpl. destruct (ws st); reflexivity.
Qed.

(** The tab becomes visible again: no run starts. *)
Lemma visibility_regain_starts_no_poll :
  polls (react true (DocumentEvent "visibilitychange") busy_layout) ≠ 1%nat.
Proof. discriminate. Qed.

End PollerSchedule.

(** ** The message text on the two channels *)
Section MessageText.
Import Layout.

Lemma replace_pr_from_skip (p rest : string) :
  Js.replace_pr_from (String.length p) (p ++ rest) = Js.replace_pr_from 0 rest.
Proof.
  induction p as [|c p IH]; simpl.
  - destruct rest; reflexivity.
  - exact IH.
Qed.

Lemma count_digits_app (ds rest : string) :
  all_digits ds = true → starts_with_digit rest = false →
  Js.count_digits (ds ++ rest) = String.length ds.
Proof.
  intros Hd Hr. induction ds as [|c ds IH]; simpl in *.
  - destruct rest as [|c rest]; [reflexivity|]. simpl in *. rewrite Hr. reflexivity.
  - apply andb_true_iff in Hd as [Hc Hd]. rewrite Hc. f_equal. auto.
Qed.

(** A maximal run [PR #<digits>] is replaced as a whole. *)
Lemma replace_pr_match (ds rest : string) :
  ds ≠ EmptyString → all_digits ds = true → starts_with_digit rest = false →
  Js.replace_pr ("PR #" ++ ds ++ rest) = "Pull Request" ++ Js.replace_pr rest.
Proof.
  intros Hne Hd Hr. unfold Js.replace_pr.
  change ("PR #" ++ ds ++ rest) with (String "P" ("R #" ++ ds ++ rest)).
  cbn [Js.replace_pr_from].
  assert (Hm : Js.match_pr (String "P" ("R #" ++ ds ++ rest))
               = Some (4 + String.length ds)%nat).
  { unfold Js.match_pr.
    change (Js.startsWith "PR #" (String "P" ("R #" ++ ds ++ rest))) with true.
    change (Js.drop 4 (String "P" ("R #" ++ ds ++ rest))) with (ds ++ rest).
    rewrite count_digits_app by assumption.
    destruct ds; [congruence|]. reflexivity. }
  rewrite Hm. f_equal.
  change (Nat.pred (4 + String.length ds)) with (String.length ("R #" ++ ds)).
  change ("R #" ++ ds ++ rest) with (("R #" ++ ds) ++ rest).
  apply replace_pr_from_skip.
Qed.

(** A character that starts no match is copied. *)
Lemma replace_pr_copy (c : ascii) (s : string) :
  Js.match_pr (String c s) = None →
  Js.replace_pr (String c s) = String c (Js.replace_pr s).
Proof. intros H. unfold Js.replace_pr. simpl. rewrite H. reflexivity. Qed.

(** A text without a match is left as it is. *)
Lemma replace_pr_no_match (s : string) :
  has_match s = false → Js.replace_pr s = s.
Proof.
  induction s as [|c s IH]; [reflexivity|].
  intros H. cbn [has_match] in H. apply orb_false_iff in H as [Hm Hs].
  apply bool_decide_eq_false in Hm.
  assert (Js.match_pr (String c s) = None) as Hn.
  { destruct (Js.match_pr (String c s)); [exfalso; apply Hm; eauto | reflexivity]. }
  rewrite replace_pr_copy by assumption. f_equal. auto.
Qed.

Lemma startsWith_inv (p s : string) :
  Js.startsWith p s = true → ∃ rest, s = p ++ rest.
Proof.
  revert s. induction p as [|a p IH]; intros s H.
  - exists s. reflexivity.
  - destruct s as [|b s]; [discriminate|]. simpl in H.
    destruct (Ascii.eqb_spec a b) as [->|]; [|discriminate].
    destruct (IH s H) as [rest ->]. exists rest. reflexivity.
Qed.

Lemma match_pr_inv (s : string) (n : nat) :
  Js.match_pr s = Some n →
  ∃ d rest, s = "PR #" ++ String d rest ∧ Js.is_digit d = true.
Proof.
  unfold Js.match_pr. destruct (Js.startsWith "PR #" s) eqn:E; [|discriminate].
  apply startsWith_inv in E as [rest ->].
  change (Js.drop 4 ("PR #" ++ rest)) with rest.
  destruct rest as [|d rest]; [discriminate|]. simpl.
  destruct (Js.is_digit d) eqn:D; [|discriminate].
  intros _. eauto.
Qed.

Lemma match_pr_digit (d : ascii) (rest : string) :
  Js.is_digit d = true → Js.match_pr ("PR #" ++ String d rest) ≠ None.
Proof.
  intros D. unfold Js.match_pr.
  change (Js.startsWith "PR #" ("PR #" ++ String d rest)) with true.
  change (Js.drop 4 ("PR #" ++ String d rest)) with (String d rest).
  simpl. rewrite D. discriminate.
Qed.

Lemma replace_pr_head (s out : string) (c : ascii) :
  Js.replace_pr s = String c out → c ≠ "P"%char →
  ∃ s', s = String c s' ∧ out = Js.replace_pr s'.
Proof.
  unfold Js.replace_pr. destruct s as [|a s]; [discriminate|].
  cbn [Js.replace_pr_from].
  destruct (Js.match_pr (String a s)).
  - intros H Hc. injection H as <- _. contradiction.
  - intros H _. injection H as <- <-. eauto.
Qed.

Lemma no_match_left_from (s : string) :
  ∀ skip, has_match (Js.replace_pr_from skip s) = false.
Proof.
  induction s as [|c s IH]; intros skip; [reflexivity|].
  cbn [Js.replace_pr_from]. destruct skip as [|k]; [|apply IH].
  destruct (Js.match_pr (String c s)) as [n|] eqn:E.
  - change (has_match ("Pull Request" ++ Js.replace_pr_from (Nat.pred n) s))
      with (has_match (Js.replace_pr_from (Nat.pred n) s)).
    apply IH.
  - cbn [has_match]. rewrite IH, orb_false_r.
    apply bool_decide_eq_false. intros [m Hm].
    apply match_pr_inv in Hm as (d & rest & Heq & D).
    injection Heq as -> Hout.
    apply replace_pr_head in Hout as (s1 & -> & Hout); [|discriminate].
    symmetry in Hout.
    apply replace_pr_head in Hout as (s2 & -> & Hout); [|discriminate].
    symmetry in Hout.
    apply replace_pr_head in Hout as (s3 & -> & Hout); [|discriminate].
    symmetry in Hout.
    apply replace_pr_head in Hout as (s4 & -> & _);
      [|intros ->; discriminate].
    exact (match_pr_digit d s4 D E).
Qed.

(** No run [PR #<digits>] is left in the text. *)
Lemma replace_pr_complete (s : string) : has_match (Js.replace_pr s) = false.
Proof. apply no_match_left_from. Qed.

End MessageText.

(** ** NotificationStore: merging *)
Section Merge.
Import Layout.

Lemma equivalent_test (window : Z) (e n : StoredNotification) :
  (sameContent e n && recentTime window e n)%bool = true ↔ equivalent window e n.
Proof.
  unfold sameContent, recentTime, equivalent, Js.abs_diff.
  rewrite !andb_true_iff, !String.eqb_eq, Z.ltb_lt. tauto.
Qed.

Lemma isDuplicate_true (mid : string) (b : StoredNotification)
    (prev : list StoredNotification) :
  isDuplicate mid b prev = true ↔
  ∃ e, e ∈ prev ∧ (equivalent 10000 e b ∨ sameId mid e = true).
Proof.
  unfold isDuplicate. rewrite existsb_exists. split.
  - intros (e & Hin & He). exists e. split; [apply list_elem_of_In; exact Hin|].
    apply orb_true_iff in He as [He|He]; [left; apply equivalent_test|right]; exact He.
  - intros (e & Hin & He). exists e. split; [apply list_elem_of_In; exact Hin|].
    apply orb_true_iff. destruct He as [He|He]; [left; apply equivalent_test|right]; exact He.
Qed.

Lemma uniqueNew_nil (stored converted : list StoredNotification) :
  (∀ n, n ∈ converted → ∃ e, e ∈ stored ∧ equivalent 30000 e n) →
  uniqueNew stored converted = [].
Proof.
  intros H. unfold uniqueNew. induction converted as [|n l IH]; [reflexivity|].
  rewrite filter_cons.
  destruct (H n) as (e & Hin & He); [left|].
  assert (Hex : existsb (fun x => sameContent x n && recentTime 30000 x n)%bool stored = true).
  { apply existsb_exists. exists e. split; [apply list_elem_of_In; exact Hin|].
    apply equivalent_test; exact He. }
  rewrite Hex. destruct (decide (true = false)); [discriminate|].
  apply IH. intros m Hm. apply H. right. exact Hm.
Qed.

(** On the push path every kind of message other than [notification]
    leaves the store, its count and its persisted copy alone. *)
Lemma handleWebSocketMessage_notification (now : Z) (d : WsData) (st : State) :
  data_type d = "notification" →
  handleWebSocketMessage now d st
  = mergeBell (messageId now d) (bellNotification now d) st.
Proof. intros H. unfold handleWebSocketMessage. rewrite H. reflexivity. Qed.

Lemma handleWebSocketMessage_store (now : Z) (d : WsData) (st : State) :
  data_type d ≠ "notification" →
  storedNotifications (handleWebSocketMessage now d st) = storedNotifications st
  ∧ notificationCount (handleWebSocketMessage now d st) = notificationCount st
  ∧ localStorage (handleWebSocketMessage now d st) = localStorage st.
Proof.
  intros H. unfold handleWebSocketMessage.
  destruct (String.eqb_spec (data_type d) "popup_notification").
  { destruct (popup d); [|auto]. unfold playNotificationSound. simpl.
    destruct (soundEnabled st); simpl; destruct (ws st); simpl; auto. }
  destruct (String.eqb_spec (data_type d) "notification"); [contradiction|].
  destruct (String.eqb_spec (data_type d) "request_update"); [|auto].
  destruct (request d); auto.
Qed.

Lemma popupOffline_store (captured converted : list StoredNotification) (st : State) :
  storedNotifications (popupOffline captured converted st) = storedNotifications st
  ∧ notificationCount (popupOffline captured converted st) = notificationCount st
  ∧ localStorage (popupOffline captured converted st) = localStorage st.
Proof.
  unfold popupOffline. destruct (uniqueNew captured converted); [auto|].
  unfold playNotificationSound. simpl. destruct (soundEnabled st); auto.
Qed.

Lemma fetchOfflineNotifications_unfold (captured : list StoredNotification)
    (now : Z) (ns : list DbNotification) (st : State) :
  fetchOfflineNotifications captured now (Some ns) st =
  match newNotifications now st ns with
  | [] => st
  | new =>
      let converted := map convert new in
      setLocalStorage
        (set_fetched_notification_ids
           (Some (default [] (fetched_notification_ids (localStorage st))
                  ++ map db_id new)%list))
        (mergeOffline converted (popupOffline captured converted st))
  end.
Proof.
  unfold fetchOfflineNotifications, newNotifications, popupOffline.
  destruct (filter _ ns); reflexivity.
Qed.

Lemma mergeOffline_store (converted : list StoredNotification) (st : State) :
  storedNotifications (mergeOffline converted st)
  = match uniqueNew (storedNotifications st) converted with
    | [] => storedNotifications st
    | u => take 20 (u ++ storedNotifications st)
    end.
Proof.
  unfold mergeOffline. destruct (uniqueNew _ converted); reflexivity.
Qed.

(** The store after a poller run, in terms of the store before it. *)
Lemma fetchOfflineNotifications_store (captured : list StoredNotification)
    (now : Z) (ns : list DbNotification) (st : State) :
  storedNotifications (fetchOfflineNotifications captured now (Some ns) st)
  = match uniqueNew (storedNotifications st) (map convert (newNotifications now st ns)) with
    | [] => storedNotifications st
    | u => take 20 (u ++ storedNotifications st)
    end.
Proof.
  rewrite fetchOfflineNotifications_unfold.
  destruct (newNotifications now st ns) as [|n new] eqn:E; [reflexivity|].
  cbv zeta. set (converted := map convert (n :: new)).
  change (storedNotifications (mergeOffline converted (popupOffline captured converted st))
          = match uniqueNew (storedNotifications st) converted with
            | [] => storedNotifications st
            | u => take 20 (u ++ storedNotifications st)
            end).
  rewrite mergeOffline_store.
  destruct (popupOffline_store captured converted st) as (-> & _ & _). reflexivity.
Qed.

(** The push path also takes for a duplicate a message whose id has a
    second [_]-separated segment that occurs in a stored id. *)
Lemma push_id_segment_is_duplicate (now : Z) (d : WsData) (st : State) :
  data_type d = "notification" →
  (∃ e, e ∈ storedNotifications st ∧ sameId (messageId now d) e = true) →
  handleWebSocketMessage now d st = st.
Proof.
  intros Hty (e & Hin & He).
  rewrite handleWebSocketMessage_notification by assumption.
  unfold mergeBell.
  replace (isDuplicate _ _ _) with true; [reflexivity|].
  symmetry. apply isDuplicate_true. eauto.
Qed.

(** C1, as the code has it.  A push-delivered notification that has an
    equivalent in the store (same title and stored message, creation times
    less than 10 s apart) leaves the whole state as it was.  A poller run
    all of whose new items have an equivalent in the store (same title and
    message, less than 30 s apart) leaves the store, its persisted copy
    and the unread count as they were. *)
Theorem merge_of_duplicate_is_noop :
  (∀ (now : Z) (d : WsData) (st : State),
     data_type d = "notification" →
     (∃ e, e ∈ storedNotifications st
           ∧ equivalent 10000 e (bellNotification now d)) →
     handleWebSocketMessage now d st = st)
  ∧
  (∀ (captured : list StoredNotification) (now : Z) (ns : list DbNotification)
     (st : State),
     (∀ n, n ∈ newNotifications now st ns →
           ∃ e, e ∈ storedNotifications st ∧ equivalent 30000 e (convert n)) →
     let st' := fetchOfflineNotifications captured now (Some ns) st in
     storedNotifications st' = storedNotifications st
     ∧ layout_notifications (localStorage st') = layout_notifications (localStorage st)
     ∧ notificationCount st' = notificationCount st).
Proof.
  split.
  - intros now d st Hty (e & Hin & He).
    rewrite handleWebSocketMessage_notification by assumption.
    unfold mergeBell.
    replace (isDuplicate _ _ _) with true; [reflexivity|].
    symmetry. apply isDuplicate_true. eauto.
  - intros captured now ns st Hdup. cbv zeta.
    rewrite fetchOfflineNotifications_unfold.
    destruct (newNotifications now st ns) as [|n new] eqn:E; [auto|].
    cbv zeta. set (converted := map convert (n :: new)).
    assert (Hnil : uniqueNew (storedNotifications st) converted = []).
    { apply uniqueNew_nil. intros x Hx. subst converted.
      apply list_elem_of_In, in_map_iff in Hx as (y & <- & Hy).
      apply Hdup. apply list_elem_of_In. exact Hy. }
    destruct (popupOffline_store captured converted st) as (Hs & Hc & Hl).
    unfold mergeOffline. rewrite Hs, Hnil. simpl.
    rewrite Hs, Hc, Hl. auto.
Qed.

End Merge.

Section MergeInstances.
Import Layout.

Lemma merge_of_duplicate_is_noop_witness :
  handleWebSocketMessage 5000 (bell "m2" "Deploy" "Merged PR #42") one_bell_layout
  = one_bell_layout
  ∧ storedNotifications
      (fetchOfflineNotifications [] 3000
         (Some [db "8" "Deploy" "instance ready" 2000]) busy_layout)
    = storedNotifications busy_layout.
Proof.
  split.
  - apply (proj1 merge_of_duplicate_is_noop 5000
             (bell "m2" "Deploy" "Merged PR #42") one_bell_layout).
    + reflexivity.
    + exists (sample "bell_m1" "Deploy" "Merged Pull Request" 1000). split.
      * simpl. left.
      * unfold equivalent. simpl. repeat split; lia.
  - apply (proj2 merge_of_duplicate_is_noop []
             3000 [db "8" "Deploy" "instance ready" 2000] busy_layout).
    intros n Hn. vm_compute in Hn. apply list_elem_of_singleton in Hn. subst n.
    exists (sample "db_7" "Deploy" "instance ready" 1000). split.
    + simpl. left.
    + unfold equivalent. simpl. repeat split; lia.
Defined.

(** A poll-origin item with the id of a stored one, and another message,
    is merged again: the merge compares no ids.  So is the whole poller
    run once the persisted list of ids is gone. *)
Lemma merge_of_same_id_changes_store :
  let n := db "7" "Deploy" "instance terminated" 1000 in
  id (convert n) ∈ map id (storedNotifications busy_layout)
  ∧ storedNotifications (mergeOffline [convert n] busy_layout)
    = [convert n; sample "db_7" "Deploy" "instance ready" 1000]
  ∧ storedNotifications (mergeOffline [convert n] busy_layout)
    ≠ storedNotifications busy_layout
  ∧ storedNotifications cleared_elsewhere = storedNotifications busy_layout
  ∧ storedNotifications
      (fetchOfflineNotifications (storedNotifications cleared_elsewhere) 5000
         (Some [n]) cleared_elsewhere)
    = [convert n; sample "db_7" "Deploy" "instance ready" 1000].
Proof.
  cbv zeta. split; [|split; [|split; [|split]]].
  - vm_compute. left.
  - vm_compute. reflexivity.
  - vm_compute. discriminate.
  - vm_compute. reflexivity.
  - vm_compute. reflexivity.
Qed.

(** On the push path a server id without [_] has no second segment, and a
    redelivery after more than 10 s is stored a second time. *)
Lemma push_same_id_without_separator :
  id (bellNotification 61000 (bell "m1" "Deploy" "Merged Pull Request"))
    ∈ map id (storedNotifications one_bell_layout)
  ∧ length (storedNotifications
              (handleWebSocketMessage 61000 (bell "m1" "Deploy" "Merged Pull Request")
                 one_bell_layout)) = 2%nat.
Proof.
  split.
  - vm_compute. left.
  - vm_compute. reflexivity.
Qed.

End MergeInstances.

(** ** NotificationStore: size and retention *)
Section Growth.
Import Layout.

(** The store after a push message, in terms of the store before it. *)
Lemma handleWebSocketMessage_stored (now : Z) (d : WsData) (st : State) :
  storedNotifications (handleWebSocketMessage now d st)
  = if (String.eqb (data_type d) "notification"
        && negb (isDuplicate (messageId now d) (bellNotification now d)
                   (storedNotifications st)))%bool
    then take 15 (bellNotification now d :: storedNotifications st)
    else storedNotifications st.
Proof.
  destruct (String.eqb_spec (data_type d) "notification") as [Hty|Hty].
  - rewrite handleWebSocketMessage_notification by assumption.
    unfold mergeBell. destruct (isDuplicate _ _ _); reflexivity.
  - apply handleWebSocketMessage_store. exact Hty.
Qed.

Lemma push_store_length (now : Z) (d : WsData) (st : State) :
  (length (storedNotifications (handleWebSocketMessage now d st))
   ≤ Nat.max 15 (length (storedNotifications st)))%nat.
Proof.
  rewrite handleWebSocketMessage_stored.
  destruct (_ && _)%bool; [|lia]. rewrite length_take. lia.
Qed.

Lemma poll_store_length (captured : list StoredNotification) (now : Z)
    (response : option (list DbNotification)) (st : State) :
  (length (storedNotifications (fetchOfflineNotifications captured now response st))
   ≤ Nat.max 20 (length (storedNotifications st)))%nat.
Proof.
  destruct response as [ns|]; [|simpl; lia].
  rewrite fetchOfflineNotifications_store.
  destruct (uniqueNew _ _); [lia|]. rewrite length_take. lia.
Qed.

(** C2, as the code has it.  A push message that is a bell notification
    and not a duplicate makes the store the first 15 of the new item
    followed by the old store; any other push message leaves the store as
    it is.  A poller run with new items makes the store the first 20 of
    the new items, in fetch order, followed by the old store; a run
    without new items, or without a response, leaves it as it is.  The
    size is then at most the cap, or the size before.  What is retained is
    the front of the list: the items inserted last. *)
Theorem merge_bounds (now : Z) (d : WsData) (captured : list StoredNotification)
    (response : option (list DbNotification)) (st : State) :
  let pushed := storedNotifications (handleWebSocketMessage now d st) in
  let polled := storedNotifications (fetchOfflineNotifications captured now response st) in
  let prev := storedNotifications st in
  pushed = (if (String.eqb (data_type d) "notification"
                && negb (isDuplicate (messageId now d) (bellNotification now d) prev))%bool
            then take 15 (bellNotification now d :: prev)
            else prev)
  ∧ (length pushed ≤ Nat.max 15 (length prev))%nat
  ∧ polled = match response with
             | None => prev
             | Some ns =>
                 match uniqueNew prev (map convert (newNotifications now st ns)) with
                 | [] => prev
                 | u => take 20 (u ++ prev)
                 end
             end
  ∧ (length polled ≤ Nat.max 20 (length prev))%nat.
Proof.
  cbv zeta.
  split; [apply handleWebSocketMessage_stored|].
  split; [apply push_store_length|].
  split; [|apply poll_store_length].
  destruct response as [ns|]; [apply fetchOfflineNotifications_store|reflexivity].
Qed.

Lemma merges_stay_within_20 (ops : list MergeOp) (st : State) :
  (length (storedNotifications st) ≤ 20)%nat →
  (length (storedNotifications (fold_left (fun s o => merge_step o s) ops st)) ≤ 20)%nat.
Proof.
  revert st. induction ops as [|o ops IH]; intros st H; [exact H|].
  simpl. apply IH. destruct o as [now d|captured now response]; simpl.
  - pose proof (push_store_length now d st). lia.
  - pose proof (poll_store_length captured now response st). lia.
Qed.

(** A duplicate push leaves a store of 20 at 20; and a poll that imports
    an item created an hour ago keeps it while it drops the stored item
    at the end of the list, which was created later. *)
Lemma retained_not_most_recent :
  (15 < length (storedNotifications
                  (handleWebSocketMessage 10000001
                     (bell "n" "Build 0" "finished") full_layout)))%nat
  ∧
  (let st' := fetchOfflineNotifications (storedNotifications full_layout) 10000001
                (Some [db "41" "Backup" "completed" 6400000]) full_layout in
   let kept := convert (db "41" "Backup" "completed" 6400000) in
   let dropped := numbered 19 in
   kept ∈ storedNotifications st'
   ∧ dropped ∈ storedNotifications full_layout
   ∧ (dropped ∉ storedNotifications st')
   ∧ timestamp kept < timestamp dropped).
Proof.
  split.
  - vm_compute. lia.
  - cbv zeta. split; [|split; [|split]].
    + decide_by_computation.
    + decide_by_computation.
    + decide_by_computation.
    + vm_compute. reflexivity.
Qed.

(** A store of 15 that receives one more distinct push notification
    stays at 15: the new item is in front and the last one is gone. *)
Example capacity_scenario :
  let st' := handleWebSocketMessage 20000000
               (bell "srv_77_a" "Release" "published") (layout_of 15) in
  length (storedNotifications st') = 15%nat
  ∧ storedNotifications st'
    = bellNotification 20000000 (bell "srv_77_a" "Release" "published")
      :: map numbered (seq 0 14)
  ∧ numbered 14 ∉ storedNotifications st'.
Proof.
  cbv zeta. split; [|split].
  - vm_compute. reflexivity.
  - vm_compute. reflexivity.
  - decide_by_computation.
Qed.

End Growth.

(** ** ReconciliationPoller: new items and the popup *)
Section PollerRun.
Import Layout.

Lemma uniqueNew_spec (stored converted : list StoredNotification)
    (x : StoredNotification) :
  x ∈ uniqueNew stored converted ↔
  x ∈ converted ∧ ∀ e, e ∈ stored → ¬ equivalent 30000 e x.
Proof.
  unfold uniqueNew. rewrite list_elem_of_filter. split.
  - intros [Hf Hx]. split; [exact Hx|]. intros e He Heq.
    assert (existsb (fun y => sameContent y x && recentTime 30000 y x)%bool stored = true).
    { apply existsb_exists. exists e. split; [apply list_elem_of_In; exact He|].
      apply equivalent_test. exact Heq. }
    congruence.
  - intros [Hx Hno]. split; [|exact Hx].
    destruct (existsb _ stored) eqn:E; [|reflexivity].
    apply existsb_exists in E as (e & He & Ht).
    exfalso. apply (Hno e); [apply list_elem_of_In; exact He|].
    apply equivalent_test. exact Ht.
Qed.

Lemma newNotifications_spec (now : Z) (st : State) (ns : list DbNotification)
    (n : DbNotification) :
  n ∈ newNotifications now st ns ↔
  n ∈ ns
  ∧ (∃ t, created_at n = Some t ∧ (now - 7200000 < t)%Z)
  ∧ is_read n = false
  ∧ db_id n ∉ default [] (fetched_notification_ids (localStorage st)).
Proof.
  unfold newNotifications. rewrite list_elem_of_filter. unfold isNew.
  rewrite !andb_true_iff, !negb_true_iff, bool_decide_eq_false.
  split.
  - intros [[[Ht Hr] Hf] Hn]. repeat split; try assumption.
    destruct (created_at n) as [t|]; [|discriminate].
    exists t. split; [reflexivity|]. apply Z.ltb_lt in Ht. lia.
  - intros (Hn & (t & Ht & Hlt) & Hr & Hf). repeat split; try assumption.
    rewrite Ht. apply Z.ltb_lt. lia.
Qed.

Lemma newest_first_filter (P : StoredNotification → Prop)
    `{∀ x, Decision (P x)} (l : list StoredNotification) :
  newest_first l → newest_first (filter P l).
Proof.
  unfold newest_first. induction 1 as [|a l Hs IH Ha]; [constructor|].
  rewrite filter_cons. destruct (decide (P a)); [|exact IH].
  constructor; [exact IH|].
  apply Forall_forall. intros y Hy. apply list_elem_of_filter in Hy as [_ Hy].
  rewrite Forall_forall in Ha. apply Ha. exact Hy.
Qed.

Lemma snackbars_popupOffline (captured converted : list StoredNotification)
    (st : State) :
  snackbars (trace (popupOffline captured converted st))
  = (match uniqueNew captured converted with
     | [] => []
     | x :: _ => [ShowSnackbar (message x) (type x)]
     end ++ snackbars (trace st))%list.
Proof.
  unfold popupOffline. destruct (uniqueNew captured converted) as [|x u]; [reflexivity|].
  unfold playNotificationSound. simpl. destruct (soundEnabled st); reflexivity.
Qed.

Lemma trace_mergeOffline (converted : list StoredNotification) (st : State) :
  trace (mergeOffline converted st) = trace st.
Proof. unfold mergeOffline. destruct (uniqueNew _ converted); reflexivity. Qed.

Lemma snackbars_fetchOfflineNotifications (captured : list StoredNotification)
    (now : Z) (ns : list DbNotification) (st : State) :
  snackbars (trace (fetchOfflineNotifications captured now (Some ns) st))
  = (match uniqueNew captured (map convert (newNotifications now st ns)) with
     | [] => []
     | x :: _ => [ShowSnackbar (message x) (type x)]
     end ++ snackbars (trace st))%list.
Proof.
  rewrite fetchOfflineNotifications_unfold.
  destruct (newNotifications now st ns) as [|n new]; [reflexivity|].
  cbv zeta. set (converted := map convert (n :: new)).
  change (snackbars (trace (mergeOffline converted (popupOffline captured converted st)))
          = (match uniqueNew captured converted with
             | [] => []
             | x :: _ => [ShowSnackbar (message x) (type x)]
             end ++ snackbars (trace st))%list).
  rewrite trace_mergeOffline. apply snackbars_popupOffline.
Qed.

(** C4, as the code has it.  Of the fetched notifications, those created
    in the last two hours, unread and with an id outside the persisted
    list are the new ones; the new ones without an equivalent in the store
    (same title and message, less than 30 s apart) are put in front of the
    store, in fetch order, and the store is cut to 20.  When the running
    closure holds the current store, the run shows the snackbar once if at
    least one item is added, and not otherwise, and it shows the first
    added item in fetch order: the most recent of them when the new items
    arrive newest first. *)
Theorem poll_new_items_and_popup (captured : list StoredNotification) (now : Z)
    (ns : list DbNotification) (st : State) :
  let new := newNotifications now st ns in
  let converted := map convert new in
  let added := uniqueNew (storedNotifications st) converted in
  let st' := fetchOfflineNotifications captured now (Some ns) st in
  (∀ n, n ∈ new ↔
        n ∈ ns ∧ (∃ t, created_at n = Some t ∧ (now - 7200000 < t)%Z)
        ∧ is_read n = false
        ∧ db_id n ∉ default [] (fetched_notification_ids (localStorage st)))
  ∧ (∀ x, x ∈ added ↔
          x ∈ converted ∧ ∀ e, e ∈ storedNotifications st → ¬ equivalent 30000 e x)
  ∧ storedNotifications st'
    = match added with
      | [] => storedNotifications st
      | _ :: _ => take 20 (added ++ storedNotifications st)
      end
  ∧ (captured = storedNotifications st →
     snackbars (trace st')
     = (match added with
        | [] => []
        | x :: _ => [ShowSnackbar (message x) (type x)]
        end ++ snackbars (trace st))%list
     ∧ (newest_first converted →
        ∀ x rest, added = x :: rest →
                  Forall (fun y => (timestamp y ≤ timestamp x)%Z) rest)).
Proof.
  cbv zeta. split; [intros n; apply newNotifications_spec|].
  split; [intros x; apply uniqueNew_spec|].
  split.
  { rewrite fetchOfflineNotifications_store.
    destruct (uniqueNew _ _); reflexivity. }
  intros Hcap. split.
  - rewrite snackbars_fetchOfflineNotifications, Hcap. reflexivity.
  - intros Hsorted x rest Hu.
    assert (Hs : newest_first (x :: rest)).
    { rewrite <- Hu. unfold uniqueNew. apply newest_first_filter. exact Hsorted. }
    apply StronglySorted_inv in Hs as [_ Hs]. exact Hs.
Qed.

(** Three fetched notifications, the second of which repeats a stored one
    within 30 s: two are added and the popup shows the newer of the two. *)
Lemma poll_new_items_and_popup_witness :
  let st' := fetchOfflineNotifications (storedNotifications scenario_layout)
               9030000 (Some scenario_fetch) scenario_layout in
  snackbars (trace st') = [ShowSnackbar "completed" success]
  ∧ Forall (fun y => (timestamp y ≤ 9020000)%Z)
      [convert (db "10" "Build" "started" 9005000)].
Proof.
  assert (Hnew : map convert (newNotifications 9030000 scenario_layout scenario_fetch)
                 = map convert scenario_fetch) by (vm_compute; reflexivity).
  assert (Hsorted : newest_first
            (map convert (newNotifications 9030000 scenario_layout scenario_fetch))).
  { rewrite Hnew. unfold newest_first, scenario_fetch.
    repeat first [apply SSorted_cons | apply SSorted_nil
                 | apply List.Forall_cons | apply List.Forall_nil];
      vm_compute; discriminate. }
  assert (Hu : uniqueNew (storedNotifications scenario_layout)
                 (map convert (newNotifications 9030000 scenario_layout scenario_fetch))
               = [convert (db "12" "Backup" "completed" 9020000);
                  convert (db "10" "Build" "started" 9005000)])
    by (vm_compute; reflexivity).
  destruct (proj2 (proj2 (proj2
              (poll_new_items_and_popup (storedNotifications scenario_layout)
                 9030000 scenario_fetch scenario_layout))) eq_refl)
    as [Hshown Hrecent].
  split.
  - rewrite Hshown, Hu. reflexivity.
  - exact (Hrecent Hsorted _ _ Hu).
Defined.

Example poll_scenario :
  storedNotifications
    (fetchOfflineNotifications (storedNotifications scenario_layout)
       9030000 (Some scenario_fetch) scenario_layout)
  = [convert (db "12" "Backup" "completed" 9020000);
     convert (db "10" "Build" "started" 9005000);
     sample "bell_notification_9000000" "Deploy" "instance ready" 9000000].
Proof. vm_compute. reflexivity. Qed.

(** The popup shows the first added item of the response, which need not
    be the most recent one. *)
Lemma popup_not_for_most_recent :
  let st' := fetchOfflineNotifications (storedNotifications scenario_layout) 9030000
               (Some [db "10" "Build" "started" 9005000;
                      db "12" "Backup" "completed" 9020000])
               scenario_layout in
  snackbars (trace st') = [ShowSnackbar "started" success]
  ∧ convert (db "10" "Build" "started" 9005000) ∈ storedNotifications st'
  ∧ convert (db "12" "Backup" "completed" 9020000) ∈ storedNotifications st'
  ∧ (timestamp (convert (db "10" "Build" "started" 9005000))
     < timestamp (convert (db "12" "Backup" "completed" 9020000)))%Z.
Proof.
  cbv zeta. split; [|split; [|split]].
  - vm_compute. reflexivity.
  - decide_by_computation.
  - decide_by_computation.
  - vm_compute. reflexivity.
Qed.

(** The popup is computed against the store of the closure, the merge
    against the store of the updater: a closure that captured an empty
    store shows an item that the merge then rejects. *)
Lemma popup_uses_captured_store :
  let st' := fetchOfflineNotifications [] 9030000
               (Some [db "11" "Deploy" "instance ready" 9010000])
               scenario_layout in
  snackbars (trace st') = [ShowSnackbar "instance ready" success]
  ∧ storedNotifications st' = storedNotifications scenario_layout.
Proof. cbv zeta. split; vm_compute; reflexivity. Qed.

End PollerRun.

(** ** The stored message text, channel by channel *)
Section Channels.
Import Layout.

Lemma fetchOfflineNotifications_origin (captured : list StoredNotification)
    (now : Z) (ns : list DbNotification) (st : State) (x : StoredNotification) :
  x ∈ storedNotifications (fetchOfflineNotifications captured now (Some ns) st) →
  x ∈ storedNotifications st ∨ ∃ n, n ∈ ns ∧ x = convert n.
Proof.
  rewrite fetchOfflineNotifications_store.
  destruct (uniqueNew _ _) as [|y u] eqn:E; [auto|].
  intros Hx. apply subseteq_take in Hx. apply elem_of_app in Hx as [Hx|Hx]; [|auto].
  right. rewrite <- E in Hx. apply uniqueNew_spec in Hx as [Hx _].
  apply list_elem_of_In, in_map_iff in Hx as (n & <- & Hn).
  exists n. split; [|reflexivity].
  apply list_elem_of_In in Hn. apply newNotifications_spec in Hn. tauto.
Qed.

(** The rows that a poller run stores are stored as [convert] makes them,
    the first of them in front. *)
Lemma poll_stores_converted (captured : list StoredNotification) (now : Z)
    (ns : list DbNotification) (st : State) :
  let added :=
    uniqueNew (storedNotifications st) (map convert (newNotifications now st ns)) in
  let st' := fetchOfflineNotifications captured now (Some ns) st in
  storedNotifications st'
  = match added with
    | [] => storedNotifications st
    | _ :: _ => take 20 (added ++ storedNotifications st)
    end
  ∧ (∀ x, x ∈ added → ∃ n, n ∈ ns ∧ x = convert n ∧ message x = db_message n)
  ∧ (∀ c rest, added = c :: rest →
       ∃ n tail, n ∈ ns ∧ c = convert n ∧ message c = db_message n
                 ∧ storedNotifications st' = c :: tail).
Proof.
  cbv zeta.
  assert (Hrows : ∀ x,
            x ∈ uniqueNew (storedNotifications st)
                  (map convert (newNotifications now st ns)) →
            ∃ n, n ∈ ns ∧ x = convert n ∧ message x = db_message n).
  { intros x Hx. apply uniqueNew_spec in Hx as [Hx _].
    apply list_elem_of_fmap in Hx as (n & -> & Hn).
    apply newNotifications_spec in Hn as [Hn _]. exists n. auto. }
  rewrite fetchOfflineNotifications_store.
  split; [destruct (uniqueNew _ _); reflexivity|]. split; [exact Hrows|].
  intros c rest Hadded.
  destruct (Hrows c) as (n & Hn & -> & Hm); [rewrite Hadded; left|].
  exists n. eexists. split; [exact Hn|]. split; [reflexivity|]. split; [exact Hm|].
  rewrite Hadded. reflexivity.
Qed.

Lemma replace_pr_changes (s : string) : has_match s = true → Js.replace_pr s ≠ s.
Proof.
  intros Hs Heq. pose proof (replace_pr_complete s) as H.
  rewrite Heq in H. congruence.
Qed.

(** C10: a push-delivered bell notification is checked for duplicates and
    stored with the text that [replace(/PR #\d+/g, 'Pull Request')] makes
    of the wire message: a maximal run [PR #<digits>] becomes
    [Pull Request], any other character is copied, and no such run is left
    in the stored text.  A poller run stores its new rows in front of the
    store, each with the message of the server as it is.  So a
    notification whose message has such a run is stored with one text when
    it is pushed and with another when it is polled. *)
Theorem message_text_by_channel :
  (∀ (now : Z) (d : WsData) (st : State),
     data_type d = "notification" →
     handleWebSocketMessage now d st
     = mergeBell (messageId now d) (bellNotification now d) st
     ∧ message (bellNotification now d) = Js.replace_pr (data_message d)
     ∧ (isDuplicate (messageId now d) (bellNotification now d)
          (storedNotifications st) = false →
        ∃ b rest, storedNotifications (handleWebSocketMessage now d st) = b :: rest
                  ∧ message b = Js.replace_pr (data_message d)))
  ∧ (∀ (ds rest : string),
       ds ≠ EmptyString → all_digits ds = true → starts_with_digit rest = false →
       Js.replace_pr ("PR #" ++ ds ++ rest) = "Pull Request" ++ Js.replace_pr rest)
  ∧ (∀ (c : ascii) (s : string),
       Js.match_pr (String c s) = None →
       Js.replace_pr (String c s) = String c (Js.replace_pr s))
  ∧ (∀ (now : Z) (d : WsData), has_match (message (bellNotification now d)) = false)
  ∧ (∀ (captured : list StoredNotification) (now : Z) (ns : list DbNotification)
       (st : State) (x : StoredNotification),
       x ∈ storedNotifications (fetchOfflineNotifications captured now (Some ns) st) →
       x ∈ storedNotifications st
       ∨ ∃ n, n ∈ ns ∧ x = convert n ∧ message x = db_message n)
  ∧ (∀ (now : Z) (i t : string),
       message (bellNotification now (bell i t "Merged PR #42")) = "Merged Pull Request"
       ∧ message (convert (db i t "Merged PR #42" now)) = "Merged PR #42")
  ∧ (∀ (captured : list StoredNotification) (now : Z) (ns : list DbNotification)
       (st : State),
       let added :=
         uniqueNew (storedNotifications st) (map convert (newNotifications now st ns)) in
       let st' := fetchOfflineNotifications captured now (Some ns) st in
       storedNotifications st'
       = match added with
         | [] => storedNotifications st
         | _ :: _ => take 20 (added ++ storedNotifications st)
         end
       ∧ (∀ x, x ∈ added → ∃ n, n ∈ ns ∧ x = convert n ∧ message x = db_message n)
       ∧ (∀ c rest, added = c :: rest →
            ∃ n tail, n ∈ ns ∧ c = convert n ∧ message c = db_message n
                      ∧ storedNotifications st' = c :: tail))
  ∧ (∀ (now now' : Z) (d : WsData) (st st2 : State)
       (captured : list StoredNotification) (ns : list DbNotification)
       (n : DbNotification) (others : list StoredNotification),
       data_type d = "notification" →
       isDuplicate (messageId now d) (bellNotification now d) (storedNotifications st)
       = false →
       uniqueNew (storedNotifications st2) (map convert (newNotifications now' st2 ns))
       = convert n :: others →
       db_message n = data_message d →
       has_match (data_message d) = true →
       ∃ rest rest',
         storedNotifications (handleWebSocketMessage now d st)
         = bellNotification now d :: rest
         ∧ storedNotifications (fetchOfflineNotifications captured now' (Some ns) st2)
           = convert n :: rest'
         ∧ message (bellNotification now d) = Js.replace_pr (data_message d)
         ∧ message (convert n) = data_message d
         ∧ message (bellNotification now d) ≠ message (convert n)).
Proof.
  split; [|split; [|split; [|split; [|split; [|split; [|split]]]]]].
  - intros now d st Hty.
    split; [apply handleWebSocketMessage_notification; exact Hty|].
    split; [reflexivity|].
    intros Hdup. rewrite handleWebSocketMessage_notification by exact Hty.
    unfold mergeBell. rewrite Hdup. simpl. eauto.
  - exact replace_pr_match.
  - exact replace_pr_copy.
  - intros now d. apply replace_pr_complete.
  - intros captured now ns st x Hx.
    apply fetchOfflineNotifications_origin in Hx as [Hx|(n & Hn & ->)]; [auto|].
    right. exists n. auto.
  - intros now i t. split; reflexivity.
  - intros captured now ns st. apply poll_stores_converted.
  - intros now now' d st st2 captured ns n others Hty Hdup Hadded Hsame Hrun.
    exists (take 14 (storedNotifications st)).
    exists (take 19 (others ++ storedNotifications st2)).
    split.
    { rewrite handleWebSocketMessage_notification by exact Hty.
      unfold mergeBell. rewrite Hdup. reflexivity. }
    split.
    { rewrite fetchOfflineNotifications_store, Hadded. reflexivity. }
    split; [reflexivity|]. split; [exact Hsame|].
    change (message (convert n)) with (db_message n). rewrite Hsame.
    apply replace_pr_changes. exact Hrun.
Qed.

Lemma message_text_by_channel_witness :
  (∃ b rest,
     storedNotifications
       (handleWebSocketMessage 90000 (bell "m2" "Release" "Merged PR #42") one_bell_layout)
     = b :: rest
     ∧ message b = Js.replace_pr "Merged PR #42")
  ∧ Js.replace_pr ("PR #" ++ "42" ++ " merged") = "Pull Request" ++ Js.replace_pr " merged"
  ∧ Js.replace_pr "PR 42" = String "P" (Js.replace_pr "R 42")
  ∧ (∃ rest rest',
       storedNotifications
         (handleWebSocketMessage 90000 (bell "m2" "Release" "Merged PR #42")
            one_bell_layout)
       = bellNotification 90000 (bell "m2" "Release" "Merged PR #42") :: rest
       ∧ storedNotifications
           (fetchOfflineNotifications [] 100000
              (Some [db "9" "Release" "Merged PR #42" 95000]) one_bell_layout)
         = convert (db "9" "Release" "Merged PR #42" 95000) :: rest'
       ∧ message (bellNotification 90000 (bell "m2" "Release" "Merged PR #42"))
         = Js.replace_pr "Merged PR #42"
       ∧ message (convert (db "9" "Release" "Merged PR #42" 95000)) = "Merged PR #42"
       ∧ message (bellNotification 90000 (bell "m2" "Release" "Merged PR #42"))
         ≠ message (convert (db "9" "Release" "Merged PR #42" 95000))).
Proof.
  split; [|split; [|split]].
  - apply (proj1 message_text_by_channel 90000
             (bell "m2" "Release" "Merged PR #42") one_bell_layout eq_refl).
    vm_compute. reflexivity.
  - apply (proj1 (proj2 message_text_by_channel) "42" " merged").
    + discriminate.
    + reflexivity.
    + reflexivity.
  - apply (proj1 (proj2 (proj2 message_text_by_channel)) "P"%char "R 42").
    reflexivity.
  - apply (proj2 (proj2 (proj2 (proj2 (proj2 (proj2 (proj2 message_text_by_channel))))))
             90000 100000 (bell "m2" "Release" "Merged PR #42") one_bell_layout
             one_bell_layout [] [db "9" "Release" "Merged PR #42" 95000]
             (db "9" "Release" "Merged PR #42" 95000) []);
      vm_compute; reflexivity.
Defined.

Example replace_pr_examples :
  Js.replace_pr "Merged PR #42 and PR #7x, see PR # and PR #" =
  "Merged Pull Request and Pull Requestx, see PR # and PR #"
  ∧ Js.replace_pr "PPR #1R #2" = "PPull RequestR #2"
  ∧ Js.replace_pr "pr #12" = "pr #12".
Proof. repeat split. Qed.

End Channels.

(** ** EventRouter and SeenIdCache *)
Section SeenIds.
Import Chat.

Lemma slice_last_keeps_last {A} (n : nat) (l : list A) (x : A) :
  (0 < n)%nat → x ∈ Dashboard.slice_last n (l ++ [x]).
Proof.
  intros Hn. unfold Dashboard.slice_last.
  rewrite length_app. simpl.
  rewrite drop_app_le by lia.
  apply elem_of_app. right. apply list_elem_of_singleton. reflexivity.
Qed.

(** A new id is in the set after [add] and the clean-up. *)
Lemma track_elem (i : string) (seen : list string) : i ∉ seen → i ∈ track i seen.
Proof.
  intros Hnew. unfold track.
  rewrite bool_decide_eq_false_2 by exact Hnew.
  destruct (50 <? length (seen ++ [i]))%nat.
  - apply slice_last_keeps_last. lia.
  - apply elem_of_app. right. apply list_elem_of_singleton. reflexivity.
Qed.

(** The set never holds more than 50 ids once it holds at most 50. *)
Lemma track_length (i : string) (seen : list string) :
  (length seen ≤ 50)%nat → (length (track i seen) ≤ 50)%nat.
Proof.
  intros H. unfold track.
  destruct (bool_decide (i ∈ seen)).
  - replace (50 <? length seen)%nat with false by (symmetry; apply Nat.ltb_ge; lia).
    exact H.
  - destruct (50 <? length (seen ++ [i]))%nat eqn:E.
    + unfold Dashboard.slice_last. rewrite length_drop, length_app. simpl. lia.
    + apply Nat.ltb_ge in E. exact E.
Qed.

Lemma frame_refl (st : State) : frame st st.
Proof. repeat split. Qed.

Lemma frame_trans (a b c : State) : frame a b → frame b c → frame a c.
Proof.
  intros (H1 & H2 & H3 & H4) (K1 & K2 & K3 & K4).
  repeat split; congruence.
Qed.

Lemma addMessage_frame (now : Z) (rnd : string) (t : Sender) (c : string)
    (b : option string) (st : State) :
  frame st (addMessage now rnd t c b st).
Proof. unfold addMessage. destruct (has_uid st); repeat split. Qed.

Lemma addToLayoutNotifications_frame (now : Z) (t m : string) (s : Severity)
    (st : State) :
  frame st (addToLayoutNotifications now t m s st).
Proof. unfold addToLayoutNotifications. destruct (existsb _ _); repeat split. Qed.

Lemma dispatch_frame (now : Z) (rnd : string) (d : WsData) (st : State) :
  frame st (dispatch now rnd d st).
Proof.
  unfold dispatch.
  destruct (String.eqb (data_type d) "connection_ready"); [repeat split|].
  destruct (String.eqb (data_type d) "chat_response").
  { eapply frame_trans; [apply (addMessage_frame now rnd from_bot)|].
    unfold addBotMessage. destruct (greeting d); repeat split. }
  destruct (String.eqb (data_type d) "popup_notification"); [apply frame_refl|].
  destruct (String.eqb (data_type d) "approval_notification"); [|apply frame_refl].
  unfold addBotMessage.
  destruct (approved d);
    (eapply frame_trans; [apply addToLayoutNotifications_frame|]);
    (eapply frame_trans; [apply (addMessage_frame now rnd from_bot)|]);
    repeat split.
Qed.

Lemma dispatch_processedMessages (now : Z) (rnd : string) (d : WsData) (st : State) :
  processedMessages (dispatch now rnd d st) = processedMessages st.
Proof. apply dispatch_frame. Qed.

(** The set after [add] and the clean-up, written out: the new id goes
    last, and once the set has more than 50 ids its last 25 are kept. *)
Lemma track_fresh (i : string) (seen : list string) :
  i ∉ seen →
  track i seen
  = if (50 <? length (seen ++ [i]))%nat
    then drop (length (seen ++ [i]) - 25) (seen ++ [i])%list
    else (seen ++ [i])%list.
Proof.
  intros Hnew. unfold track, Dashboard.slice_last.
  rewrite bool_decide_eq_false_2 by exact Hnew. reflexivity.
Qed.

(** The branches of [dispatch], kind by kind. *)
Lemma dispatch_kinds (now : Z) (rnd : string) (d : WsData) (st : State) :
  (data_type d = "connection_ready" →
   dispatch now rnd d st = setGreetingShown true st)
  ∧ (data_type d = "chat_response" →
     messages (dispatch now rnd d st)
     = (messages st
        ++ [mkMessage (pretty now ++ "_" ++ rnd) from_bot (data_message d) now
              (buttons d)])%list
     ∧ processing (dispatch now rnd d st) = false)
  ∧ (data_type d = "popup_notification" → dispatch now rnd d st = st)
  ∧ (data_type d = "approval_notification" →
     messages (dispatch now rnd d st)
     = (messages st
        ++ [mkMessage (pretty now ++ "_" ++ rnd) from_bot
              ((if approved d then "✅" else "❌") ++ " " ++ data_message d)
              now None])%list)
  ∧ (data_type d ≠ "connection_ready" → data_type d ≠ "chat_response" →
     data_type d ≠ "popup_notification" → data_type d ≠ "approval_notification" →
     dispatch now rnd d st = st).
Proof.
  unfold dispatch. repeat split.
  - intros ->. reflexivity.
  - rewrite H. cbn [String.eqb Ascii.eqb Bool.eqb].
    unfold addBotMessage, addMessage. destruct (greeting d); reflexivity.
  - rewrite H. cbn [String.eqb Ascii.eqb Bool.eqb].
    unfold addBotMessage. destruct (greeting d); reflexivity.
  - intros ->. reflexivity.
  - intros ->. cbn [String.eqb Ascii.eqb Bool.eqb].
    unfold addBotMessage, addMessage, addToLayoutNotifications.
    destruct (approved d); cbv zeta; destruct (existsb _ _); reflexivity.
  - intros H1 H2 H3 H4.
    apply String.eqb_neq in H1, H2, H3, H4. rewrite H1, H2, H3, H4. reflexivity.
Qed.

(** What the layout listener does with a popup. *)
Lemma popup_shown_and_acknowledged (now : Z) (d : WsData) (p : Popup)
    (lst : Layout.State) :
  data_type d = "popup_notification" → popup d = Some p →
  let lst' := Layout.handleWebSocketMessage now d lst in
  snackbars (Layout.trace lst')
  = Layout.ShowSnackbar (popup_message p) (default info (popup_type p))
    :: snackbars (Layout.trace lst)
  ∧ acks (Layout.trace lst')
    = ((if Layout.ws lst
        then [Layout.WsSend (popup_id p) (Layout.messageId now d) now] else [])
       ++ acks (Layout.trace lst))%list
  ∧ Layout.snackbarOpen lst' = true
  ∧ Layout.snackbarMessage lst' = popup_message p
  ∧ Layout.snackbarSeverity lst' = default info (popup_type p).
Proof.
  intros Hty Hp. cbv zeta. unfold Layout.handleWebSocketMessage.
  rewrite Hty, Hp. cbn [String.eqb Ascii.eqb Bool.eqb].
  unfold Layout.playNotificationSound. simpl.
  destruct (Layout.soundEnabled lst); simpl; destruct (Layout.ws lst); simpl; auto.
Qed.

(** C6, as the code has it.  The chat listener keeps the set of seen ids:
    a message whose id is in the set changes nothing; any other message
    has its id put last in the set, which is cut to its last 25 ids once it
    holds more than 50, and is handed to the branch of its kind:
    [connection_ready] sets the greeting flag of the component,
    [chat_response] and [approval_notification] append a message of the
    assistant, [popup_notification] and any other kind change nothing
    more.  The layout listener, which handles the popups, keeps no such
    set: whatever ids have been seen, it shows the popup in the snackbar
    and acknowledges it on its socket. *)
Theorem seen_id_gate (now : Z) (rnd rnd' : string) (d : WsData) (st : State)
    (lst : Layout.State) :
  let i := messageId now rnd d in
  let seen := processedMessages st in
  let st1 := setProcessedMessages (track i seen) st in
  (i ∈ seen → handleMessage now rnd rnd' d st = st)
  ∧ (i ∉ seen →
     handleMessage now rnd rnd' d st = dispatch now rnd' d st1
     ∧ processedMessages (handleMessage now rnd rnd' d st) = track i seen
     ∧ track i seen
       = (if (50 <? length (seen ++ [i]))%nat
          then drop (length (seen ++ [i]) - 25) (seen ++ [i])%list
          else (seen ++ [i])%list)
     ∧ i ∈ processedMessages (handleMessage now rnd rnd' d st)
     ∧ (length seen ≤ 50 →
        length (processedMessages (handleMessage now rnd rnd' d st)) ≤ 50)%nat)
  ∧ ((data_type d = "connection_ready" →
      dispatch now rnd' d st1 = setGreetingShown true st1)
     ∧ (data_type d = "chat_response" →
        messages (dispatch now rnd' d st1)
        = (messages st
           ++ [mkMessage (pretty now ++ "_" ++ rnd') from_bot (data_message d) now
                 (buttons d)])%list
        ∧ processing (dispatch now rnd' d st1) = false)
     ∧ (data_type d = "popup_notification" → dispatch now rnd' d st1 = st1)
     ∧ (data_type d = "approval_notification" →
        messages (dispatch now rnd' d st1)
        = (messages st
           ++ [mkMessage (pretty now ++ "_" ++ rnd') from_bot
                 ((if approved d then "✅" else "❌") ++ " " ++ data_message d)
                 now None])%list)
     ∧ (data_type d ≠ "connection_ready" → data_type d ≠ "chat_response" →
        data_type d ≠ "popup_notification" →
        data_type d ≠ "approval_notification" →
        dispatch now rnd' d st1 = st1))
  ∧ (∀ p, data_type d = "popup_notification" → popup d = Some p →
       let lst' := Layout.handleWebSocketMessage now d lst in
       snackbars (Layout.trace lst')
       = Layout.ShowSnackbar (popup_message p) (default info (popup_type p))
         :: snackbars (Layout.trace lst)
       ∧ acks (Layout.trace lst')
         = ((if Layout.ws lst
             then [Layout.WsSend (popup_id p) (Layout.messageId now d) now] else [])
            ++ acks (Layout.trace lst))%list
       ∧ Layout.snackbarOpen lst' = true
       ∧ Layout.snackbarMessage lst' = popup_message p
       ∧ Layout.snackbarSeverity lst' = default info (popup_type p)).
Proof.
  cbv zeta. split; [|split; [|split]].
  - intros Hin. unfold handleMessage.
    rewrite bool_decide_eq_true_2 by exact Hin. reflexivity.
  - intros Hnew.
    assert (Hrun : handleMessage now rnd rnd' d st
                   = dispatch now rnd' d
                       (setProcessedMessages
                          (track (messageId now rnd d) (processedMessages st)) st)).
    { unfold handleMessage. rewrite bool_decide_eq_false_2 by exact Hnew. reflexivity. }
    rewrite Hrun, dispatch_processedMessages. simpl.
    split; [reflexivity|]. split; [reflexivity|].
    split; [apply track_fresh; exact Hnew|].
    split; [apply track_elem; exact Hnew|apply track_length].
  - exact (dispatch_kinds now rnd' d
             (setProcessedMessages
                (track (messageId now rnd d) (processedMessages st)) st)).
  - intros p Hty Hp. apply popup_shown_and_acknowledged; assumption.
Qed.

Lemma seen_id_gate_witness :
  handleMessage 2000 "r" "s" alert (handleMessage 1000 "r" "s" alert fresh_chat)
  = handleMessage 1000 "r" "s" alert fresh_chat
  ∧ messageId 1000 "r" alert ∈ processedMessages (handleMessage 1000 "r" "s" alert fresh_chat)
  ∧ processing (handleMessage 3000 "r" "s" answer waiting_chat) = false
  ∧ snackbars (Layout.trace (Layout.handleWebSocketMessage 1000 alert fresh_layout))
    = [Layout.ShowSnackbar "Quota exceeded" warning]
  ∧ acks (Layout.trace (Layout.handleWebSocketMessage 1000 alert fresh_layout))
    = [Layout.WsSend (Some "p1") "popup-1" 1000].
Proof.
  assert (Hnew : ∀ t r d, messageId t r d ∉ processedMessages fresh_chat)
    by (intros; apply not_elem_of_nil).
  assert (Hnew' : ∀ t r d, messageId t r d ∉ processedMessages waiting_chat)
    by (intros; apply not_elem_of_nil).
  split; [|split; [|split]].
  - apply (proj1 (seen_id_gate 2000 "r" "s" alert
                    (handleMessage 1000 "r" "s" alert fresh_chat) fresh_layout)).
    vm_compute. left.
  - apply (proj1 (proj2 (seen_id_gate 1000 "r" "s" alert fresh_chat fresh_layout))
             (Hnew _ _ _)).
  - destruct (proj1 (proj2 (seen_id_gate 3000 "r" "s" answer waiting_chat fresh_layout))
                (Hnew' _ _ _)) as (Hrun & _).
    rewrite Hrun.
    apply (proj1 (proj2 (proj1 (proj2 (proj2
             (seen_id_gate 3000 "r" "s" answer waiting_chat fresh_layout)))))).
    reflexivity.
  - destruct (proj2 (proj2 (proj2
                (seen_id_gate 1000 "r" "s" alert fresh_chat fresh_layout)))
                (mkPopup (Some "p1") "Quota" "Quota exceeded" (Some warning))
                eq_refl eq_refl) as (Hshown & Hack & _).
    split; [exact Hshown|exact Hack].
Defined.

(** A popup whose id is already in the set of seen ids is shown and
    acknowledged again. *)
Lemma seen_popup_is_shown_again :
  let p0 := Router.mkPage fresh_chat fresh_layout in
  let p1 := Router.route 1000 "r" "s" alert p0 in
  let p2 := Router.route 2000 "r" "s" alert p1 in
  messageId 2000 "r" alert ∈ processedMessages (Router.chat p1)
  ∧ Layout.trace (Router.layout p1)
    = [Layout.WsSend (Some "p1") "popup-1" 1000; Layout.PlaySound;
       Layout.ShowSnackbar "Quota exceeded" warning]
  ∧ Layout.trace (Router.layout p2)
    = [Layout.WsSend (Some "p1") "popup-1" 2000; Layout.PlaySound;
       Layout.ShowSnackbar "Quota exceeded" warning;
       Layout.WsSend (Some "p1") "popup-1" 1000; Layout.PlaySound;
       Layout.ShowSnackbar "Quota exceeded" warning]
  ∧ p2 ≠ p1.
Proof.
  cbv zeta. split; [|split; [|split]].
  - vm_compute. left.
  - vm_compute. reflexivity.
  - vm_compute. reflexivity.
  - intros H. apply (f_equal (fun p => length (Layout.trace (Router.layout p)))) in H.
    vm_compute in H. discriminate.
Qed.

End SeenIds.

(** ** ConversationSession: the welcome message *)
Section Greeting.
Import Chat.

Lemma resume_same (now : Z) (st : State) : same_greeting_state st (resume now st).
Proof.
  unfold same_greeting_state, resume, initializeNewConversation.
  repeat case_match; simpl; auto.
Qed.

Lemma handleMessage_same (now : Z) (rnd rnd' : string) (d : WsData) (st : State) :
  same_greeting_state st (handleMessage now rnd rnd' d st).
Proof.
  unfold handleMessage. destruct (bool_decide _); [repeat split|].
  destruct (dispatch_frame now rnd' d
              (setProcessedMessages
                 (track (messageId now rnd d) (processedMessages st)) st))
    as (Hu & _ & Hg & Hc).
  repeat split; assumption.
Qed.

Lemma same_greeting_state_flag (st st' : State) :
  same_greeting_state st st' →
  flag st' = flag st ∧ greetings st' = greetings st.
Proof.
  intros (Hu & Hg & Hc). unfold flag, greetings, uid. rewrite Hu, Hg, Hc. auto.
Qed.

Lemma greetings_cons_welcome (l : list string) :
  length (filter (fun x => x = welcome_log) (welcome_log :: l))
  = S (length (filter (fun x => x = welcome_log) l)).
Proof. rewrite filter_cons. destruct (decide _); [reflexivity|contradiction]. Qed.

(** The callback shows the message exactly when the flag is not set, and
    sets the flag as it does. *)
Lemma addWelcomeMessage_spec (now : Z) (st : State) :
  (flag st = true → addWelcomeMessage now st = st)
  ∧ (flag st = false →
     messages (addWelcomeMessage now st) = [welcomeMessage now st]
     ∧ flag (addWelcomeMessage now st) = true
     ∧ greetings (addWelcomeMessage now st) = S (greetings st)).
Proof.
  unfold flag, addWelcomeMessage. split; intros H; rewrite H; [reflexivity|].
  split; [reflexivity|]. split.
  - simpl. unfold uid. simpl. rewrite lookup_insert_eq. reflexivity.
  - unfold greetings. simpl. apply greetings_cons_welcome.
Qed.

Lemma step_cases (o : Op) (st : State) :
  (flag (step o st) = flag st ∧ greetings (step o st) = greetings st)
  ∨ (flag st = false ∧ flag (step o st) = true
     ∧ greetings (step o st) = S (greetings st)).
Proof.
  destruct o as [now|now|now rnd rnd' d|t]; simpl.
  - left. apply same_greeting_state_flag, resume_same.
  - destruct (flag st) eqn:E.
    + left. rewrite (proj1 (addWelcomeMessage_spec now st) E). auto.
    + right. destruct (proj2 (addWelcomeMessage_spec now st) E) as (_ & Hf & Hg). auto.
  - left. apply same_greeting_state_flag, handleMessage_same.
  - left. split; reflexivity.
Qed.

Lemma run_with_flag (ops : list Op) (st : State) :
  flag st = true → greetings (run ops st) = greetings st ∧ flag (run ops st) = true.
Proof.
  revert st. induction ops as [|o ops IH]; intros st Hf; [auto|].
  change (run (o :: ops) st) with (run ops (step o st)).
  destruct (step_cases o st) as [[Hf' Hg]|(Hno & _)]; [|congruence].
  destruct (IH (step o st)) as [Hg' Hf'']; [congruence|].
  split; congruence.
Qed.

Lemma resets_cons (o : TabOp) (ops : list TabOp) :
  resets (o :: ops) = ((if is_reset o then 1 else 0) + resets ops)%nat.
Proof.
  unfold resets. rewrite filter_cons.
  destruct (is_reset o); destruct (decide _); simpl; congruence.
Qed.

Lemma clearChat_console (now : Z) (s : ChatSession.Session) :
  console (ChatSession.chat (ChatSession.clearChat now s))
  = console (ChatSession.chat s).
Proof.
  unfold ChatSession.clearChat, ChatSession.wsSendMessage. cbv zeta.
  destruct (processing (ChatSession.chat s)); [reflexivity|]. simpl.
  destruct (ChatSession.connected s); [destruct (ChatSession.wsRef s)|]; reflexivity.
Qed.

(** A step of the tab either leaves the flag and the count alone, or shows
    the message and sets the flag, or is one of the resets, which show
    nothing. *)
Lemma tab_step_cases (o : TabOp) (s : ChatSession.Session) :
  let st := ChatSession.chat s in
  let st' := ChatSession.chat (tab_step o s) in
  (is_reset o = false →
   (flag st' = flag st ∧ greetings st' = greetings st)
   ∨ (flag st = false ∧ flag st' = true ∧ greetings st' = S (greetings st)))
  ∧ (is_reset o = true → greetings st' = greetings st).
Proof.
  cbv zeta. destruct o as [o| |now|now| |t now profile]; simpl; split;
    try discriminate; intros _.
  - apply step_cases.
  - left. split; reflexivity.
  - unfold greetings. rewrite clearChat_console. reflexivity.
  - left. split; reflexivity.
  - reflexivity.
  - reflexivity.
Qed.

Lemma tab_step_owed (o : TabOp) (s : ChatSession.Session) :
  (greetings (ChatSession.chat (tab_step o s)) + owed (ChatSession.chat (tab_step o s))
   ≤ greetings (ChatSession.chat s) + owed (ChatSession.chat s)
     + (if is_reset o then 1 else 0))%nat.
Proof.
  destruct (tab_step_cases o s) as [Hplain Hreset]. unfold owed.
  destruct (is_reset o).
  - rewrite (Hreset eq_refl).
    destruct (flag (ChatSession.chat (tab_step o s)));
      destruct (flag (ChatSession.chat s)); lia.
  - destruct (Hplain eq_refl) as [[-> ->]|(-> & -> & ->)]; lia.
Qed.

Lemma tab_run_owed (ops : list TabOp) (s : ChatSession.Session) :
  (greetings (ChatSession.chat (tab_run ops s)) + owed (ChatSession.chat (tab_run ops s))
   ≤ greetings (ChatSession.chat s) + owed (ChatSession.chat s) + resets ops)%nat.
Proof.
  revert s. induction ops as [|o ops IH]; intros s; [simpl; lia|].
  change (tab_run (o :: ops) s) with (tab_run ops (tab_step o s)).
  rewrite resets_cons.
  pose proof (IH (tab_step o s)). pose proof (tab_step_owed o s). lia.
Qed.

Lemma tab_run_with_flag (ops : list TabOp) (s : ChatSession.Session) :
  resets ops = 0%nat → flag (ChatSession.chat s) = true →
  greetings (ChatSession.chat (tab_run ops s)) = greetings (ChatSession.chat s)
  ∧ flag (ChatSession.chat (tab_run ops s)) = true.
Proof.
  revert s. induction ops as [|o ops IH]; intros s Hres Hf; [auto|].
  change (tab_run (o :: ops) s) with (tab_run ops (tab_step o s)).
  rewrite resets_cons in Hres.
  destruct (is_reset o) eqn:E; [lia|].
  destruct (proj1 (tab_step_cases o s) E) as [[Hf' Hg]|(Hno & _)]; [|congruence].
  destruct (IH (tab_step o s)) as [Hg' Hf'']; [lia|congruence|].
  split; congruence.
Qed.

(** C9, as the code has it.  Over any sequence of conversation resumes,
    timer callbacks, incoming messages and logins of one identity in one
    tab, the welcome message is shown at most once; it is not shown at all
    when the flag of the tab is already set; and showing it sets the flag.
    The flag does not last for the browser session: [clearChat] and
    [logout] remove it.  Over a sequence that also holds mounts of the
    component, [clearChat] calls and their timers, logouts and logins with
    a password, the message is shown at most once and once more for each
    [clearChat], logout or login; without such a step it is not shown when
    the flag is set. *)
Theorem greeting_shown_at_most_once (ops : list Op) (st : State)
    (events : list TabOp) (s : ChatSession.Session) :
  (greetings (run ops st) ≤ S (greetings st))%nat
  ∧ (flag st = true → greetings (run ops st) = greetings st)
  ∧ (∀ now, flag st = false →
       flag (addWelcomeMessage now st) = true
       ∧ greetings (run ops (addWelcomeMessage now st))
         = greetings (addWelcomeMessage now st))
  ∧ (greetings (ChatSession.chat (tab_run events s))
     ≤ S (greetings (ChatSession.chat s)) + resets events)%nat
  ∧ (resets events = 0%nat → flag (ChatSession.chat s) = true →
     greetings (ChatSession.chat (tab_run events s))
     = greetings (ChatSession.chat s)).
Proof.
  split; [|split; [|split; [|split]]].
  - revert st. induction ops as [|o ops IH]; intros st; [simpl; lia|].
    change (run (o :: ops) st) with (run ops (step o st)).
    destruct (step_cases o st) as [[_ Hg]|(_ & Hf & Hg)].
    + rewrite <- Hg. apply IH.
    + rewrite (proj1 (run_with_flag ops _ Hf)). lia.
  - intros Hf. apply run_with_flag. exact Hf.
  - intros now Hf.
    destruct (proj2 (addWelcomeMessage_spec now st) Hf) as (_ & Hf' & _).
    split; [exact Hf'|]. apply run_with_flag. exact Hf'.
  - pose proof (tab_run_owed events s) as H. unfold owed in H.
    destruct (flag (ChatSession.chat (tab_run events s)));
      destruct (flag (ChatSession.chat s)); lia.
  - intros Hres Hf. apply tab_run_with_flag; assumption.
Qed.

Lemma greeting_shown_at_most_once_witness :
  greetings (run reloads (addWelcomeMessage 500 fresh_chat))
  = greetings (addWelcomeMessage 500 fresh_chat)
  ∧ flag (addWelcomeMessage 500 fresh_chat) = true
  ∧ (greetings (run reloads fresh_chat) ≤ 1)%nat
  ∧ (greetings (ChatSession.chat (tab_run clear_and_return fresh_session)) ≤ 2)%nat
  ∧ greetings (ChatSession.chat
                 (tab_run [Mount; Conversation (Resume 60000);
                           Conversation (WelcomeTimer 60500)] open_session))
    = greetings (ChatSession.chat open_session).
Proof.
  split; [|split; [|split; [|split]]].
  - apply (proj1 (proj2 (greeting_shown_at_most_once reloads
                           (addWelcomeMessage 500 fresh_chat) [] fresh_session))).
    vm_compute. reflexivity.
  - apply (proj1 (proj2 (proj2 (greeting_shown_at_most_once reloads fresh_chat
                                  [] fresh_session))) 500).
    vm_compute. reflexivity.
  - apply (proj1 (greeting_shown_at_most_once reloads fresh_chat [] fresh_session)).
  - apply (proj1 (proj2 (proj2 (proj2
             (greeting_shown_at_most_once [] fresh_chat clear_and_return
                fresh_session))))).
  - apply (proj2 (proj2 (proj2 (proj2
             (greeting_shown_at_most_once [] fresh_chat
                [Mount; Conversation (Resume 60000); Conversation (WelcomeTimer 60500)]
                open_session)))));
      vm_compute; reflexivity.
Defined.

(** Within one login and one tab, the user who clears the chat and comes
    back to it is greeted a second time. *)
Lemma greeting_shown_again_after_clearChat :
  greetings (ChatSession.chat (tab_run clear_and_return fresh_session)) = 2%nat
  ∧ user (ChatSession.chat (tab_run clear_and_return fresh_session)) = user fresh_chat
  ∧ login_time (localStorage (ChatSession.chat (tab_run clear_and_return fresh_session)))
    = login_time (localStorage fresh_chat).
Proof. repeat split; vm_compute; reflexivity. Qed.

(** The run of [reloads] shows the message once. *)
Example reloads_greet_once : greetings (run reloads fresh_chat) = 1%nat.
Proof. vm_compute. reflexivity. Qed.

End Greeting.

(** * Further properties of the components *)

(** ** Relative times *)
Section RelativeTimes.
Import Display.

Lemma nested_floor (d : Z) :
  (d / 1000 / 60 = d / 60000
   ∧ d / 1000 / 60 / 60 = d / 3600000
   ∧ d / 1000 / 60 / 60 / 24 = d / 86400000)%Z.
Proof.
  rewrite !Z.div_div by lia. repeat split.
Qed.

(** X1: the notification list and the dashboard label every time stamp alike,
    a future or an invalid one included. *)
Theorem time_labels_agree (now : Z) (t : option Z) :
  LayoutView.formatTimeAgo now t = DashboardView.formatRelativeTime now t.
Proof.
  destruct t as [t|]; [|reflexivity].
  unfold LayoutView.formatTimeAgo, DashboardView.formatRelativeTime. cbv zeta.
  destruct (Z.ltb_spec (now - t) 0) as [Hneg|Hpos].
  - replace ((now - t) / 1000 <? 60)%Z with true; [reflexivity|].
    symmetry. apply Z.ltb_lt. apply Z.div_lt_upper_bound; lia.
  - rewrite (Z.abs_eq (now - t)) by exact Hpos. reflexivity.
Qed.

(** X2: the label of a time stamp is decided by its age [now - t] alone: under
    a minute, whole minutes up to the hour, whole hours up to the day,
    whole days up to the week, and the date after that. *)
Theorem formatTimeAgo_buckets (now t : Z) :
  let age := (now - t)%Z in
  ((age < 60000)%Z → LayoutView.formatTimeAgo now (Some t) = Text "Just now")
  ∧ ((60000 ≤ age < 3600000)%Z →
     LayoutView.formatTimeAgo now (Some t) = Text (pretty (age / 60000)%Z ++ "m ago")
     ∧ (1 ≤ age / 60000 ≤ 59)%Z)
  ∧ ((3600000 ≤ age < 86400000)%Z →
     LayoutView.formatTimeAgo now (Some t) = Text (pretty (age / 3600000)%Z ++ "h ago")
     ∧ (1 ≤ age / 3600000 ≤ 23)%Z)
  ∧ ((86400000 ≤ age < 604800000)%Z →
     LayoutView.formatTimeAgo now (Some t) = Text (pretty (age / 86400000)%Z ++ "d ago")
     ∧ (1 ≤ age / 86400000 ≤ 6)%Z)
  ∧ ((604800000 ≤ age)%Z → LayoutView.formatTimeAgo now (Some t) = LocaleDate t).
Proof.
  cbv zeta. unfold LayoutView.formatTimeAgo. cbv zeta.
  destruct (nested_floor (now - t)) as (-> & -> & ->).
  set (age := (now - t)%Z).
  split; [|split; [|split; [|split]]]; intros Hage; try split;
    repeat match goal with
           | |- context [(?a <? ?b)%Z] => destruct (Z.ltb_spec a b)
           end;
    try reflexivity; Z.div_mod_to_equations; lia.
Qed.

Lemma formatTimeAgo_buckets_witness :
  LayoutView.formatTimeAgo 1000000 (Some 999000) = Text "Just now"
  ∧ LayoutView.formatTimeAgo 1000000 (Some 700000) = Text "5m ago"
  ∧ LayoutView.formatTimeAgo 20000000 (Some 1000000) = Text "5h ago"
  ∧ LayoutView.formatTimeAgo 200000000 (Some 1000000) = Text "2d ago"
  ∧ LayoutView.formatTimeAgo 900000000 (Some 1000000) = LocaleDate 1000000.
Proof.
  split; [|split; [|split; [|split]]].
  - apply (proj1 (formatTimeAgo_buckets 1000000 999000)). lia.
  - apply (proj1 (proj2 (formatTimeAgo_buckets 1000000 700000))). lia.
  - apply (proj1 (proj2 (proj2 (formatTimeAgo_buckets 20000000 1000000)))). lia.
  - apply (proj1 (proj2 (proj2 (proj2 (formatTimeAgo_buckets 200000000 1000000))))). lia.
  - apply (proj2 (proj2 (proj2 (proj2 (formatTimeAgo_buckets 900000000 1000000))))). lia.
Defined.

End RelativeTimes.

(** ** The status cell of the dashboard *)
Section StatusCell.
Import DashboardView.

Ltac split_status status :=
  repeat match goal with
         | |- context [String.eqb status ?l] =>
             destruct (String.eqb_spec status l) as [->|?]
         end.

(** X3: a status has an icon exactly when its chip has a colour of its own,
    and the icon goes with the colour. *)
Theorem status_icon_matches_color (status : string) :
  (getStatusIcon status = None ↔ getStatusColor status = "default")
  ∧ (getStatusIcon status = Some CheckCircle ↔ getStatusColor status = "success")
  ∧ (getStatusIcon status = Some PendingActions ↔ getStatusColor status = "warning")
  ∧ (getStatusIcon status = Some HourglassEmpty ↔ getStatusColor status = "info")
  ∧ (getStatusIcon status = Some ErrorIcon ↔ getStatusColor status = "error").
Proof.
  unfold getStatusIcon, getStatusColor.
  split_status status; cbn; repeat split; intro; congruence.
Qed.

End StatusCell.

(** ** The dashboard page and its cache *)
Section DashboardCache.
Import Dashboard DashboardView.

Lemma intercept_keeps (status : option Z) (ls : LocalStorage) :
  layout_notifications (intercept status ls) = layout_notifications ls
  ∧ fetched_notification_ids (intercept status ls) = fetched_notification_ids ls
  ∧ dashboard_requests (intercept status ls) = dashboard_requests ls
  ∧ login_time (intercept status ls) = login_time ls
  ∧ token (intercept status ls)
    = if bool_decide (status = Some 401%Z) then None else token ls.
Proof.
  unfold intercept. destruct (bool_decide (status = Some 401%Z)); repeat split.
Qed.

Lemma step_in_step (o : Op) (v : View) : in_step v → in_step (step o v).
Proof.
  unfold in_step. intros H. destruct o as [|now r|r|now|now u]; simpl.
  - unfold loadFromCache.
    destruct (dashboard_requests (localStorage (core v))) as [cached|] eqn:E; simpl.
    + rewrite E. reflexivity.
    + rewrite E. exact H.
  - destruct r as [safe|message status]; simpl; [reflexivity|].
    destruct (dashboard_requests (intercept status (localStorage (core v))));
      reflexivity.
  - destruct r as [|status]; simpl; [reflexivity|].
    rewrite (proj1 (proj2 (proj2 (intercept_keeps status _)))). exact H.
  - exact H.
  - unfold Dashboard.handleRequestUpdate.
    destruct (bool_decide _); simpl; [exact H|reflexivity].
Qed.

Lemma run_in_step (ops : list Op) (v : View) : in_step v → in_step (run ops v).
Proof.
  revert v. induction ops as [|o ops IH]; intros v H; [exact H|].
  apply IH, step_in_step, H.
Qed.

(** X4: whatever the page does - load its cache, fetch with or without
    success, clear the history, tick, apply a delta - the list it shows
    stays the list under [dashboard_requests]. *)
Theorem dashboard_cache_in_step (ops : list Op) (v : View) :
  in_step v → in_step (run ops v).
Proof.
  apply run_in_step.
Qed.

Lemma dashboard_cache_in_step_witness :
  in_step fresh_view ∧ in_step (run dashboard_day fresh_view).
Proof.
  assert (H : in_step fresh_view) by reflexivity.
  split; [exact H|]. apply (dashboard_cache_in_step dashboard_day fresh_view H).
Defined.

(** X5: a fetch that fails after one that succeeded changes nothing of the
    list on the page or of its cache, whatever happened in between; it
    reports the error and ends the loading state.  Of [localStorage] only
    [token] can change: the response interceptor removes it when the
    failure is a response with status 401, and not otherwise. *)
Theorem failed_fetch_keeps_requests
  (now now' : Z) (safeRequests : list Request) (message : string)
  (status : option Z) (ops : list Op) (v : View) :
  let v1 := run ops (fetchRequests now (Ok safeRequests) v) in
  let v2 := fetchRequests now' (Failed message status) v1 in
  requests (core v2) = requests (core v1)
  ∧ dashboard_requests (localStorage (core v2))
    = dashboard_requests (localStorage (core v1))
  ∧ layout_notifications (localStorage (core v2))
    = layout_notifications (localStorage (core v1))
  ∧ fetched_notification_ids (localStorage (core v2))
    = fetched_notification_ids (localStorage (core v1))
  ∧ login_time (localStorage (core v2)) = login_time (localStorage (core v1))
  ∧ token (localStorage (core v2))
    = (if bool_decide (status = Some 401%Z) then None
       else token (localStorage (core v1)))
  ∧ dashboard_last_fetch v2 = dashboard_last_fetch v1
  ∧ error v2 = "Failed to fetch requests: " ++ message
  ∧ loading v2 = false.
Proof.
  cbv zeta.
  assert (H : in_step (run ops (fetchRequests now (Ok safeRequests) v))).
  { apply run_in_step. reflexivity. }
  set (v1 := run ops _) in *. unfold in_step in H. simpl.
  destruct (intercept_keeps status (localStorage (core v1)))
    as (Hl & Hf & Hd & Ht & Hk).
  rewrite Hd, Hl, Hf, Ht, Hk.
  destruct (dashboard_requests (localStorage (core v1))); simpl;
    repeat split; symmetry; exact H.
Qed.

End DashboardCache.

(** ** The guard of the request listener *)
Section UpdateGuard.
Import Dashboard.

Lemma updateId_inj (now now' : Z) (u : Request) :
  updateId now u = updateId now' u → now = now'.
Proof.
  unfold updateId. intros H.
  repeat (apply (inj (String.app _)) in H).
  apply (inj pretty) in H. exact H.
Qed.

Lemma remember_elem (i : string) (seen : list string) :
  i ∉ seen → i ∈ remember i seen.
Proof.
  intros Hnew. unfold remember.
  rewrite bool_decide_eq_false_2 by exact Hnew.
  destruct (50 <? length (seen ++ [i]))%nat.
  - unfold slice_last. rewrite length_app. simpl.
    rewrite drop_app_le by lia.
    apply elem_of_app. right. apply list_elem_of_singleton. reflexivity.
  - apply elem_of_app. right. apply list_elem_of_singleton. reflexivity.
Qed.

Lemma remember_inv (i x : string) (seen : list string) :
  x ∈ remember i seen → x ∈ seen ∨ x = i.
Proof.
  unfold remember. intros H.
  assert (Hin : x ∈ (if bool_decide (i ∈ seen) then seen else (seen ++ [i])%list)).
  { destruct (50 <? _)%nat; [|exact H].
    exact (elem_of_sublist _ _ _ H (sublist_drop _ _)). }
  destruct (bool_decide (i ∈ seen)); [left; exact Hin|].
  apply elem_of_app in Hin as [Hin|Hin]; [left; exact Hin|].
  right. apply list_elem_of_singleton in Hin. exact Hin.
Qed.

Lemma remember_bounded (i : string) (seen : list string) :
  bounded_ids seen → bounded_ids (remember i seen).
Proof.
  intros [Hnodup Hlen].
  assert (H1 : NoDup (if bool_decide (i ∈ seen) then seen else (seen ++ [i])%list)).
  { destruct (decide (i ∈ seen)) as [Hin|Hnew].
    - rewrite bool_decide_eq_true_2 by exact Hin. exact Hnodup.
    - rewrite bool_decide_eq_false_2 by exact Hnew.
      apply NoDup_app. split; [exact Hnodup|]. split.
      + intros x Hx Hx'. apply list_elem_of_singleton in Hx'. subst x. tauto.
      + apply NoDup_singleton. }
  unfold bounded_ids, remember.
  destruct (50 <? _)%nat eqn:E.
  - split.
    + exact (sublist_NoDup _ _ H1 (sublist_drop _ _)).
    + unfold slice_last. rewrite length_drop.
      destruct (bool_decide (i ∈ seen)); rewrite ?length_app; simpl; lia.
  - apply Nat.ltb_ge in E. split; [exact H1|exact E].
Qed.

(** X6: the guard of the request listener stops a second delivery of a delta
    exactly when it arrives in the millisecond of the first: then the
    component is left as it was; at any other time the delivery is
    processed again - its own id joins the set and the time of the last
    update moves - although the list is rewritten to what it was. *)
Theorem update_guard_same_millisecond (now now' : Z) (u : Request) (st : State) :
  updateId now u ∉ processedUpdates st →
  updateId now' u ∉ processedUpdates st →
  let s1 := handleRequestUpdate now u st in
  let s2 := handleRequestUpdate now' u s1 in
  (now' = now → s2 = s1)
  ∧ (now' ≠ now →
     lastUpdateTime s2 = now'
     ∧ processedUpdates s2 = remember (updateId now' u) (processedUpdates s1)
     ∧ updateId now' u ∈ processedUpdates s2
     ∧ requests s2 = requests s1).
Proof.
  intros Hfresh Hfresh'. cbv zeta.
  rewrite (handleRequestUpdate_fresh now u st Hfresh).
  split.
  - intros ->. apply handleRequestUpdate_blocked. simpl.
    apply remember_elem. exact Hfresh.
  - intros Hne.
    assert (Hout : updateId now' u ∉ remember (updateId now u) (processedUpdates st)).
    { intros Hin. apply remember_inv in Hin as [Hin|Heq]; [tauto|].
      apply updateId_inj in Heq. tauto. }
    rewrite handleRequestUpdate_fresh by exact Hout. simpl.
    split; [reflexivity|]. split; [reflexivity|].
    split; [apply remember_elem; exact Hout|].
    apply applyDelta_idempotent.
Qed.

Lemma update_guard_same_millisecond_witness :
  let s1 := handleRequestUpdate 1000 pending_delta empty_dashboard in
  handleRequestUpdate 1000 pending_delta s1 = s1
  ∧ lastUpdateTime (handleRequestUpdate 2000 pending_delta s1) = 2000.
Proof.
  assert (H : ∀ t, updateId t pending_delta ∉ processedUpdates empty_dashboard).
  { intros t. apply not_elem_of_nil. }
  cbv zeta. split.
  - apply (proj1 (update_guard_same_millisecond 1000 1000 pending_delta
                    empty_dashboard (H 1000) (H 1000))).
    reflexivity.
  - apply (proj2 (update_guard_same_millisecond 1000 2000 pending_delta
                    empty_dashboard (H 1000) (H 2000))).
    lia.
Defined.

Lemma step_bounded (o : DashboardView.Op) (v : DashboardView.View) :
  bounded_ids (processedUpdates (DashboardView.core v)) →
  bounded_ids (processedUpdates (DashboardView.core (DashboardView.step o v))).
Proof.
  intros H. destruct o as [|now r|r|now|now u]; simpl.
  - unfold DashboardView.loadFromCache.
    destruct (dashboard_requests _); exact H.
  - destruct r; exact H.
  - destruct r; exact H.
  - exact H.
  - unfold handleRequestUpdate. destruct (bool_decide _); simpl; [exact H|].
    apply remember_bounded, H.
Qed.

(** X7: the set of update ids of the dashboard never holds an id twice and
    never more than 50 ids, whatever the page does and however many deltas
    arrive. *)
Theorem processedUpdates_bounded (ops : list DashboardView.Op) (v : DashboardView.View) :
  bounded_ids (processedUpdates (DashboardView.core v)) →
  bounded_ids (processedUpdates (DashboardView.core (DashboardView.run ops v))).
Proof.
  revert v. induction ops as [|o ops IH]; intros v H; [exact H|].
  apply IH, step_bounded, H.
Qed.

Lemma processedUpdates_bounded_witness :
  bounded_ids (processedUpdates (DashboardView.core
                 (DashboardView.run dashboard_day fresh_view))).
Proof.
  apply (processedUpdates_bounded dashboard_day fresh_view).
  split; [apply NoDup_nil_2|simpl; lia].
Defined.

End UpdateGuard.

(** ** The notification menu: badge, reload and acknowledgments *)
Section Menu.
Import Layout LayoutView.

Lemma mergeBell_menu (mid : string) (b : StoredNotification) (st : State) :
  (badge_ok st → badge_ok (mergeBell mid b st))
  ∧ (in_sync st → in_sync (mergeBell mid b st)).
Proof.
  unfold mergeBell, badge_ok, in_sync.
  destruct (isDuplicate mid b (storedNotifications st)); simpl; auto.
Qed.

Lemma mergeOffline_menu (converted : list StoredNotification) (st : State) :
  (badge_ok st → badge_ok (mergeOffline converted st))
  ∧ (in_sync st → in_sync (mergeOffline converted st)).
Proof.
  unfold mergeOffline, badge_ok, in_sync.
  destruct (uniqueNew (storedNotifications st) converted); simpl; auto.
Qed.

Lemma step_menu (o : Op) (st : State) :
  (badge_ok st → badge_ok (step o st)) ∧ (in_sync st → in_sync (step o st)).
Proof.
  destruct o as [now d|captured now response| |i| | |r]; simpl.
  - destruct (String.eqb_spec (data_type d) "notification") as [Hty|Hty].
    + rewrite handleWebSocketMessage_notification by exact Hty.
      apply mergeBell_menu.
    + destruct (handleWebSocketMessage_store now d st Hty) as (Hs & Hc & Hl).
      unfold badge_ok, in_sync. rewrite Hs, Hc, Hl. auto.
  - destruct response as [ns|]; [|simpl; auto].
    rewrite fetchOfflineNotifications_unfold.
    destruct (newNotifications now st ns) as [|n new]; [auto|]. cbv zeta.
    set (converted := map convert (n :: new)).
    destruct (popupOffline_store captured converted st) as (Hs & Hc & Hl).
    destruct (mergeOffline_menu converted (popupOffline captured converted st))
      as [Hb Hy].
    split; intros H.
    + apply Hb. unfold badge_ok. rewrite Hs, Hc. exact H.
    + unfold in_sync in *. simpl. apply Hy. rewrite Hs, Hl. exact H.
  - unfold loadStoredNotifications, badge_ok, in_sync.
    destruct (layout_notifications (localStorage st)) eqn:E; simpl;
      rewrite E; auto.
  - unfold markNotificationAsRead, badge_ok, in_sync. cbv zeta.
    destruct (Js.startsWith "db_" i); simpl; auto.
  - unfold badge_ok, in_sync. simpl. split; [|auto].
    intros _. symmetry. apply unread_all_read.
  - unfold badge_ok, in_sync. simpl. auto.
  - unfold badge_ok, in_sync. simpl. auto.
Qed.

Lemma run_menu (ops : list Op) (st : State) :
  (badge_ok st → badge_ok (run ops st)) ∧ (in_sync st → in_sync (run ops st)).
Proof.
  revert st. induction ops as [|o ops IH]; intros st; [auto|].
  simpl. destruct (IH (step o st)) as [Hb Hy].
  destruct (step_menu o st) as [Hb' Hy']. auto.
Qed.

(** X8: the badge counts the unread items of the list after every push, poll,
    reload, acknowledgment and clear, in any order. *)
Theorem badge_counts_unread (ops : list Op) (st : State) :
  badge_ok st → badge_ok (run ops st).
Proof.
  apply run_menu.
Qed.

Lemma badge_counts_unread_witness :
  badge_ok (run menu_session scenario_layout).
Proof.
  apply (badge_counts_unread menu_session scenario_layout). reflexivity.
Defined.

(** X9: as long as this component is the only writer of
    [layout_notifications], the list in memory is the persisted list, and
    reading the key again - as a reload or a [storage] event does - changes
    nothing of the component. *)
Theorem reload_changes_nothing (ops : list Op) (st : State) :
  badge_ok st → in_sync st →
  in_sync (run ops st) ∧ loadStoredNotifications (run ops st) = run ops st.
Proof.
  intros Hb Hy.
  apply (proj1 (run_menu ops st)) in Hb. apply (proj2 (run_menu ops st)) in Hy.
  split; [exact Hy|].
  destruct (run ops st) as [stored count ? ? ? ? ? ? ? ls ?].
  unfold badge_ok, in_sync, loadStoredNotifications in *. simpl in *.
  destruct (layout_notifications ls); [|reflexivity].
  subst. reflexivity.
Qed.

Lemma reload_changes_nothing_witness :
  loadStoredNotifications (run menu_session scenario_layout)
  = run menu_session scenario_layout.
Proof.
  apply (reload_changes_nothing menu_session scenario_layout); reflexivity.
Defined.

End Menu.

(** ** Acknowledgments, expansion and preferences *)
Section MenuControls.
Import Layout LayoutView.

Lemma markNotificationAsRead_stored (i : string) (st : State) :
  storedNotifications (suspended (markNotificationAsRead i st))
  = map (mark_one i) (storedNotifications st).
Proof.
  unfold markNotificationAsRead. cbv zeta.
  destruct (Js.startsWith "db_" i); reflexivity.
Qed.

Lemma mark_one_twice (i : string) (l : list StoredNotification) :
  map (mark_one i) (map (mark_one i) l) = map (mark_one i) l.
Proof.
  rewrite map_map. apply map_ext. intros n. unfold mark_one.
  destruct (String.eqb (id n) i) eqn:E; simpl; rewrite E; reflexivity.
Qed.

Lemma unread_mark_one (i : string) (l : list StoredNotification) :
  (unread (map (mark_one i) l) ≤ unread l)%nat.
Proof.
  unfold unread. induction l as [|n l IH]; [reflexivity|].
  assert (Hread : read (mark_one i n) = false → read n = false).
  { unfold mark_one. destruct (String.eqb (id n) i); [discriminate|auto]. }
  simpl. rewrite !filter_cons.
  destruct (decide (read (mark_one i n) = false)) as [H1|H1];
    destruct (decide (read n = false)) as [H2|H2]; simpl; try lia.
  tauto.
Qed.

(** X10: marking a notification as read a second time changes nothing; marking
    never raises the number of unread items, leaves every item with
    another id as it is, and leaves no item with that id unread. *)
Theorem markNotificationAsRead_settles (i : string) (st : State) :
  let s1 := suspended (markNotificationAsRead i st) in
  suspended (markNotificationAsRead i s1) = s1
  ∧ (notificationCount s1 ≤ unread (storedNotifications st))%nat
  ∧ (∀ n, n ∈ storedNotifications st → id n ≠ i → n ∈ storedNotifications s1)
  ∧ (∀ n, n ∈ storedNotifications s1 → id n = i → read n = true).
Proof.
  cbv zeta. split; [|split; [|split]].
  - unfold markNotificationAsRead. cbv zeta.
    destruct (Js.startsWith "db_" i); simpl;
      change (map _ (map _ (storedNotifications st)))
        with (map (mark_one i) (map (mark_one i) (storedNotifications st)));
      rewrite mark_one_twice; reflexivity.
  - unfold markNotificationAsRead. cbv zeta.
    destruct (Js.startsWith "db_" i); simpl; apply unread_mark_one.
  - intros n Hn Hid. rewrite markNotificationAsRead_stored.
    apply list_elem_of_fmap. exists n. split; [|exact Hn].
    unfold mark_one. apply String.eqb_neq in Hid. rewrite Hid. reflexivity.
  - intros n Hn Hid. rewrite markNotificationAsRead_stored in Hn.
    apply list_elem_of_fmap in Hn as (m & -> & _).
    unfold mark_one in *. destruct (String.eqb_spec (id m) i); [reflexivity|].
    contradiction.
Qed.

Lemma markNotificationAsRead_settles_witness :
  sample "bell_notification_9000000" "Deploy" "instance ready" 9000000
    ∈ storedNotifications (suspended (markNotificationAsRead "db_12" scenario_layout))
  ∧ read (mark_one "bell_notification_9000000"
            (sample "bell_notification_9000000" "Deploy" "instance ready" 9000000))
    = true.
Proof.
  pose proof (markNotificationAsRead_settles "db_12" scenario_layout)
    as (_ & _ & Hkept & _).
  pose proof (markNotificationAsRead_settles "bell_notification_9000000" scenario_layout)
    as (_ & _ & _ & Hread).
  split.
  - apply Hkept; [apply list_elem_of_here|]. simpl. discriminate.
  - apply Hread; [apply list_elem_of_here|reflexivity].
Defined.

(** X11: expanding and collapsing a notification are inverse to each other:
    two clicks restore the set of expanded ids, one click flips the clicked
    id and no other. *)
Theorem toggleNotificationExpansion_involutive (i : string) (expanded : gset string) :
  toggleNotificationExpansion i (toggleNotificationExpansion i expanded) = expanded
  ∧ (i ∈ toggleNotificationExpansion i expanded ↔ i ∉ expanded)
  ∧ (∀ j, j ≠ i → j ∈ toggleNotificationExpansion i expanded ↔ j ∈ expanded).
Proof.
  assert (Hdel : ∀ x, x ∈ expanded ∖ {[i]} ↔ x ∈ expanded ∧ x ≠ i).
  { intros x. rewrite elem_of_difference, elem_of_singleton. reflexivity. }
  assert (Hadd : ∀ x, x ∈ expanded ∪ {[i]} ↔ x ∈ expanded ∨ x = i).
  { intros x. rewrite elem_of_union, elem_of_singleton. reflexivity. }
  unfold toggleNotificationExpansion.
  destruct (decide (i ∈ expanded)) as [Hin|Hout].
  - destruct (decide (i ∈ expanded ∖ {[i]})) as [Hin'|_].
    { apply Hdel in Hin'. tauto. }
    split; [|split].
    + apply set_eq. intros x.
      rewrite elem_of_union, Hdel, elem_of_singleton.
      destruct (decide (x = i)) as [->|]; tauto.
    + rewrite Hdel. tauto.
    + intros j Hj. rewrite Hdel. tauto.
  - destruct (decide (i ∈ expanded ∪ {[i]})) as [_|Hout'].
    2:{ exfalso. apply Hout', Hadd. tauto. }
    split; [|split].
    + apply set_eq. intros x.
      rewrite elem_of_difference, Hadd, elem_of_singleton.
      destruct (decide (x = i)) as [->|]; tauto.
    + rewrite Hadd. tauto.
    + intros j Hj. rewrite Hadd. tauto.
Qed.

Lemma toggleNotificationExpansion_involutive_witness :
  "db_7" ∈ toggleNotificationExpansion "db_12" {[ "db_7" ]}.
Proof.
  apply (proj2 (proj2 (toggleNotificationExpansion_involutive "db_12" {[ "db_7" ]}))).
  - discriminate.
  - apply elem_of_singleton. reflexivity.
Defined.

(** X12: a preference switched in the menu is the one a later mount reads back
    from [localStorage], whatever the component started with; the other
    preference is left alone, and without stored keys the mount keeps the
    defaults. *)
Theorem preferences_round_trip (st st0 : State) (prefs : Preferences) :
  (soundEnabled (loadPreferences (snd (toggleSound (st, prefs))) st0)
   = negb (soundEnabled st)
   ∧ soundEnabled (fst (toggleSound (st, prefs))) = negb (soundEnabled st)
   ∧ real_time_updates_enabled (snd (toggleSound (st, prefs)))
     = real_time_updates_enabled prefs)
  ∧ (realTimeUpdates (loadPreferences (snd (toggleRealTimeUpdates (st, prefs))) st0)
     = negb (realTimeUpdates st)
     ∧ realTimeUpdates (fst (toggleRealTimeUpdates (st, prefs)))
       = negb (realTimeUpdates st)
     ∧ notification_sound_enabled (snd (toggleRealTimeUpdates (st, prefs)))
       = notification_sound_enabled prefs)
  ∧ loadPreferences no_preferences st0 = st0.
Proof.
  unfold toggleSound, toggleRealTimeUpdates, loadPreferences. simpl.
  repeat split.
  - destruct (real_time_updates_enabled prefs); destruct (soundEnabled st); reflexivity.
  - destruct (notification_sound_enabled prefs); destruct (realTimeUpdates st);
      reflexivity.
Qed.

End MenuControls.

(** ** The conversation across reloads, clears and logins *)
Section Conversation.
Import Chat.

Lemma resume_ready (now : Z) (st : State) :
  logged_in st →
  user (resume now st) = user st
  ∧ localStorage (resume now st) = localStorage st
  ∧ conversationKey (resume now st) ≠ EmptyString
  ∧ chat_session (sessionStorage (resume now st)) !! uid st
    = login_time (localStorage st).
Proof.
  intros [Hid Hlogin]. unfold resume. rewrite Hid. cbv zeta.
  destruct (login_time (localStorage st)) as [t|] eqn:Ht; [|discriminate].
  rewrite Hlogin.
  assert (Hnew : ∀ ss : SessionStorage,
             <[uid st := t]> (chat_session ss) !! uid st = Some t).
  { intros ss. apply lookup_insert_eq. }
  destruct (bool_decide (chat_session (sessionStorage st) !! uid st = Some t)) eqn:Hsame;
    [|simpl; repeat split; [discriminate|apply Hnew]].
  apply bool_decide_eq_true_1 in Hsame.
  destruct (chat_key (sessionStorage st) !! uid st) as [existingKey|];
    [|simpl; repeat split; [discriminate|apply Hnew]].
  destruct (chat_messages (sessionStorage st) !! uid st) as [[|m parsed]|];
    try (simpl; repeat split; [discriminate|apply Hnew]).
  destruct (Js.truthy (Some existingKey)) eqn:Hk;
    [|simpl; repeat split; [discriminate|apply Hnew]].
  simpl. repeat split; [|exact Hsame].
  intros ->. discriminate.
Qed.

(** The branch of [resume] that restores a saved conversation. *)
Lemma resume_restores (now : Z) (st : State) (existingKey : string)
    (parsed : list Message) :
  has_uid st = true →
  chat_session (sessionStorage st) !! uid st = login_time (localStorage st) →
  chat_key (sessionStorage st) !! uid st = Some existingKey →
  existingKey ≠ EmptyString →
  chat_messages (sessionStorage st) !! uid st = Some parsed →
  parsed ≠ [] →
  resume now st
  = mkState parsed (processing st) (showTextInput st) true existingKey
      (processedMessages st) (user st) (localStorage st) (sessionStorage st)
      (timers st) (console st).
Proof.
  intros Hid Hsess Hkey Hne Hm Hparsed. unfold resume. rewrite Hid. cbv zeta.
  rewrite bool_decide_eq_true_2 by exact Hsess.
  rewrite Hkey, Hm. destruct parsed as [|m parsed]; [contradiction|].
  replace (Js.truthy (Some existingKey)) with true; [reflexivity|].
  simpl. apply String.eqb_neq in Hne. rewrite Hne. reflexivity.
Qed.

(** The branch of [resume] that starts a new conversation. *)
Lemma resume_starts (now : Z) (st : State) :
  has_uid st = true →
  chat_key (sessionStorage st) !! uid st = None →
  messages (resume now st) = []
  ∧ conversationKey (resume now st) = "chat_" ++ uid st ++ "_" ++ pretty now
  ∧ timers (resume now st) = (500, AddWelcomeMessage)%Z :: timers st
  ∧ user (resume now st) = user st
  ∧ console (resume now st) = console st
  ∧ greeting_shown (sessionStorage (resume now st))
    = greeting_shown (sessionStorage st).
Proof.
  intros Hid Hkey. unfold resume. rewrite Hid. cbv zeta. rewrite Hkey.
  replace (if bool_decide _ then None else None)
    with (@None (string * list Message)) by (destruct (bool_decide _); reflexivity).
  unfold initializeNewConversation. rewrite Hid. simpl.
  destruct (login_time (localStorage st)) as [t|]; simpl;
    [destruct (negb (t =? EmptyString))%string|]; repeat split.
Qed.

(** The chat after a message has gone out. *)
Lemma sendMessage_chat (trim : string → string) (now : Z) (rnd text : string)
    (s : ChatSession.Session) :
  text ≠ EmptyString →
  ChatSession.connected s = true →
  has_uid (ChatSession.chat s) = true →
  ChatSession.chat (ChatSession.sendMessage trim now rnd (Some text) s)
  = let st := ChatSession.chat s in
    let ss := sessionStorage st in
    let updated :=
      (messages st ++ [mkMessage (pretty now ++ "_" ++ rnd) from_user text now None])%list in
    mkState updated true (showTextInput st) (greetingShown st) (conversationKey st)
      (processedMessages st) (user st) (localStorage st)
      (mkSession (chat_session ss) (<[uid st := updated]> (chat_messages ss))
         (<[uid st := conversationKey st]>
            (<[uid st := conversationKey st]> (chat_key ss)))
         (greeting_shown ss))
      (timers st) (console st).
Proof.
  intros Htext Hconn Hid. apply String.eqb_neq in Htext.
  unfold ChatSession.sendMessage. cbv zeta.
  replace (Js.or_else (Some text) (trim (ChatSession.inputValue s))) with text
    by (simpl; rewrite Htext; reflexivity).
  rewrite Htext, Hconn. simpl orb. cbv iota.
  unfold ChatSession.wsSendMessage. simpl ChatSession.wsRef.
  simpl ChatSession.connected.
  destruct (ChatSession.wsRef s && true)%bool; simpl ChatSession.chat;
    unfold addMessage, ChatSession.setProcessing, has_uid in *; simpl;
    rewrite Hid; reflexivity.
Qed.

(** X13: a message that the user has sent is on screen again after the page is
    loaded anew within the same login: the resume finds the conversation in
    [sessionStorage], restores its messages and its key, and sets no timer
    for the welcome message. *)
Theorem sent_message_survives_reload (trim : string → string)
    (now0 now now' : Z) (rnd text : string) (s : ChatSession.Session) :
  logged_in (ChatSession.chat s) →
  ChatSession.connected s = true →
  text ≠ EmptyString →
  let s0 := ChatSession.lift (resume now0) s in
  let s1 := ChatSession.sendMessage trim now rnd (Some text) s0 in
  let st2 := resume now' (remount (ChatSession.chat s1)) in
  messages (ChatSession.chat s1)
  = (messages (ChatSession.chat s0)
     ++ [mkMessage (pretty now ++ "_" ++ rnd) from_user text now None])%list
  ∧ messages st2 = messages (ChatSession.chat s1)
  ∧ conversationKey st2 = conversationKey (ChatSession.chat s0)
  ∧ greetingShown st2 = true
  ∧ timers st2 = [].
Proof.
  intros Hin Hconn Htext. cbv zeta.
  destruct (resume_ready now0 (ChatSession.chat s) Hin) as (Hu & Hl & Hk & Hs).
  destruct Hin as [Hid Hlogin].
  set (s0 := ChatSession.lift (resume now0) s).
  assert (Hconn0 : ChatSession.connected s0 = true) by exact Hconn.
  assert (Hid0 : has_uid (ChatSession.chat s0) = true)
    by (unfold has_uid; simpl; rewrite Hu; exact Hid).
  assert (Hk0 : conversationKey (ChatSession.chat s0) ≠ EmptyString) by exact Hk.
  assert (Hs0 : chat_session (sessionStorage (ChatSession.chat s0))
                  !! uid (ChatSession.chat s0)
                = login_time (localStorage (ChatSession.chat s0))).
  { unfold uid. simpl. rewrite Hu, Hl. exact Hs. }
  clearbody s0.
  rewrite (sendMessage_chat trim now rnd text s0 Htext Hconn0 Hid0). cbv zeta.
  split; [reflexivity|].
  erewrite resume_restores;
    [simpl; repeat split
    | exact Hid0
    | simpl; exact Hs0
    | simpl; apply lookup_insert_eq
    | exact Hk0
    | simpl; apply lookup_insert_eq
    | intros Hnil; apply app_eq_nil in Hnil as [_ Hnil]; discriminate].
Qed.

Lemma sent_message_survives_reload_witness :
  let s0 := ChatSession.lift (resume 60000) open_session in
  let s1 := ChatSession.sendMessage (fun x => x) 61000 "k3j9x" (Some "create a bucket") s0 in
  messages (resume 62000 (remount (ChatSession.chat s1)))
  = messages (ChatSession.chat s1).
Proof.
  assert (Hin : logged_in (ChatSession.chat open_session)) by (split; reflexivity).
  assert (Htext : "create a bucket" ≠ EmptyString) by discriminate.
  exact (proj1 (proj2 (sent_message_survives_reload (fun x => x) 60000 61000 62000
                         "k3j9x" "create a bucket" open_session Hin eq_refl Htext))).
Defined.

(** The chat right after [clearChat] has run. *)
Lemma clearChat_chat (now : Z) (s : ChatSession.Session) :
  processing (ChatSession.chat s) = false →
  ChatSession.chat (ChatSession.clearChat now s)
  = let st := ChatSession.chat s in
    let ss := sessionStorage st in
    mkState [] false true false ("chat_" ++ uid st ++ "_" ++ pretty now) []
      (user st) (localStorage st)
      (if has_uid st
       then mkSession (chat_session ss) (delete (uid st) (chat_messages ss))
              (delete (uid st) (chat_key ss)) (delete (uid st) (greeting_shown ss))
       else ss)
      (timers st) (console st).
Proof.
  intros Hp. unfold ChatSession.clearChat. cbv zeta. rewrite Hp.
  unfold ChatSession.wsSendMessage. simpl.
  destruct (ChatSession.connected s); [destruct (ChatSession.wsRef s)|]; reflexivity.
Qed.

(** X14: [clearChat] does nothing while an answer is awaited.  Otherwise it
    starts the conversation over: the server is sent the key of the new
    conversation (if the socket is open), and the next time the chat is
    mounted it starts empty and greets the user once more. *)
Theorem clearChat_starts_over (now now' now'' : Z) (s : ChatSession.Session) :
  (processing (ChatSession.chat s) = true → ChatSession.clearChat now s = s)
  ∧ (processing (ChatSession.chat s) = false →
     has_uid (ChatSession.chat s) = true →
     let key := "chat_" ++ uid (ChatSession.chat s) ++ "_" ++ pretty now in
     let s1 := ChatSession.clearChat now s in
     let st2 := resume now' (remount (ChatSession.chat s1)) in
     conversationKey (ChatSession.chat s1) = key
     ∧ ChatSession.outbox s1
       = ((if (ChatSession.wsRef s && ChatSession.connected s)%bool
           then [ChatSession.ClearConversation key now] else [])
          ++ ChatSession.outbox s)%list
     ∧ messages st2 = []
     ∧ timers st2 = [(500, AddWelcomeMessage)%Z]
     ∧ greetings (addWelcomeMessage now'' st2) = S (greetings (ChatSession.chat s))).
Proof.
  split.
  - intros Hp. unfold ChatSession.clearChat. cbv zeta. rewrite Hp. reflexivity.
  - intros Hp Hid. cbv zeta.
    rewrite (clearChat_chat now s Hp). cbv zeta. rewrite Hid.
    split; [reflexivity|]. split.
    { unfold ChatSession.clearChat. cbv zeta. rewrite Hp.
      unfold ChatSession.wsSendMessage. simpl.
      destruct (ChatSession.connected s), (ChatSession.wsRef s); reflexivity. }
    set (c1 := remount _).
    assert (Hid1 : has_uid c1 = true) by exact Hid.
    assert (Hkey : chat_key (sessionStorage c1) !! uid c1 = None)
      by apply lookup_delete_eq.
    destruct (resume_starts now' c1 Hid1 Hkey) as (Hm & _ & Ht & Hu & Hc & Hg).
    split; [exact Hm|]. split; [exact Ht|].
    assert (Hflag : flag (resume now' c1) = false).
    { unfold flag, uid. rewrite Hg, Hu. simpl.
      change (Js.to_text (user_id <$> user (ChatSession.chat s)))
        with (uid (ChatSession.chat s)).
      rewrite lookup_delete_eq. reflexivity. }
    destruct (proj2 (addWelcomeMessage_spec now'' (resume now' c1)) Hflag)
      as (_ & _ & ->).
    unfold greetings. rewrite Hc. reflexivity.
Qed.

Lemma clearChat_starts_over_witness :
  ChatSession.clearChat 70000 waiting_session = waiting_session
  ∧ greetings (addWelcomeMessage 71000
                 (resume 70500
                    (remount (ChatSession.chat (ChatSession.clearChat 70000 open_session)))))
    = S (greetings (ChatSession.chat open_session)).
Proof.
  split.
  - apply (proj1 (clearChat_starts_over 70000 70500 71000 waiting_session)).
    reflexivity.
  - apply (proj2 (clearChat_starts_over 70000 70500 71000 open_session));
      reflexivity.
Defined.

(** X15: logging out removes the token, the login time and the whole
    [sessionStorage], and keeps the notifications, the imported ids and
    the dashboard cache.  After the next login the chat starts a new, empty
    conversation under a new key and greets the user once more. *)
Theorem logout_then_login_starts_over (access_token : string) (now now' now'' : Z)
    (profile : User) (st : State) :
  user_id profile ≠ EmptyString →
  let st1 := AuthContext.logout st in
  let st2 := resume now' (remount (AuthContext.verifyOTP access_token now profile st1)) in
  (layout_notifications (localStorage st1) = layout_notifications (localStorage st)
   ∧ fetched_notification_ids (localStorage st1)
     = fetched_notification_ids (localStorage st)
   ∧ dashboard_requests (localStorage st1) = dashboard_requests (localStorage st)
   ∧ token (localStorage st1) = None
   ∧ login_time (localStorage st1) = None)
  ∧ messages st2 = []
  ∧ conversationKey st2 = "chat_" ++ user_id profile ++ "_" ++ pretty now'
  ∧ timers st2 = [(500, AddWelcomeMessage)%Z]
  ∧ greetings (addWelcomeMessage now'' st2) = S (greetings st).
Proof.
  intros Hprofile. cbv zeta. split; [repeat split|].
  set (c1 := remount _).
  assert (Hid1 : has_uid c1 = true).
  { unfold has_uid. simpl. apply String.eqb_neq in Hprofile.
    rewrite Hprofile. reflexivity. }
  assert (Hkey : chat_key (sessionStorage c1) !! uid c1 = None) by apply lookup_empty.
  destruct (resume_starts now' c1 Hid1 Hkey) as (Hm & Hk & Ht & Hu & Hc & Hg).
  split; [exact Hm|]. split; [exact Hk|]. split; [exact Ht|].
  assert (Hflag : flag (resume now' c1) = false).
  { unfold flag. rewrite Hg. simpl. rewrite lookup_empty. reflexivity. }
  destruct (proj2 (addWelcomeMessage_spec now'' (resume now' c1)) Hflag)
    as (_ & _ & ->).
  unfold greetings. rewrite Hc. reflexivity.
Qed.

Lemma logout_then_login_starts_over_witness :
  let st := ChatSession.chat open_session in
  let st2 := resume 90000
               (remount (AuthContext.verifyOTP "jwt2" 80000 (mkUser "u1" (Some "Ada"))
                           (AuthContext.logout st))) in
  messages st2 = []
  ∧ greetings (addWelcomeMessage 90500 st2) = S (greetings st).
Proof.
  assert (Hprofile : user_id (mkUser "u1" (Some "Ada")) ≠ EmptyString) by discriminate.
  pose proof (logout_then_login_starts_over "jwt2" 80000 90000 90500
                (mkUser "u1" (Some "Ada")) (ChatSession.chat open_session) Hprofile)
    as (_ & Hm & _ & _ & Hg).
  split; [exact Hm|exact Hg].
Defined.

(** X16: once [logout] has removed the token, no close of the socket sets a
    reconnect timer, whatever the close code and although the handler still
    holds the user of its render. *)
Theorem logout_stops_reconnect (code : Z) (st : WebSocketContext.State) :
  WebSocketContext.timers (WebSocketContext.onclose code (after_logout st))
  = WebSocketContext.timers st
  ∧ WebSocketContext.reconnectTimeoutRef
      (WebSocketContext.onclose code (after_logout st))
    = WebSocketContext.reconnectTimeoutRef st.
Proof.
  unfold WebSocketContext.onclose, WebSocketContext.authenticated. simpl.
  rewrite !andb_false_r. split; reflexivity.
Qed.

End Conversation.

(** ** The notification list, written by the chat and by the layout *)
Section SharedStore.
Import Layout.

(** X17: the chat stores a notification unless the list holds one with the same
    title and message from less than 5 s before or after; the list it
    writes has at most 50 items, and a repeat within 5 s of a notification
    that was stored is dropped. *)
Theorem chat_notification_repeat (now now' : Z) (t m : string) (s s' : Severity)
    (st : Chat.State) :
  let stored := default [] (layout_notifications (Chat.localStorage st)) in
  let note := mkStored (pretty now) t m s now false None in
  let st1 := Chat.addToLayoutNotifications now t m s st in
  repeated 5000 note stored = false →
  (Z.abs (now' - now) < 5000)%Z →
  layout_notifications (Chat.localStorage st1) = Some (take 50 (note :: stored))
  ∧ (length (take 50 (note :: stored)) ≤ 50)%nat
  ∧ Chat.addToLayoutNotifications now' t m s' st1 = st1.
Proof.
  cbv zeta. unfold repeated. intros Hnew Hnear.
  assert (Hst1 : Chat.addToLayoutNotifications now t m s st
                 = Chat.mkState (Chat.messages st) (Chat.processing st)
                     (Chat.showTextInput st) (Chat.greetingShown st)
                     (Chat.conversationKey st) (Chat.processedMessages st)
                     (Chat.user st)
                     (set_layout_notifications
                        (Some (take 50 (mkStored (pretty now) t m s now false None
                                        :: default [] (layout_notifications
                                                         (Chat.localStorage st)))))
                        (Chat.localStorage st))
                     (Chat.sessionStorage st) (Chat.timers st) (Chat.console st)).
  { unfold Chat.addToLayoutNotifications. cbv zeta. rewrite Hnew. reflexivity. }
  rewrite Hst1. split; [reflexivity|]. split; [rewrite length_take; lia|].
  unfold Chat.addToLayoutNotifications. cbv zeta.
  replace (existsb _ _) with true; [reflexivity|].
  symmetry. simpl. apply orb_true_iff. left.
  unfold sameContent, recentTime, Js.abs_diff. simpl.
  rewrite !String.eqb_refl. simpl. apply Z.ltb_lt. lia.
Qed.

Lemma chat_notification_repeat_witness :
  Chat.addToLayoutNotifications 4000 "Quota" "Quota exceeded" warning
    (Chat.addToLayoutNotifications 1000 "Quota" "Quota exceeded" warning fresh_chat)
  = Chat.addToLayoutNotifications 1000 "Quota" "Quota exceeded" warning fresh_chat.
Proof.
  apply (chat_notification_repeat 1000 4000 "Quota" "Quota exceeded" warning warning
           fresh_chat); [reflexivity|lia].
Defined.

Lemma chat_ignores_bell (now : Z) (rnd rnd' : string) (d : WsData) (c : Chat.State) :
  data_type d = "notification" →
  Chat.localStorage (Chat.handleMessage now rnd rnd' d c) = Chat.localStorage c.
Proof.
  intros Hty. unfold Chat.handleMessage. cbv zeta.
  destruct (bool_decide _); [reflexivity|].
  unfold Chat.dispatch. rewrite Hty. reflexivity.
Qed.

Lemma chat_stores_approval (now : Z) (rnd rnd' : string) (d : WsData) (c : Chat.State) :
  data_type d = "approval_notification" →
  Chat.messageId now rnd d ∉ Chat.processedMessages c →
  repeated 5000 (approval_note now d)
    (default [] (layout_notifications (Chat.localStorage c))) = false →
  Chat.localStorage (Chat.handleMessage now rnd rnd' d c)
  = set_layout_notifications
      (Some (take 50 (approval_note now d
                      :: default [] (layout_notifications (Chat.localStorage c)))))
      (Chat.localStorage c).
Proof.
  intros Hty Hfresh Hnew. unfold Chat.handleMessage. cbv zeta.
  rewrite bool_decide_eq_false_2 by exact Hfresh.
  unfold Chat.dispatch. rewrite Hty.
  change (String.eqb "approval_notification" "connection_ready") with false.
  change (String.eqb "approval_notification" "chat_response") with false.
  change (String.eqb "approval_notification" "popup_notification") with false.
  change (String.eqb "approval_notification" "approval_notification") with true.
  cbv iota zeta. unfold repeated, approval_note in Hnew.
  unfold Chat.addBotMessage, Chat.addMessage, Chat.addToLayoutNotifications.
  cbv zeta. unfold approval_note.
  destruct (approved d); simpl in *; rewrite Hnew; reflexivity.
Qed.

(** X18: a notification that the chat has written to [layout_notifications] is
    not in the memory of the layout, and the next bell notification that
    the layout stores overwrites the key with its own list: the persisted
    list is then what it would be had the chat written nothing. *)
Theorem chat_notification_overwritten (now now2 : Z) (rnd rnd' rnd2 rnd2' : string)
    (d d2 : WsData) (p : Router.Page) :
  let stored := storedNotifications (Router.layout p) in
  let persisted := default [] (layout_notifications (localStorage (Router.layout p))) in
  let p1 := Router.route now rnd rnd' d p in
  let p2 := Router.route now2 rnd2 rnd2' d2 p1 in
  data_type d = "approval_notification" →
  Chat.messageId now rnd d ∉ Chat.processedMessages (Router.chat p) →
  repeated 5000 (approval_note now d) persisted = false →
  data_type d2 = "notification" →
  isDuplicate (messageId now2 d2) (bellNotification now2 d2) stored = false →
  layout_notifications (localStorage (Router.layout p1))
  = Some (take 50 (approval_note now d :: persisted))
  ∧ storedNotifications (Router.layout p1) = stored
  ∧ layout_notifications (localStorage (Router.layout p2))
    = Some (take 15 (bellNotification now2 d2 :: stored))
  ∧ layout_notifications (localStorage (Router.layout p2))
    = layout_notifications
        (localStorage (Router.layout (Router.route now2 rnd2 rnd2' d2 p))).
Proof.
  cbv zeta. intros Hty Hfresh Hnew Hty2 Hdup.
  assert (Hbell : ∀ st, storedNotifications st = storedNotifications (Router.layout p) →
            layout_notifications (localStorage (handleWebSocketMessage now2 d2 st))
            = Some (take 15 (bellNotification now2 d2
                             :: storedNotifications (Router.layout p)))).
  { intros st Hst. rewrite handleWebSocketMessage_notification by exact Hty2.
    unfold mergeBell. rewrite Hst, Hdup. reflexivity. }
  assert (Hl1 : Router.layout (Router.route now rnd rnd' d p)
                = setLocalStorage
                    (fun _ => set_layout_notifications
                                (Some (take 50 (approval_note now d
                                   :: default [] (layout_notifications
                                        (localStorage (Router.layout p))))))
                                (localStorage (Router.layout p)))
                    (Router.layout p)).
  { unfold Router.route. cbv zeta. simpl Router.layout.
    rewrite chat_stores_approval by assumption. simpl Chat.localStorage.
    unfold handleWebSocketMessage. rewrite Hty. reflexivity. }
  assert (Hp2 : ∀ q, storedNotifications (Router.layout q)
                     = storedNotifications (Router.layout p) →
            layout_notifications
              (localStorage (Router.layout (Router.route now2 rnd2 rnd2' d2 q)))
            = Some (take 15 (bellNotification now2 d2
                             :: storedNotifications (Router.layout p)))).
  { intros q Hq. unfold Router.route. cbv zeta. simpl Router.layout.
    apply Hbell. exact Hq. }
  assert (H2 := Hp2 (Router.route now rnd rnd' d p)).
  rewrite Hl1 in H2 at 1. specialize (H2 eq_refl).
  rewrite H2, (Hp2 p eq_refl), Hl1. repeat split.
Qed.

Lemma chat_notification_overwritten_witness :
  let p1 := Router.route 9100000 "r1" "r2" approval one_tab in
  let p2 := Router.route 9200000 "r3" "r4" (bell "m9" "Build" "finished") p1 in
  approval_note 9100000 approval
    ∈ default [] (layout_notifications (localStorage (Router.layout p1)))
  ∧ layout_notifications (localStorage (Router.layout p2))
    = Some (take 15 (bellNotification 9200000 (bell "m9" "Build" "finished")
                     :: storedNotifications scenario_layout)).
Proof.
  assert (Hfresh : Chat.messageId 9100000 "r1" approval
                   ∉ Chat.processedMessages (Router.chat one_tab))
    by apply not_elem_of_nil.
  pose proof (chat_notification_overwritten 9100000 9200000 "r1" "r2" "r3" "r4"
                approval (bell "m9" "Build" "finished") one_tab
                eq_refl Hfresh eq_refl eq_refl eq_refl) as (H1 & _ & H3 & _).
  cbv zeta. split; [|exact H3].
  rewrite H1. simpl. apply list_elem_of_here.
Defined.

End SharedStore.

(** ** The map of recent notifications *)
Section RecentNotifications.
Import NotificationUtils.

Lemma isDuplicateNotification_fresh (title message : string) (now : Z)
    (recent : gmap string Z) :
  fst (isDuplicateNotification title message now recent) = false →
  let key := title ++ "_" ++ message in
  let m1 := <[key := now]> recent in
  snd (isDuplicateNotification title message now recent)
  = if (100 <? size m1)%nat
    then filter (fun kt => ¬ (kt.2 < now - 30000)%Z) m1
    else m1.
Proof.
  unfold isDuplicateNotification. cbv zeta.
  destruct (recent !! (title ++ "_" ++ message)) as [lastSeen|]; [|reflexivity].
  destruct (negb (lastSeen =? 0)%Z && (now - lastSeen <? 5000)%Z)%bool;
    [discriminate|reflexivity].
Qed.

Lemma isDuplicateNotification_lookup (title message : string) (now : Z)
    (recent : gmap string Z) :
  fst (isDuplicateNotification title message now recent) = false →
  snd (isDuplicateNotification title message now recent) !! (title ++ "_" ++ message)
  = Some now.
Proof.
  intros Hfalse. rewrite isDuplicateNotification_fresh by exact Hfalse. cbv zeta.
  destruct (100 <? _)%nat; [|apply lookup_insert_eq].
  apply map_lookup_filter_Some. split; [apply lookup_insert_eq|]. simpl. lia.
Qed.

(** X19: after a notification has been let through at a time other than 0, the
    same title and message are a duplicate for the next 5 s, counted from
    that first sighting: an answer [true] leaves the map as it is, so the
    repeats do not extend the window, and from 5 s on the notification is
    let through again. *)
Theorem isDuplicateNotification_window (title message : string) (now now' : Z)
    (recent : gmap string Z) :
  now ≠ 0%Z →
  fst (isDuplicateNotification title message now recent) = false →
  let seen := snd (isDuplicateNotification title message now recent) in
  ((now' - now < 5000)%Z →
   isDuplicateNotification title message now' seen = (true, seen))
  ∧ ((5000 ≤ now' - now)%Z →
     fst (isDuplicateNotification title message now' seen) = false
     ∧ snd (isDuplicateNotification title message now' seen)
         !! (title ++ "_" ++ message) = Some now').
Proof.
  intros Hnow Hfalse. cbv zeta.
  pose proof (isDuplicateNotification_lookup title message now recent Hfalse) as Hkey.
  set (seen := snd _) in *.
  assert (Hzero : (now =? 0)%Z = false) by (apply Z.eqb_neq; exact Hnow).
  split; intros Hage.
  - unfold isDuplicateNotification. cbv zeta. rewrite Hkey, Hzero.
    replace (now' - now <? 5000)%Z with true by (symmetry; apply Z.ltb_lt; lia).
    reflexivity.
  - assert (Hlet : fst (isDuplicateNotification title message now' seen) = false).
    { unfold isDuplicateNotification. cbv zeta. rewrite Hkey, Hzero.
      replace (now' - now <? 5000)%Z with false by (symmetry; apply Z.ltb_ge; lia).
      reflexivity. }
    split; [exact Hlet|]. apply isDuplicateNotification_lookup. exact Hlet.
Qed.

Lemma isDuplicateNotification_window_witness :
  let seen := snd (isDuplicateNotification "Deploy" "instance ready" 1000 ∅) in
  isDuplicateNotification "Deploy" "instance ready" 5999 seen = (true, seen)
  ∧ fst (isDuplicateNotification "Deploy" "instance ready" 6000 seen) = false.
Proof.
  assert (Hnow : 1000%Z ≠ 0%Z) by lia.
  pose proof (isDuplicateNotification_window "Deploy" "instance ready" 1000 5999 ∅
                Hnow eq_refl) as [Hin _].
  pose proof (isDuplicateNotification_window "Deploy" "instance ready" 1000 6000 ∅
                Hnow eq_refl) as [_ Hout].
  cbv zeta. split; [apply Hin; lia|apply Hout; lia].
Defined.

(** X20: a notification that is let through is recorded, and the clean-up
    bounds the age of the entries rather than their number: afterwards the
    map has at most 100 entries or none older than 30 s, and it holds
    nothing but the new entry and entries it held before. *)
Theorem isDuplicateNotification_cleanup (title message : string) (now : Z)
    (recent : gmap string Z) :
  fst (isDuplicateNotification title message now recent) = false →
  let seen := snd (isDuplicateNotification title message now recent) in
  seen !! (title ++ "_" ++ message) = Some now
  ∧ ((size seen ≤ 100)%nat ∨ ∀ k t, seen !! k = Some t → (now - 30000 ≤ t)%Z)
  ∧ (∀ k t, seen !! k = Some t →
       k = title ++ "_" ++ message ∧ t = now ∨ recent !! k = Some t).
Proof.
  intros Hfalse. cbv zeta.
  split; [apply isDuplicateNotification_lookup; exact Hfalse|].
  rewrite isDuplicateNotification_fresh by exact Hfalse. cbv zeta.
  assert (Hold : ∀ k t, <[title ++ "_" ++ message := now]> recent !! k = Some t →
            k = title ++ "_" ++ message ∧ t = now ∨ recent !! k = Some t).
  { intros k t Hk. apply lookup_insert_Some in Hk as [[<- <-]|[_ Hk]]; auto. }
  destruct (100 <? _)%nat eqn:E.
  - split.
    + right. intros k t Hk. apply map_lookup_filter_Some in Hk as [_ Hk].
      simpl in Hk. lia.
    + intros k t Hk. apply map_lookup_filter_Some in Hk as [Hk _]. auto.
  - split; [|exact Hold]. left. apply Nat.ltb_ge in E. exact E.
Qed.

Lemma isDuplicateNotification_cleanup_witness :
  snd (isDuplicateNotification "Deploy" "instance ready" 1000 ∅)
    !! "Deploy_instance ready" = Some 1000%Z.
Proof.
  apply (isDuplicateNotification_cleanup "Deploy" "instance ready" 1000 ∅).
  reflexivity.
Defined.

End RecentNotifications.

(** ** A poll that sees the same response again *)
Section RepeatedPoll.
Import Layout.

Lemma fetched_ids_after_poll (captured : list StoredNotification) (now : Z)
    (ns : list DbNotification) (st : State) (i : string) :
  i ∈ default [] (fetched_notification_ids (localStorage st))
  ∨ i ∈ map db_id (newNotifications now st ns) →
  i ∈ default [] (fetched_notification_ids
                    (localStorage (fetchOfflineNotifications captured now (Some ns) st))).
Proof.
  rewrite fetchOfflineNotifications_unfold.
  destruct (newNotifications now st ns) as [|n new].
  - intros [Hi|Hi]; [exact Hi|]. inversion Hi.
  - cbv zeta. simpl. rewrite elem_of_app. tauto.
Qed.

(** X21: a poll that receives the same response again, at the same or a later
    time, changes nothing: no row is imported twice and no popup or sound
    is repeated, whatever the store holds by then. *)
Theorem poll_same_response_again (captured captured' : list StoredNotification)
    (now now' : Z) (ns : list DbNotification) (st : State) :
  (now ≤ now')%Z →
  fetchOfflineNotifications captured' now' (Some ns)
    (fetchOfflineNotifications captured now (Some ns) st)
  = fetchOfflineNotifications captured now (Some ns) st.
Proof.
  intros Hlater.
  set (st1 := fetchOfflineNotifications captured now (Some ns) st).
  rewrite fetchOfflineNotifications_unfold.
  destruct (newNotifications now' st1 ns) as [|n new] eqn:E; [reflexivity|].
  exfalso.
  assert (Hn : n ∈ newNotifications now' st1 ns) by (rewrite E; left).
  apply newNotifications_spec in Hn as (Hin & (t & Ht & Hlt) & Hread & Hid).
  apply Hid. apply fetched_ids_after_poll.
  destruct (decide (db_id n ∈ default [] (fetched_notification_ids (localStorage st))))
    as [Hold|Hnew]; [left; exact Hold|].
  right. apply list_elem_of_fmap. exists n. split; [reflexivity|].
  apply newNotifications_spec. repeat split; try assumption.
  exists t. split; [exact Ht|lia].
Qed.

Lemma poll_same_response_again_witness :
  fetchOfflineNotifications [] 9100000 (Some scenario_fetch)
    (fetchOfflineNotifications [] 9040000 (Some scenario_fetch) scenario_layout)
  = fetchOfflineNotifications [] 9040000 (Some scenario_fetch) scenario_layout.
Proof.
  apply (poll_same_response_again [] [] 9040000 9100000 scenario_fetch scenario_layout).
  lia.
Defined.

End RepeatedPoll.

(** ** The rows of the dashboard under deltas *)
Section Rows.
Import Dashboard.

Lemma applyDelta_keys (u : Request) (l : list Request) :
  map request_identifier
      (map (fun req => if String.eqb (request_identifier req) (request_identifier u)
                       then spread req u else req) l)
  = map request_identifier l.
Proof.
  rewrite map_map. apply map_ext. intros req.
  destruct (String.eqb_spec (request_identifier req) (request_identifier u)) as [He|];
    [|reflexivity].
  simpl. symmetry. exact He.
Qed.

(** X22: a delta never reorders, drops or doubles rows: the identifiers of the
    list are those it had, in their order, with the identifier of the delta
    put in front if it was not among them; identifiers that were distinct
    stay distinct, and the row of the delta carries its fields. *)
Theorem applyDelta_rows (u : Request) (l : list Request) :
  map request_identifier (applyDelta u l)
  = (if existsb (same_key u) l then map request_identifier l
     else request_identifier u :: map request_identifier l)
  ∧ (NoDup (map request_identifier l) → NoDup (map request_identifier (applyDelta u l)))
  ∧ (∀ req, req ∈ applyDelta u l → request_identifier req = request_identifier u →
       fields u ⊆ fields req).
Proof.
  assert (Hids : map request_identifier (applyDelta u l)
                 = (if existsb (same_key u) l then map request_identifier l
                    else request_identifier u :: map request_identifier l)).
  { unfold applyDelta. cbv zeta.
    change (existsb _ l) with (existsb (same_key u) l).
    destruct (existsb (same_key u) l); simpl; rewrite applyDelta_keys; reflexivity. }
  split; [exact Hids|]. split.
  - intros Hnodup. rewrite Hids.
    destruct (existsb (same_key u) l) eqn:E; [exact Hnodup|].
    apply NoDup_cons. split; [|exact Hnodup].
    intros Hin. apply list_elem_of_fmap in Hin as (req & Hreq & Hin).
    assert (Hex : existsb (same_key u) l = true).
    { apply existsb_exists. exists req. split; [apply list_elem_of_In; exact Hin|].
      unfold same_key. apply String.eqb_eq. symmetry. exact Hreq. }
    congruence.
  - intros req Hin Hkey. unfold applyDelta in Hin. cbv zeta in Hin.
    assert (Hrow : req = u ∨
              req ∈ map (fun r => if String.eqb (request_identifier r) (request_identifier u)
                                  then spread r u else r) l).
    { destruct (existsb _ l); [right; exact Hin|].
      apply elem_of_cons in Hin. exact Hin. }
    destruct Hrow as [->|Hrow]; [reflexivity|].
    apply list_elem_of_fmap in Hrow as (r & -> & _).
    destruct (String.eqb_spec (request_identifier r) (request_identifier u)) as [_|Hne].
    + simpl. apply map_union_subseteq_l.
    + contradiction.
Qed.

Lemma applyDelta_rows_witness :
  NoDup (map request_identifier (applyDelta deployed_delta [pending_delta])).
Proof.
  apply (proj1 (proj2 (applyDelta_rows deployed_delta [pending_delta]))).
  apply NoDup_singleton.
Defined.

End Rows.

(** ** Waiting for an answer *)
Section Waiting.
Import Chat.

Lemma sendMessage_session (trim : string → string) (now : Z) (rnd text : string)
    (s : ChatSession.Session) :
  text ≠ EmptyString →
  ChatSession.connected s = true →
  let s1 := ChatSession.sendMessage trim now rnd (Some text) s in
  processing (ChatSession.chat s1) = true
  ∧ ChatSession.outbox s1
    = ((if ChatSession.wsRef s
        then [ChatSession.ChatMessage text (conversationKey (ChatSession.chat s)) now]
        else []) ++ ChatSession.outbox s)%list
  ∧ ChatSession.inputValue s1 = EmptyString
  ∧ user (ChatSession.chat s1) = user (ChatSession.chat s)
  ∧ processedMessages (ChatSession.chat s1) = processedMessages (ChatSession.chat s).
Proof.
  intros Htext Hconn. apply String.eqb_neq in Htext.
  cbv zeta. unfold ChatSession.sendMessage. cbv zeta.
  replace (Js.or_else (Some text) (trim (ChatSession.inputValue s))) with text
    by (simpl; rewrite Htext; reflexivity).
  rewrite Htext, Hconn. simpl orb. cbv iota.
  unfold ChatSession.wsSendMessage. simpl ChatSession.wsRef.
  simpl ChatSession.connected.
  destruct (ChatSession.wsRef s); simpl andb; cbv iota; simpl ChatSession.chat;
    destruct (has_uid _); repeat split.
Qed.

(** X23: a message goes out only while the connection is open.  Once it has
    gone out the chat waits for the answer: the message is on the socket
    (if there is one) under the key of the conversation, the input is
    empty, and [clearChat] does nothing until a [chat_response] has been
    handled. *)
Theorem sendMessage_waits_for_answer (trim : string → string) (now now' now'' : Z)
    (rnd rnd' rnd'' text : string) (message : option string) (d : WsData)
    (s : ChatSession.Session) :
  (ChatSession.connected s = false →
   ChatSession.sendMessage trim now rnd message s = s)
  ∧ (text ≠ EmptyString →
     ChatSession.connected s = true →
     data_type d = "chat_response" →
     let s1 := ChatSession.sendMessage trim now rnd (Some text) s in
     messageId now'' rnd' d ∉ processedMessages (ChatSession.chat s) →
     ChatSession.outbox s1
     = ((if ChatSession.wsRef s
         then [ChatSession.ChatMessage text (conversationKey (ChatSession.chat s)) now]
         else []) ++ ChatSession.outbox s)%list
     ∧ ChatSession.clearChat now' s1 = s1
     ∧ processing (handleMessage now'' rnd' rnd'' d (ChatSession.chat s1)) = false).
Proof.
  split.
  - intros Hconn. unfold ChatSession.sendMessage. cbv zeta. rewrite Hconn.
    rewrite orb_true_r. reflexivity.
  - intros Htext Hconn Hty. cbv zeta. intros Hfresh.
    destruct (sendMessage_session trim now rnd text s Htext Hconn)
      as (Hproc & Hout & _ & _ & Hseen).
    split; [exact Hout|]. split.
    + unfold ChatSession.clearChat. cbv zeta. rewrite Hproc. reflexivity.
    + unfold handleMessage. cbv zeta. rewrite Hseen.
      rewrite bool_decide_eq_false_2 by exact Hfresh.
      unfold dispatch. rewrite Hty.
      change (String.eqb "chat_response" "connection_ready") with false.
      change (String.eqb "chat_response" "chat_response") with true.
      cbv iota zeta. destruct (greeting d); reflexivity.
Qed.

Lemma sendMessage_waits_for_answer_witness :
  ChatSession.sendMessage (fun x => x) 61000 "k3j9x" None offline_session
  = offline_session
  ∧ (let s1 := ChatSession.sendMessage (fun x => x) 61000 "k3j9x"
                 (Some "create a bucket") open_session in
     ChatSession.clearChat 62000 s1 = s1
     ∧ processing (handleMessage 63000 "r1" "r2" answer (ChatSession.chat s1)) = false).
Proof.
  assert (Htext : "create a bucket" ≠ EmptyString) by discriminate.
  assert (Hfresh : messageId 63000 "r1" answer
                   ∉ processedMessages (ChatSession.chat open_session))
    by apply not_elem_of_nil.
  split.
  - apply (proj1 (sendMessage_waits_for_answer (fun x => x) 61000 62000 63000
                    "k3j9x" "r1" "r2" "create a bucket" None answer offline_session)).
    reflexivity.
  - apply (proj2 (sendMessage_waits_for_answer (fun x => x) 61000 62000 63000
                    "k3j9x" "r1" "r2" "create a bucket" None answer open_session)
             Htext eq_refl eq_refl Hfresh).
Defined.

End Waiting.
